(** * Stock_list: the API access layer and the swing-signal evaluator

    A shallow embedding of [src/client.py], [src/auth.py] and
    [src/swing_signal.py], and the properties of them that the
    specification states.

    Conventions of the embedding.
    - A Python [float] is an exact rational ([Q]): rounding is outside the
      model.  [float()] of an int beyond the range of the floats and
      [int()] of a text beyond it raise [OverflowError] as in Python;
      otherwise a text of digits is read as its exact value.  The
      infinities and NaN are values only where a definition has them (the
      rows of [src/main.py]).  An [int] is a [Z].
    - A Python [str] is a string of ASCII characters.
    - A Python exception is a value of [exn]; a call that may raise returns
      an [outcome].
    - Wall-clock time is an integer number of microseconds; it advances only
      while the program sleeps. *)

From Stdlib Require Import Ascii String.
From Stdlib Require Import ZArith QArith Qminmax Qabs List Bool Lia Lqa.
From Stdlib Require Import Sorting.Sorted Sorting.Permutation.
Import ListNotations.

Local Open Scope Z_scope.

(** ** Exceptions and outcomes *)

Inductive exn : Type :=
| ValueError
| OverflowError
| RuntimeError
| HTTPStatusError (status : Z)
| TransportError.

Inductive outcome (A : Type) : Type :=
| Returned (a : A)
| Raised (e : exn).

Arguments Returned {A} a.
Arguments Raised {A} e.

Definition bind {A B : Type} (m : outcome A) (k : A -> outcome B) : outcome B :=
  match m with
  | Returned a => k a
  | Raised e => Raised e
  end.

Notation "'let*' x ':=' m 'in' k" := (bind m (fun x => k))
  (at level 10, x name, m at level 100, k at level 200).

(** ** Python built-ins on lists *)

Module Py.

(** [l[start:stop]] with step 1: a negative bound counts from the end, and
    both bounds are clamped to [0 .. len(l)]. *)
Definition adjust (n : Z) (i : Z) : Z :=
  if i <? 0 then Z.max 0 (i + n) else Z.min i n.

Definition slice {A : Type} (start stop : option Z) (l : list A) : list A :=
  let n := Z.of_nat (length l) in
  let lo := match start with None => 0 | Some i => adjust n i end in
  let hi := match stop with None => n | Some j => adjust n j end in
  firstn (Z.to_nat (hi - lo)) (skipn (Z.to_nat lo) l).

(** [l[-1]], behind a guard that makes [l] non-empty. *)
Definition last_item (l : list Q) : Q := last l 0%Q.

(** [max(l)]: the first greatest item; [ValueError] on an empty list. *)
Definition max_from (m : Q) (l : list Q) : Q :=
  fold_left (fun acc x => if Qle_bool x acc then acc else x) l m.

Definition max (l : list Q) : outcome Q :=
  match l with
  | [] => Raised ValueError
  | x :: l' => Returned (max_from x l')
  end.

(** [sum(l)], accumulated from the left starting at 0. *)
Definition sum (l : list Q) : Q := fold_left Qplus l 0%Q.

Definition sumZ (l : list Z) : Z := fold_left Z.add l 0.

End Py.

(** ** The swing-signal evaluator ([src/swing_signal.py]) *)

Module Swing.

Local Open Scope Q_scope.

Record SignalRow : Type := mkSignalRow {
  code : string;
  name : string;
  current_price : Q;
  retrace_pct : Q;
  short_ma : Q;
  long_ma : Q;
  volume_ratio : Q;
  pullback_ok : bool;
  rebound_ok : bool;
  signal : bool;
  signal_score : Q
}.

(** [a < b] on floats. *)
Definition Qlt_bool (a b : Q) : bool := negb (Qle_bool b a).

(** [avg]: 0.0 for an empty list, else [sum / len]. *)
Definition avg (values : list Q) : Q :=
  match values with
  | [] => 0
  | _ => Py.sum values / inject_Z (Z.of_nat (length values))
  end.

(** The volumes are ints; [avg] divides their sum as a float. *)
Definition ints (l : list Z) : list Q := map inject_Z l.

Definition evaluate_signal (code name : string)
    (closes : list Q) (volumes : list Z)
    (recent_high_bars : Z) (pullback_min pullback_max min_vol_ratio : Q)
    : outcome (option SignalRow) :=
  if (length closes <? 30)%nat then Returned None else
  let current := Py.last_item closes in
  let high_slice :=
    if (recent_high_bars <=? Z.of_nat (length closes))%Z
    then Py.slice (Some (- recent_high_bars)%Z) None closes
    else closes in
  let* recent_high := Py.max high_slice in
  let retrace :=
    if Qlt_bool 0 recent_high
    then (recent_high - current) / recent_high * 100
    else 0 in
  let short_ma := avg (Py.slice (Some (-5)%Z) None closes) in
  let long_ma := avg (Py.slice (Some (-20)%Z) None closes) in
  let* prev5_high :=
    if (6 <=? length closes)%nat
    then Py.max (Py.slice (Some (-6)%Z) (Some (-1)%Z) closes)
    else Returned current in
  let recent_vol := avg (ints (Py.slice (Some (-5)%Z) None volumes)) in
  let prev_vol := avg (ints (Py.slice (Some (-25)%Z) (Some (-5)%Z) volumes)) in
  let vol_ratio := if Qlt_bool 0 prev_vol then recent_vol / prev_vol else 0 in
  let pullback_ok :=
    (Qle_bool pullback_min retrace && Qle_bool retrace pullback_max)
    && (Qlt_bool 0 long_ma && Qle_bool (long_ma * (98 # 100)) current) in
  let rebound_ok :=
    Qle_bool prev5_high current && Qle_bool long_ma short_ma
    && Qle_bool min_vol_ratio vol_ratio in
  let signal := pullback_ok && rebound_ok in
  let score := 0 in
  let score := score + (if pullback_ok then 40 else 0) in
  let score := score + (if rebound_ok then 40 else 0) in
  let score := score + Qmin 20 (Qmax 0 ((vol_ratio - 1) * 20)) in
  Returned (Some (mkSignalRow code name current retrace short_ma long_ma
                    vol_ratio pullback_ok rebound_ok signal score)).

(** The defaults of [parse_args]. *)
Definition default_recent_high_bars : Z := 120%Z.
Definition default_pullback_min : Q := 3.
Definition default_pullback_max : Q := 15.
Definition default_min_vol_ratio : Q := 1.

(** The closes of the end-to-end example. *)
Definition example_closes : list Q :=
  repeat 100 20 ++ [90; 88; 87; 86; 85] ++ [95; 97; 99; 101; 103].

End Swing.

(** ** Batch ordering ([main] of [src/swing_signal.py]) *)

Module Batch.

Import Swing.

(** The sort key [(x.signal, x.signal_score, x.volume_ratio)]. *)
Definition sort_key (x : SignalRow) : bool * Q * Q :=
  (signal x, signal_score x, volume_ratio x).

(** [a < b] on key tuples: the first position where the tuples differ
    decides, with [False < True] on the booleans. *)
Definition key_lt (a b : bool * Q * Q) : bool :=
  let '(s1, c1, v1) := a in
  let '(s2, c2, v2) := b in
  if negb (Bool.eqb s1 s2) then negb s1 && s2
  else if negb (Qeq_bool c1 c2) then Qlt_bool c1 c2
  else Qlt_bool v1 v2.

(** [list.sort] is stable and compares with [<] only.  The stable sort is
    written as an insertion sort: an item goes in front of the first item
    that is not smaller than it. *)
Fixpoint insert_by {A : Type} (lt : A -> A -> bool) (x : A) (l : list A)
    : list A :=
  match l with
  | [] => [x]
  | y :: l' => if lt y x then y :: insert_by lt x l' else x :: l
  end.

Definition stable_sort {A : Type} (lt : A -> A -> bool) (l : list A)
    : list A :=
  fold_right (insert_by lt) [] l.

(** [l.sort(key=..., reverse=True)]: the list is reversed, sorted stably in
    ascending order, and reversed again. *)
Definition sort_reverse {A : Type} (lt : A -> A -> bool) (l : list A)
    : list A :=
  rev (stable_sort lt (rev l)).

Definition row_lt (x y : SignalRow) : bool :=
  key_lt (sort_key x) (sort_key y).

(** [rows.sort(key=lambda x: (x.signal, x.signal_score, x.volume_ratio),
    reverse=True)]. *)
Definition sort_rows (rows : list SignalRow) : list SignalRow :=
  sort_reverse row_lt rows.

End Batch.

(** ** Python built-ins on strings *)

Module PyStr.

Local Open Scope nat_scope.

Definition code_in (lo hi : nat) (c : ascii) : bool :=
  (lo <=? nat_of_ascii c) && (nat_of_ascii c <=? hi).

Definition is_digit (c : ascii) : bool := code_in 48 57 c.

Definition digit_value (c : ascii) : Z :=
  (Z.of_nat (nat_of_ascii c) - 48)%Z.

(** [str.isspace] on ASCII: tab to carriage return, the four separators
    0x1c..0x1f, and the space. *)
Definition str_isspace (c : ascii) : bool :=
  code_in 9 13 c || code_in 28 31 c || code_in 32 32 c.

(** The C-level [Py_ISSPACE] that [float()] and [int()] strip with. *)
Definition c_isspace (c : ascii) : bool :=
  code_in 9 13 c || code_in 32 32 c.

Definition is_sign (c : ascii) : bool :=
  Ascii.eqb c "+" || Ascii.eqb c "-".

Definition is_comma (c : ascii) : bool := Ascii.eqb c ",".

Fixpoint lstrip (p : ascii -> bool) (s : string) : string :=
  match s with
  | String c s' => if p c then lstrip p s' else s
  | EmptyString => EmptyString
  end.

Fixpoint rstrip (p : ascii -> bool) (s : string) : string :=
  match s with
  | EmptyString => EmptyString
  | String c s' =>
      match rstrip p s' with
      | EmptyString => if p c then EmptyString else String c EmptyString
      | r => String c r
      end
  end.

(** [s.strip()]. *)
Definition strip (s : string) : string :=
  rstrip str_isspace (lstrip str_isspace s).

(** [s.replace(",", "")]. *)
Fixpoint remove_commas (s : string) : string :=
  match s with
  | EmptyString => EmptyString
  | String c s' =>
      if is_comma c then remove_commas s' else String c (remove_commas s')
  end.

(** Reads a run of decimal digits: the value so far, how many were read,
    and what follows them. *)
Fixpoint read_digits (s : string) (acc : Z) (count : nat)
    : Z * nat * string :=
  match s with
  | String c s' =>
      if is_digit c
      then read_digits s' (10 * acc + digit_value c)%Z (S count)
      else (acc, count, s)
  | EmptyString => (acc, count, s)
  end.

Definition is_empty (s : string) : bool :=
  match s with EmptyString => true | _ => false end.

Definition take_sign (s : string) : bool * string :=
  match s with
  | String c s' =>
      if Ascii.eqb c "-" then (true, s')
      else if Ascii.eqb c "+" then (false, s')
      else (false, s)
  | EmptyString => (false, s)
  end.

(** [float(s)] on plain decimal text: surrounding white space, an optional
    sign, digits with an optional fraction.  Python also reads exponents,
    digit-group underscores and the words inf and nan; those forms have no
    value here and are answered with [ValueError] like any other text. *)
Definition float (s : string) : outcome Q :=
  let s := rstrip c_isspace (lstrip c_isspace s) in
  let '(negative, s) := take_sign s in
  let '(ip, n1, rest) := read_digits s 0%Z 0 in
  let '(fp, n2, rest) :=
    match rest with
    | String c r => if Ascii.eqb c "." then read_digits r 0%Z 0 else (0%Z, 0, rest)
    | EmptyString => (0%Z, 0, rest)
    end in
  if is_empty rest && (0 <? n1 + n2)
  then
    let magnitude :=
      (inject_Z ip + inject_Z fp / inject_Z (10 ^ Z.of_nat n2))%Q in
    Returned (if negative then Qopp magnitude else magnitude)
  else Raised ValueError.

(** [int(s)] on decimal text: surrounding white space, an optional sign,
    at least one digit. *)
Definition int (s : string) : outcome Z :=
  let s := rstrip c_isspace (lstrip c_isspace s) in
  let '(negative, s) := take_sign s in
  let '(v, n, rest) := read_digits s 0%Z 0 in
  if is_empty rest && (0 <? n)
  then Returned (if negative then - v else v)%Z
  else Raised ValueError.

(** Where the floats end: a number of magnitude [2**1024 - 2**970] or more
    rounds beyond the largest float. *)
Definition FLOAT_LIMIT : Z := (2 ^ 1024 - 2 ^ 970)%Z.

(** [float(z)] of an int: an [OverflowError] when the int rounds beyond
    the largest float. *)
Definition float_of_int (z : Z) : outcome Q :=
  if (Z.abs z <? FLOAT_LIMIT)%Z then Returned (inject_Z z)
  else Raised OverflowError.

End PyStr.

(** ** Price parsing ([src/client.py]) *)

Module Price.

(** The argument of [parse_price]: [str | int | float | None].  A float
    argument is a number here: NaN and the infinities, of which [abs]
    makes NaN and infinity, are not values of the model. *)
Inductive value : Type :=
| VNone
| VInt (z : Z)
| VFloat (q : Q)
| VStr (s : string).

Definition parse_price (v : value) : outcome Q :=
  match v with
  | VNone => Returned 0%Q
  | VInt z => let* x := PyStr.float_of_int z in Returned (Qabs x)
  | VFloat q => Returned (Qabs q)
  | VStr s =>
      let clean :=
        PyStr.lstrip PyStr.is_sign (PyStr.remove_commas (PyStr.strip s)) in
      if PyStr.is_empty clean then Returned 0%Q else PyStr.float clean
  end.

(** A well-formed price string: an optional leading sign, then digits and
    thousands separators with at least one digit. *)
Fixpoint digits_and_commas (s : string) : bool :=
  match s with
  | EmptyString => true
  | String c s' =>
      (PyStr.is_digit c || PyStr.is_comma c) && digits_and_commas s'
  end.

Fixpoint has_digit (s : string) : bool :=
  match s with
  | EmptyString => false
  | String c s' => PyStr.is_digit c || has_digit s'
  end.

Definition well_formed (s : string) : bool :=
  let body :=
    match s with
    | String c s' => if PyStr.is_sign c then s' else s
    | EmptyString => s
    end in
  digits_and_commas body && has_digit body.

End Price.

(** ** Dates and times ([datetime] of the Python library) *)

Module DateTime.

Record datetime : Type := mkdatetime {
  year : Z; month : Z; day : Z;
  hour : Z; minute : Z; second : Z;
  microsecond : Z
}.

Definition is_leap (y : Z) : bool :=
  (y mod 4 =? 0) && (negb (y mod 100 =? 0) || (y mod 400 =? 0)).

Definition days_before_year (y : Z) : Z :=
  let p := y - 1 in p * 365 + p / 4 - p / 100 + p / 400.

Definition days_in_month (y m : Z) : Z :=
  if (m =? 2) && is_leap y then 29
  else nth (Z.to_nat m) [-1; 31; 28; 31; 30; 31; 30; 31; 31; 30; 31; 30; 31] (-1).

Definition days_before_month (y m : Z) : Z :=
  nth (Z.to_nat m) [-1; 0; 31; 59; 90; 120; 151; 181; 212; 243; 273; 304; 334] (-1)
  + (if (2 <? m) && is_leap y then 1 else 0).

(** Day 1 is 0001-01-01. *)
Definition ymd2ord (y m d : Z) : Z :=
  days_before_year y + days_before_month y m + d.

(** The field ranges the [datetime] constructor enforces. *)
Definition fields_ok (t : datetime) : bool :=
  (1 <=? year t) && (year t <=? 9999)
  && (1 <=? month t) && (month t <=? 12)
  && (1 <=? day t) && (day t <=? days_in_month (year t) (month t))
  && (0 <=? hour t) && (hour t <=? 23)
  && (0 <=? minute t) && (minute t <=? 59)
  && (0 <=? second t) && (second t <=? 59).

(** Microseconds elapsed since 0001-01-01T00:00:00.  Naive datetimes
    compare as their timestamps do. *)
Definition timestamp (t : datetime) : Z :=
  ((((ymd2ord (year t) (month t) (day t) - 1) * 24 + hour t) * 60
    + minute t) * 60 + second t) * 1000000 + microsecond t.

Definition seconds (n : Z) : Z := n * 1000000.
Definition minutes (n : Z) : Z := n * 60000000.

(** [t - timedelta]: the timestamp of the result; [OverflowError] when it
    falls before 0001-01-01T00:00:00. *)
Definition sub (t : datetime) (delta : Z) : outcome Z :=
  if timestamp t - delta <? 0 then Raised OverflowError
  else Returned (timestamp t - delta).

(** *** [datetime.strptime(s, "%Y%m%d%H%M%S")]

    The format compiles to the regular expression
    [(\d\d\d\d)(1[0-2]|0[1-9]|[1-9])(3[0-1]|[1-2]\d|0[1-9]|[1-9]| [1-9])
     (2[0-3]|[0-1]\d|\d)([0-5]\d|\d)(6[0-1]|[0-5]\d|\d)]
    matched at the start of [s] by a backtracking matcher that tries the
    alternatives of a group from left to right. *)

Definition char_class : Type := ascii -> bool.

Definition digit : char_class := PyStr.is_digit.
Definition between (lo hi : ascii) : char_class :=
  PyStr.code_in (nat_of_ascii lo) (nat_of_ascii hi).
Definition only (c : ascii) : char_class := Ascii.eqb c.

(** One alternative: a fixed run of character classes. *)
Fixpoint match_run (run : list char_class) (s : string)
    : option (string * string) :=
  match run with
  | [] => Some (EmptyString, s)
  | p :: run' =>
      match s with
      | String c s' =>
          if p c then
            match match_run run' s' with
            | Some (m, rest) => Some (String c m, rest)
            | None => None
            end
          else None
      | EmptyString => None
      end
  end.

Definition group : Type := list (list char_class).

(** Every way a group matches a prefix of [s], in the order tried. *)
Definition match_group (g : group) (s : string) : list (string * string) :=
  flat_map (fun run =>
              match match_run run s with
              | Some m => [m]
              | None => []
              end) g.

(** Every way the groups match in sequence, in the order tried: the
    captured texts and the unmatched remainder. *)
Fixpoint match_groups (gs : list group) (s : string)
    : list (list string * string) :=
  match gs with
  | [] => [([], s)]
  | g :: gs' =>
      flat_map (fun '(m, rest) =>
                  map (fun '(ms, rest') => (m :: ms, rest'))
                      (match_groups gs' rest))
               (match_group g s)
  end.

Definition group_Y : group := [[digit; digit; digit; digit]].
Definition group_m : group :=
  [[only "1"; between "0" "2"]; [only "0"; between "1" "9"]; [between "1" "9"]].
Definition group_d : group :=
  [[only "3"; between "0" "1"]; [between "1" "2"; digit];
   [only "0"; between "1" "9"]; [between "1" "9"]; [only " "; between "1" "9"]].
Definition group_H : group :=
  [[only "2"; between "0" "3"]; [between "0" "1"; digit]; [digit]].
Definition group_M : group := [[between "0" "5"; digit]; [digit]].
Definition group_S : group :=
  [[only "6"; between "0" "1"]; [between "0" "5"; digit]; [digit]].

(** [int()] of a captured text (digits, for the day after one space). *)
Definition field (m : string) : Z :=
  match PyStr.int m with
  | Returned v => v
  | Raised _ => 0
  end.

(** The first match decides; text left over after it, a field out of range
    or a day the month does not have is a [ValueError]. *)
Definition strptime (s : string) : outcome datetime :=
  match match_groups [group_Y; group_m; group_d; group_H; group_M; group_S] s with
  | ([f_Y; f_m; f_d; f_H; f_M; f_S], rest) :: _ =>
      if PyStr.is_empty rest then
        let t := mkdatetime (field f_Y) (field f_m) (field f_d)
                            (field f_H) (field f_M) (field f_S) 0 in
        if fields_ok t then Returned t else Raised ValueError
      else Raised ValueError
  | _ => Raised ValueError
  end.

End DateTime.

(** ** State: the client objects and the world they talk to *)

Module Net.

(** A decoded JSON value. *)
#[local] Unset Elimination Schemes.
Inductive Json : Type :=
| JNull
| JBool (b : bool)
| JInt (z : Z)
| JFloat (q : Q)
| JStr (s : string)
| JList (l : list Json)
| JDict (d : list (string * Json)).
#[local] Set Elimination Schemes.

(** The decoded answer of the token endpoint: the fields read from it. *)
Record TokenResult : Type := mkTokenResult {
  r_token : option string;
  r_access_token : option string;
  r_token_type : option string;
  r_expires_dt : option string
}.

Inductive TokenReply : Type :=
| TokenAnswered (status : Z) (result : TokenResult)
| TokenFailed.

(** An HTTP response of an API endpoint: the status, the [Retry-After]
    header when present, and what [response.json()] gives. *)
Record Response : Type := mkResponse {
  status_code : Z;
  retry_after : option string;
  json : outcome Json
}.

Inductive ApiReply : Type :=
| Answered (r : Response)
| Failed.

Inductive SleepSite : Type := Pacing | Backoff.

Inductive Event : Type :=
| Slept (site : SleepSite) (duration : Z)
| TokenPosted
| ApiPosted (url : string) (headers : list (string * string)) (body : Json).

Record Token : Type := mkToken {
  access_token : string;
  token_type : string;
  expires_dt : string
}.

(** [_token] is the slot of the token manager, [_last_request_time] the
    pacing clock of the client (microseconds of [time.time()]).  [clock] is
    the wall clock in microseconds since 0001-01-01T00:00:00; the scripted
    replies are what the two kinds of endpoint answer next; [trace] records
    the sleeps and the requests, oldest first. *)
Record State : Type := mkState {
  _token : option Token;
  _last_request_time : Z;
  clock : Z;
  token_replies : list TokenReply;
  api_replies : list ApiReply;
  trace : list Event
}.

Definition set_token (t : option Token) (st : State) : State :=
  mkState t (_last_request_time st) (clock st) (token_replies st)
          (api_replies st) (trace st).

Definition set_last_request_time (v : Z) (st : State) : State :=
  mkState (_token st) v (clock st) (token_replies st) (api_replies st)
          (trace st).

Definition set_clock (v : Z) (st : State) : State :=
  mkState (_token st) (_last_request_time st) v (token_replies st)
          (api_replies st) (trace st).

Definition set_token_replies (l : list TokenReply) (st : State) : State :=
  mkState (_token st) (_last_request_time st) (clock st) l (api_replies st)
          (trace st).

Definition set_api_replies (l : list ApiReply) (st : State) : State :=
  mkState (_token st) (_last_request_time st) (clock st) (token_replies st)
          l (trace st).

Definition record_event (e : Event) (st : State) : State :=
  mkState (_token st) (_last_request_time st) (clock st) (token_replies st)
          (api_replies st) (trace st ++ [e]).

(** Computations that read and change the state and may raise. *)
Definition M (A : Type) : Type := State -> outcome A * State.

Definition ret {A : Type} (a : A) : M A := fun st => (Returned a, st).
Definition raise {A : Type} (e : exn) : M A := fun st => (Raised e, st).
Definition lift {A : Type} (o : outcome A) : M A := fun st => (o, st).

Definition mbind {A B : Type} (m : M A) (k : A -> M B) : M B :=
  fun st =>
    match m st with
    | (Returned a, st') => k a st'
    | (Raised e, st') => (Raised e, st')
    end.

Definition get : M State := fun st => (Returned st, st).
Definition modify (f : State -> State) : M unit :=
  fun st => (Returned tt, f st).

(** [httpx.Response.is_success]; [raise_for_status] raises on the rest. *)
Definition is_success (status : Z) : bool :=
  (200 <=? status) && (status <=? 299).

(** [time.time()], in microseconds since the Unix epoch. *)
Definition unix_epoch : Z :=
  DateTime.timestamp (DateTime.mkdatetime 1970 1 1 0 0 0 0).

Definition time_time (st : State) : Z := clock st - unix_epoch.

(** [time.sleep(d)] for a length of [d] microseconds that [time.sleep] can
    take: a negative length is a [ValueError]; otherwise the clock advances
    by [d]. *)
Definition sleep (site : SleepSite) (d : Z) : M unit :=
  fun st =>
    if d <? 0 then (Raised ValueError, st)
    else (Returned tt, record_event (Slept site d) (set_clock (clock st + d) st)).

(** The longest length [time.sleep] converts, in whole seconds.  The
    length is turned into a signed 64-bit count of nanoseconds first; an
    int [n] with [n * 10**9] outside that range is an [OverflowError],
    whatever its sign. *)
Definition MAX_SLEEP : Z := 9223372036.

(** [time.sleep(n)] for an int [n] of seconds.  A length within the range
    is slept as far as Python goes; near the top of the range the
    operating system may still refuse the deadline, which is not
    modelled: the statements below bound the lengths they sleep. *)
Definition sleep_seconds (site : SleepSite) (n : Z) : M unit :=
  fun st =>
    if (n <? - MAX_SLEEP) || (MAX_SLEEP <? n) then (Raised OverflowError, st)
    else sleep site (DateTime.seconds n) st.

End Net.

Notation "x <- m ;; k" := (Net.mbind m (fun x => k))
  (at level 61, m at next level, right associativity).
Notation "m ;;; k" := (Net.mbind m (fun _ => k))
  (at level 61, right associativity).

(** ** Configuration ([src/config.py]) *)

Record KiwoomConfig : Type := mkKiwoomConfig {
  app_key : string;
  app_secret : string;
  account_no : string;
  is_paper : bool;
  base_url : string
}.

(** ** The token manager ([src/auth.py]) *)

Module Auth.

Import Net.

(** [Token.is_expired], read at wall-clock time [now]. *)
Definition is_expired (now : Z) (t : Token) : outcome bool :=
  if PyStr.is_empty (expires_dt t) then Returned false
  else
    match DateTime.strptime (expires_dt t) with
    | Returned expires_time =>
        let* limit := DateTime.sub expires_time (DateTime.minutes 1) in
        Returned (limit <=? now)
    | Raised ValueError => Returned false
    | Raised e => Raised e
    end.

(** [a or b] on optional strings: [a] when it is a non-empty string. *)
Definition truthy (a : option string) : bool :=
  match a with
  | Some s => negb (PyStr.is_empty s)
  | None => false
  end.

Definition py_or (a b : option string) : option string :=
  if truthy a then a else b.

Definition get_default (a : option string) (d : string) : string :=
  match a with
  | Some s => s
  | None => d
  end.

(** [client.post(url, json=payload)] to the token endpoint. *)
Definition post_token : M (Z * TokenResult) :=
  fun st =>
    let st := record_event TokenPosted st in
    match token_replies st with
    | TokenAnswered status result :: later =>
        (Returned (status, result), set_token_replies later st)
    | TokenFailed :: later => (Raised TransportError, set_token_replies later st)
    | [] => (Raised TransportError, st)
    end.

Definition _refresh_token : M unit :=
  reply <- post_token ;;
  let '(status, result) := reply in
  if is_success status then
    let token := py_or (r_token result) (r_access_token result) in
    if truthy token then
      modify (set_token (Some (mkToken (get_default token "")
                                       (get_default (r_token_type result) "Bearer")
                                       (get_default (r_expires_dt result) ""))))
    else raise RuntimeError
  else raise (HTTPStatusError status).

(** The slot is filled whenever [token] reads it after a refresh. *)
Definition read_access_token : M string :=
  st <- get ;;
  match _token st with
  | Some t => ret (access_token t)
  | None => raise RuntimeError
  end.

(** The [token] property. *)
Definition token : M string :=
  st <- get ;;
  stale <- lift (match _token st with
                 | None => Returned true
                 | Some t => is_expired (clock st) t
                 end) ;;
  (if stale : bool then _refresh_token else ret tt) ;;;
  read_access_token.

Definition get_auth_header (api_id : string) : M (list (string * string)) :=
  tok <- token ;;
  ret [("api-id", api_id);
       ("authorization", "Bearer " ++ tok);
       ("content-type", "application/json;charset=UTF-8")]%string.

End Auth.

(** ** The request executor ([src/client.py]) *)

Module Client.

Import Net.

(** 0.35 seconds. *)
Definition MIN_REQUEST_INTERVAL : Z := 350000.

Definition _wait_for_rate_limit : M unit :=
  st <- get ;;
  let elapsed := time_time st - _last_request_time st in
  (if elapsed <? MIN_REQUEST_INTERVAL
   then sleep Pacing (MIN_REQUEST_INTERVAL - elapsed)
   else ret tt) ;;;
  st <- get ;;
  modify (set_last_request_time (time_time st)).

(** [client.post(url, headers=headers, json=body)]. *)
Definition post (url : string) (headers : list (string * string))
    (body : Json) : M Response :=
  fun st =>
    let st := record_event (ApiPosted url headers body) st in
    match api_replies st with
    | Answered r :: later => (Returned r, set_api_replies later st)
    | Failed :: later => (Raised TransportError, set_api_replies later st)
    | [] => (Raised TransportError, st)
    end.

(** What [_request] returns when the loop ends without a return. *)
Definition request_failed : Json :=
  JDict [("return_code", JInt 1); ("return_msg", JStr "request failed")]%string.

(** [range(n)]. *)
Definition range (n : Z) : list Z := map Z.of_nat (seq 0 (Z.to_nat n)).

(** [int(retry_after) if retry_after else (attempt + 1) * 2], in seconds. *)
Definition wait_seconds (header : option string) (attempt : Z) : outcome Z :=
  match header with
  | Some s => if PyStr.is_empty s then Returned ((attempt + 1) * 2) else PyStr.int s
  | None => Returned ((attempt + 1) * 2)
  end.

Section Request.

Variable config : KiwoomConfig.
Variables (api_id path : string) (body : Json).
Variables (cont_yn next_key : string) (retry_count : Z).

(** The iterations of [for attempt in range(retry_count)] that are still
    to run, and the statement after the loop.  Only an [HTTPStatusError]
    is caught; it is raised again on the last attempt and dropped on the
    others, where the loop goes on with the next attempt. *)
Fixpoint attempts (todo : list Z) : M Json :=
  match todo with
  | [] => ret request_failed
  | attempt :: later =>
      _wait_for_rate_limit ;;;
      headers <- Auth.get_auth_header api_id ;;
      let headers :=
        if PyStr.is_empty cont_yn then headers
        else headers ++ [("cont-yn"%string, cont_yn)] in
      let headers :=
        if PyStr.is_empty next_key then headers
        else headers ++ [("next-key"%string, next_key)] in
      response <- post (base_url config ++ path) headers body ;;
      if (status_code response =? 429) && (attempt <? retry_count - 1)
      then
        wait_s <- lift (wait_seconds (retry_after response) attempt) ;;
        sleep_seconds Backoff wait_s ;;;
        attempts later
      else if is_success (status_code response)
      then lift (json response)
      else if attempt =? retry_count - 1
      then raise (HTTPStatusError (status_code response))
      else attempts later
  end.

Definition _request : M Json := attempts (range retry_count).

End Request.

End Client.

(** ** Vocabulary of the statements *)

Module Terms.

Import Swing Net Client.
Local Open Scope Q_scope.

(** The lengths of the backoff sleeps in a trace, oldest first. *)
Fixpoint backoffs (tr : list Event) : list Z :=
  match tr with
  | [] => []
  | Slept Backoff d :: tr' => d :: backoffs tr'
  | _ :: tr' => backoffs tr'
  end.

(** The backoff a rate-limited response asks for at an attempt. *)
Definition delay (r : Response) (attempt : Z) : Z :=
  match wait_seconds (retry_after r) attempt with
  | Returned w => DateTime.seconds w
  | Raised _ => 0%Z
  end.

(** The [Retry-After] header is absent, empty, or a count of seconds. *)
Definition retry_after_ok (r : Response) : bool :=
  match retry_after r with
  | None => true
  | Some s =>
      PyStr.is_empty s
      || match PyStr.int s with
         | Returned w => (0 <=? w)%Z
         | Raised _ => false
         end
  end.


Definition other_error (r : Response) : bool :=
  negb (is_success (status_code r)) && negb (status_code r =? 429)%Z.

Definition retriable (r : Response) : bool :=
  negb (is_success (status_code r))
  && (negb (status_code r =? 429)%Z || retry_after_ok r).

(** The backoffs slept while the error responses [errs] answer the
    attempts from [attempt] on. *)
Fixpoint delays (retry_count : Z) (attempt : Z) (errs : list Response)
    : list Z :=
  match errs with
  | [] => []
  | r :: errs' =>
      (if (status_code r =? 429)%Z && (attempt <? retry_count - 1)%Z
       then [delay r attempt] else [])
      ++ delays retry_count (attempt + 1)%Z errs'
  end.

(** The attempts [a, a+1, ..., a+m-1]. *)
Definition from (a m : nat) : list Z := map Z.of_nat (seq a m).

(** The sum of a list of durations. *)
Definition total (l : list Z) : Z := fold_right Z.add 0%Z l.

(** The pacing clock is not ahead of the wall clock. *)
Definition paced (st : State) : Prop :=
  (_last_request_time st <= time_time st)%Z.

(** A token is cached and is not yet expired at the time [horizon]. *)
Definition fresh_until (horizon : Z) (st : State) : Prop :=
  exists tok, _token st = Some tok
              /\ Auth.is_expired horizon tok = Returned false.

(** The token that a reply of the token endpoint grants. *)
Definition granted (result : TokenResult) : Token :=
  mkToken (Auth.get_default
             (Auth.py_or (r_token result) (r_access_token result)) "")
          (Auth.get_default (r_token_type result) "Bearer")
          (Auth.get_default (r_expires_dt result) "").

(** The [token] property will not fail up to the time [horizon]: a token
    is cached that is not yet expired at [horizon]; or no token is cached,
    or the cached one is expired by now, and the token endpoint answers
    next with a token that is not yet expired at [horizon]. *)
Definition token_ready (horizon : Z) (st : State) : Prop :=
  fresh_until horizon st
  \/ ((_token st = None
       \/ exists tok, _token st = Some tok
                      /\ Auth.is_expired (clock st) tok = Returned true)
      /\ exists status result later,
           token_replies st = TokenAnswered status result :: later
           /\ is_success status = true
           /\ Auth.truthy
                (Auth.py_or (r_token result) (r_access_token result)) = true
           /\ Auth.is_expired horizon (granted result) = Returned false).

(** The longest backoff the statements let the loop sleep: 10**8 seconds,
    some three years, which every [time.sleep] takes. *)
Definition LONGEST_BACKOFF : Z := 100000000.

Definition sleepable (l : list Z) : Prop :=
  Forall (fun d => d <= DateTime.seconds LONGEST_BACKOFF)%Z l.

(** The longest the loop takes over the error responses [errs], answered
    from [attempt] on: a pacing interval for each and the backoffs. *)
Definition busy (retry_count : Z) (attempt : Z) (errs : list Response) : Z :=
  (MIN_REQUEST_INTERVAL * Z.of_nat (length errs)
   + total (delays retry_count attempt errs))%Z.

(** The same from the first attempt, with the pacing interval of one more
    attempt. *)
Definition time_needed (retry_count : Z) (errs : list Response) : Z :=
  (busy retry_count 0 errs + MIN_REQUEST_INTERVAL)%Z.

(** A session for the examples: the clock at 2024-03-01T12:00:00, a cached
    token that expires an hour later, no request made so far, and the given
    replies of the API endpoint. *)
Definition sample_config : KiwoomConfig :=
  mkKiwoomConfig "key" "secret" "0000" true "https://mockapi.kiwoom.com".

Definition session (replies : list ApiReply) : State :=
  mkState (Some (mkToken "abc" "Bearer" "20240301130000")) 0%Z
          (DateTime.timestamp (DateTime.mkdatetime 2024 3 1 12 0 0 0))
          [] replies [].

(** The same session before its first request: no token is cached yet, and
    the token endpoint will grant the token of [session]. *)
Definition first_session (replies : list ApiReply) : State :=
  mkState None 0%Z
          (DateTime.timestamp (DateTime.mkdatetime 2024 3 1 12 0 0 0))
          [TokenAnswered 200 (mkTokenResult (Some "abc"%string) None None
                                            (Some "20240301130000"%string))]
          replies [].

Definition answer (status : Z) (payload : Json) : ApiReply :=
  Answered (mkResponse status None (Returned payload)).

(** The two volume windows: the last 5 bars and the 20 bars before them
    (bars [-25:-5]). *)
Definition recent_window (volumes : list Z) : list Z :=
  Py.slice (Some (-5)%Z) None volumes.

Definition trailing_window (volumes : list Z) : list Z :=
  Py.slice (Some (-25)%Z) (Some (-5)%Z) volumes.

(** In the order of signals, [false] comes before [true]. *)
Definition signal_le (x y : SignalRow) : Prop :=
  signal x = true -> signal y = true.

(** Every character of [s] satisfies [p]. *)
Fixpoint every (p : ascii -> bool) (s : string) : bool :=
  match s with
  | EmptyString => true
  | String c s' => p c && every p s'
  end.

(** [x] held between [lo] and [hi]. *)
Definition clamp (lo hi x : Q) : Q :=
  if Qlt_bool x lo then lo else if Qlt_bool hi x then hi else x.

Definition points (b : bool) : Q := if b then 40 else 0.

(** How the fields of a returned row depend on each other and on the
    volumes and thresholds. *)
Definition row_of (volumes : list Z) (pullback_min pullback_max : Q)
    (r : SignalRow) : Prop :=
  volume_ratio r
    = (if Qlt_bool 0 (avg (ints (trailing_window volumes)))
       then avg (ints (recent_window volumes))
            / avg (ints (trailing_window volumes))
       else 0)
  /\ pullback_ok r
    = ((Qle_bool pullback_min (retrace_pct r)
        && Qle_bool (retrace_pct r) pullback_max)
       && (Qlt_bool 0 (long_ma r)
           && Qle_bool (long_ma r * (98 # 100)) (current_price r)))
  /\ signal r = pullback_ok r && rebound_ok r
  /\ signal_score r
    = 0 + (if pullback_ok r then 40 else 0)
        + (if rebound_ok r then 40 else 0)
        + Qmin 20 (Qmax 0 ((volume_ratio r - 1) * 20)).

End Terms.

(** * More of the code

    The rest of [src/swing_signal.py], [src/auth.py], [src/client.py],
    [src/config.py] and the row filter of [src/main.py]. *)

(** ** JSON values as the Python values they decode to *)

Module PyVal.

Import Net.

(** A [dict] is written as the list of its items, each key once. *)
Definition dict : Type := list (string * Json).

(** The truth value of a Python value. *)
Definition truthy (v : Json) : bool :=
  match v with
  | JNull => false
  | JBool b => b
  | JInt z => negb (z =? 0)
  | JFloat q => negb (Qeq_bool q 0)
  | JStr s => negb (PyStr.is_empty s)
  | JList l => match l with [] => false | _ => true end
  | JDict d => match d with [] => false | _ => true end
  end.

(** [a or b]. *)
Definition py_or (a b : Json) : Json := if truthy a then a else b.

Fixpoint lookup (d : dict) (k : string) : option Json :=
  match d with
  | [] => None
  | (k', v) :: d' => if String.eqb k k' then Some v else lookup d' k
  end.

(** [d.get(k)]: [None] for a missing key. *)
Definition get (d : dict) (k : string) : Json :=
  match lookup d k with
  | Some v => v
  | None => JNull
  end.

(** [[x for x in l if isinstance(x, dict)]]. *)
Definition dicts_of (l : list Json) : list dict :=
  flat_map (fun x => match x with JDict d => [d] | _ => [] end) l.

(** The loop [for key in keys: value = d.get(key); if isinstance(value,
    list): return ...]: the list under the first key that holds one. *)
Fixpoint first_list (d : dict) (keys : list string) : option (list Json) :=
  match keys with
  | [] => None
  | k :: keys' =>
      match get d k with
      | JList l => Some l
      | _ => first_list d keys'
      end
  end.

(** [int(x)] of a float: the fraction is cut off, towards zero. *)
Definition trunc (q : Q) : Z := Z.quot (Qnum q) (Z.pos (Qden q)).

End PyVal.

(** ** Text helpers of the Python library *)

Module PyText.

(** [s.lower()] on ASCII text. *)
Definition lower_char (c : ascii) : ascii :=
  if PyStr.code_in 65 90 c then ascii_of_nat (nat_of_ascii c + 32) else c.

Fixpoint lower (s : string) : string :=
  match s with
  | EmptyString => EmptyString
  | String c s' => String (lower_char c) (lower s')
  end.

(** [p in s]. *)
Fixpoint contains (p s : string) : bool :=
  String.prefix p s
  || match s with
     | EmptyString => false
     | String _ s' => contains p s'
     end.

End PyText.

(** ** From a chart response to a row ([src/swing_signal.py]) *)

Module Series.

Import Net PyVal Swing.

(** [int(x)] of the float that [float()] makes of a text of value [q]: a
    value of magnitude [FLOAT_LIMIT] or more is read as an infinity, of
    which [int()] raises [OverflowError]. *)
Definition int_of_read (q : Q) : outcome Z :=
  if Qle_bool (inject_Z PyStr.FLOAT_LIMIT) (Qabs q) then Raised OverflowError
  else Returned (trunc q).

(** [to_int]: 0 for [None], for the empty string and for whatever [float()]
    rejects with a [ValueError]; an [OverflowError] is not caught.  The
    text of an int or of a float reads back as the number itself; the text
    of a bool, a list or a dict is no number. *)
Definition to_int (value : Json) : outcome Z :=
  match value with
  | JNull => Returned 0
  | JStr s =>
      if PyStr.is_empty s then Returned 0
      else
        match PyStr.float (PyStr.remove_commas s) with
        | Returned q => int_of_read q
        | Raised _ => Returned 0
        end
  | JInt z => int_of_read (inject_Z z)
  | JFloat q => Returned (trunc q)
  | JBool _ => Returned 0
  | JList _ => Returned 0
  | JDict _ => Returned 0
  end.

(** [parse_price] applied to a decoded value: a bool is an int; the text of
    a list or a dict is rejected by [float()]. *)
Definition parse_price_of (value : Json) : outcome Q :=
  match value with
  | JNull => Price.parse_price Price.VNone
  | JBool b => Price.parse_price (Price.VInt (if b then 1 else 0))
  | JInt z => Price.parse_price (Price.VInt z)
  | JFloat q => Price.parse_price (Price.VFloat q)
  | JStr s => Price.parse_price (Price.VStr s)
  | JList _ => Raised ValueError
  | JDict _ => Raised ValueError
  end.

Definition chart_keys : list string :=
  ["stk_min_pole_chart_qry"; "stk_tic_stk_pc_chrt"; "output"; "items"]%string.

Definition chart_body_keys : list string :=
  ["stk_tic_stk_pc_chrt"; "output"; "items"]%string.

Definition extract_chart_items (response : Json) : list dict :=
  match response with
  | JDict d =>
      match first_list d chart_keys with
      | Some l => dicts_of l
      | None =>
          (* body = response.get("body", {}) *)
          match lookup d "body" with
          | Some (JDict body) =>
              match first_list body chart_body_keys with
              | Some l => dicts_of l
              | None => []
              end
          | _ => []
          end
      end
  | _ => []
  end.

Definition close_of (item : dict) : Json :=
  py_or (py_or (py_or (get item "cur_prc") (get item "stk_clsprc"))
               (get item "close"))
        (JInt 0).

Definition volume_of (item : dict) : Json :=
  py_or (py_or (get item "trde_qty") (get item "volume")) (JInt 0).

Fixpoint to_series (items : list dict) : outcome (list Q * list Z) :=
  match items with
  | [] => Returned ([], [])
  | item :: rest =>
      let* close := parse_price_of (close_of item) in
      let* volume := to_int (volume_of item) in
      let* series := to_series rest in
      Returned (close :: fst series, volume :: snd series)
  end.

(** [response.get("return_code") in (None, 0)]. *)
Definition return_code_ok (response : dict) : bool :=
  match get response "return_code" with
  | JNull => true
  | JInt z => z =? 0
  | JFloat q => Qeq_bool q 0
  | JBool b => negb b
  | _ => false
  end.

(** The body of the loop of [main] once the response (a dict) is there:
    the row that is appended to [rows], if any. *)
Definition evaluate_response (code name : string) (response : dict)
    (recent_high_bars : Z) (pullback_min pullback_max min_vol_ratio : Q)
    : outcome (option SignalRow) :=
  if negb (return_code_ok response) then Returned None
  else
    let items := extract_chart_items (JDict response) in
    let* series := to_series items in
    evaluate_signal code name (fst series) (snd series)
                    recent_high_bars pullback_min pullback_max min_vol_ratio.

(** [[r for r in rows if r.signal] if args.only_signal else rows]. *)
Definition output_rows (only_signal : bool) (rows : list SignalRow)
    : list SignalRow :=
  if only_signal then filter signal rows else rows.

End Series.

(** ** The row filter ([src/main.py]) *)

Module Listing.

(** A float of a row or of a bound: a number, an infinity, or NaN (the
    price parser and the command line give all three). *)
Inductive float_value : Type :=
| Num (q : Q)
| Inf (negative : bool)
| NaN.

(** [a < b] on floats: false whenever a side is NaN. *)
Definition lt (a b : float_value) : bool :=
  match a, b with
  | Num x, Num y => Swing.Qlt_bool x y
  | Num _, Inf negative => negb negative
  | Inf negative, Num _ => negative
  | Inf n1, Inf n2 => n1 && negb n2
  | NaN, _ => false
  | _, NaN => false
  end.

Record StockRow : Type := mkStockRow {
  code : string;
  name : string;
  price : option float_value;
  volume : option Z;
  change_rate : option float_value;
  swing_score : option float_value
}.

(** [bound is not None and (field is None or field < bound)]. *)
Definition below (field bound : option float_value) : bool :=
  match bound with
  | None => false
  | Some b =>
      match field with
      | None => true
      | Some x => lt x b
      end
  end.

(** [bound is not None and (field is None or field > bound)]. *)
Definition above (field bound : option float_value) : bool :=
  match bound with
  | None => false
  | Some b =>
      match field with
      | None => true
      | Some x => lt b x
      end
  end.

Definition below_int (field bound : option Z) : bool :=
  match bound with
  | None => false
  | Some b =>
      match field with
      | None => true
      | Some x => x <? b
      end
  end.

(** The row misses the keyword: [key and key not in row.code.lower() and
    key not in row.name.lower()]. *)
Definition misses (key : option string) (row : StockRow) : bool :=
  match key with
  | None => false
  | Some k =>
      negb (PyStr.is_empty k)
      && negb (PyText.contains k (PyText.lower (code row)))
      && negb (PyText.contains k (PyText.lower (name row)))
  end.

(** One turn of the loop: [true] when the row is appended. *)
Definition kept (key : option string)
    (min_price max_price : option float_value)
    (min_volume : option Z) (row : StockRow) : bool :=
  if misses key row then false
  else if below (price row) min_price then false
  else if above (price row) max_price then false
  else if below_int (volume row) min_volume then false
  else true.

Definition filter_rows (rows : list StockRow) (keyword : option string)
    (min_price max_price : option float_value) (min_volume : option Z)
    : list StockRow :=
  let key :=
    match keyword with
    | Some k => if PyStr.is_empty k then None else Some (PyText.lower k)
    | None => None
    end in
  filter (kept key min_price max_price min_volume) rows.

End Listing.

(** ** Loading the configuration ([src/config.py]) *)

Module Config.

(** [os.getenv(key, default)] over an environment [env]. *)
Definition getenv (env : string -> option string) (key default : string)
    : string :=
  match env key with
  | Some v => v
  | None => default
  end.

Definition from_env (env : string -> option string) : outcome KiwoomConfig :=
  let env_name := PyText.lower (PyStr.strip (getenv env "KIWOOM_ENV" "paper")) in
  let is_paper := String.eqb env_name "paper" in
  let '(app_key, app_secret, account_no, default_base_url) :=
    if is_paper then
      (PyStr.strip (getenv env "KIWOOM_PAPER_APP_KEY" ""),
       PyStr.strip (getenv env "KIWOOM_PAPER_APP_SECRET" ""),
       PyStr.strip (getenv env "KIWOOM_PAPER_ACCOUNT_NO" ""),
       "https://mockapi.kiwoom.com"%string)
    else
      (PyStr.strip (getenv env "KIWOOM_APP_KEY" ""),
       PyStr.strip (getenv env "KIWOOM_APP_SECRET" ""),
       PyStr.strip (getenv env "KIWOOM_ACCOUNT_NO" ""),
       "https://api.kiwoom.com"%string) in
  let stripped := PyStr.strip (getenv env "KIWOOM_BASE_URL" default_base_url) in
  let base_url :=
    if PyStr.is_empty stripped then default_base_url else stripped in
  if PyStr.is_empty app_key || PyStr.is_empty app_secret
  then Raised ValueError
  else Returned (mkKiwoomConfig app_key app_secret account_no is_paper base_url).

End Config.

(** ** Giving the token back ([src/auth.py], [src/client.py]) *)

Module Shutdown.

Import Net.

(** [TokenManager.revoke].  The POST is made like those of the client and
    takes its reply from the same script; the response is not looked at.
    The [finally] clause empties the slot whether the POST returned or
    raised, and a raised error goes on to the caller. *)
Definition revoke (config : KiwoomConfig) : M unit :=
  fun st =>
    match _token st with
    | None => (Returned tt, st)
    | Some t =>
        let url := (base_url config ++ "/oauth2/revoke")%string in
        let headers :=
          [("api-id", "au10002");
           ("authorization", "Bearer " ++ access_token t);
           ("content-type", "application/json;charset=UTF-8")]%string in
        let payload :=
          JDict [("appkey", JStr (app_key config));
                 ("secretkey", JStr (app_secret config));
                 ("token", JStr (access_token t))]%string in
        match Client.post url headers payload st with
        | (Returned _, st') => (Returned tt, set_token None st')
        | (Raised e, st') => (Raised e, set_token None st')
        end
    end.

(** [KiwoomClient.close]. *)
Definition close (config : KiwoomConfig) : M unit := revoke config.

End Shutdown.

(** ** Vocabulary of the further statements *)

Module Notions.

Import Net Swing Batch.
Local Open Scope Q_scope.

(** How many requests to the API endpoints a trace records. *)
Fixpoint posts (tr : list Event) : nat :=
  match tr with
  | [] => 0%nat
  | ApiPosted _ _ _ :: tr' => S (posts tr')
  | _ :: tr' => posts tr'
  end.

(** How many requests to the token endpoint a trace records. *)
Fixpoint token_posts (tr : list Event) : nat :=
  match tr with
  | [] => 0%nat
  | TokenPosted :: tr' => S (token_posts tr')
  | _ :: tr' => token_posts tr'
  end.

(** [a <= b] on sort keys: [b] is not smaller than [a]. *)
Definition key_le (a b : bool * Q * Q) : Prop :=
  let '(s1, c1, v1) := a in
  let '(s2, c2, v2) := b in
  (s1 = false /\ s2 = true)
  \/ (s1 = s2 /\ (c1 < c2 \/ (c1 == c2 /\ v1 <= v2))).

Definition row_le (x y : SignalRow) : Prop :=
  key_le (sort_key x) (sort_key y).

(** A string has no white space at either end. *)
Definition trimmed (s : string) : Prop := PyStr.strip s = s.

End Notions.

(** * Properties *)

(** Splits a boolean conjunction known to be true. *)
Tactic Notation "split_andb" hyp(H) "as" simple_intropattern(pat) :=
  apply andb_true_iff in H; destruct H as pat.

(** ** The embedding at work *)

Example slice_last_two : Py.slice (Some (-2)) None [1; 2; 3; 4] = [3; 4].
Proof. reflexivity. Qed.

Example slice_before_last :
  Py.slice (Some (-3)) (Some (-1)) [1; 2; 3; 4] = [2; 3].
Proof. reflexivity. Qed.

Example slice_of_short_list : Py.slice (Some (-25)) (Some (-5)) [1; 2; 3] = [].
Proof. reflexivity. Qed.

Example slice_minus_zero : Py.slice (Some (- 0)) None [1; 2; 3] = [1; 2; 3].
Proof. reflexivity. Qed.

Example max_of_none : Py.max [] = Raised ValueError.
Proof. reflexivity. Qed.

Example strip_and_float : PyStr.float "  12.50 " = Returned (1250 # 100).
Proof. vm_compute. reflexivity. Qed.

Example float_of_word : PyStr.float "12a" = Raised ValueError.
Proof. reflexivity. Qed.

Example parse_price_signs :
  Price.parse_price (Price.VStr "+-1,000") = Returned 1000%Q.
Proof. vm_compute. reflexivity. Qed.

Example parse_price_blank : Price.parse_price (Price.VStr "  ") = Returned 0%Q.
Proof. reflexivity. Qed.

Example strptime_full :
  DateTime.strptime "20240301120030"
  = Returned (DateTime.mkdatetime 2024 3 1 12 0 30 0).
Proof. vm_compute. reflexivity. Qed.

(** The matcher backtracks: with 10 characters the month takes two digits
    and every later field one. *)
Example strptime_short_fields :
  DateTime.strptime "2024123199"
  = Returned (DateTime.mkdatetime 2024 12 3 1 9 9 0).
Proof. vm_compute. reflexivity. Qed.

Example strptime_no_such_day :
  DateTime.strptime "20240230120000" = Raised ValueError.
Proof. vm_compute. reflexivity. Qed.

Example strptime_leftover :
  DateTime.strptime "202403011200301" = Raised ValueError.
Proof. vm_compute. reflexivity. Qed.

Example timestamp_of_epoch :
  DateTime.ymd2ord 1970 1 1 = 719163.
Proof. reflexivity. Qed.

Example evaluate_short_series :
  Swing.evaluate_signal "005930" "sample" (repeat 100%Q 29) (repeat 1 29)
                        120 3%Q 15%Q 1%Q
  = Returned None.
Proof. reflexivity. Qed.

Example evaluate_empty_lookback :
  Swing.evaluate_signal "005930" "sample" (repeat 100%Q 30) (repeat 1 30)
                        (-30) 3%Q 15%Q 1%Q
  = Raised ValueError.
Proof. vm_compute. reflexivity. Qed.

(** ** Facts about the built-ins *)

Section SliceFacts.

Context {A : Type}.

Lemma adjust_range (n i : Z) : 0 <= n -> 0 <= Py.adjust n i <= n.
Proof.
  intros Hn. unfold Py.adjust. destruct (i <? 0) eqn:E.
  - apply Z.ltb_lt in E. lia.
  - apply Z.ltb_ge in E. lia.
Qed.

Lemma slice_length (start stop : option Z) (l : list A) :
  let n := Z.of_nat (length l) in
  let lo := match start with None => 0 | Some i => Py.adjust n i end in
  let hi := match stop with None => n | Some j => Py.adjust n j end in
  Z.of_nat (length (Py.slice start stop l)) = Z.max 0 (hi - lo).
Proof.
  intros n lo hi. unfold Py.slice. fold n. fold lo. fold hi.
  assert (Hn : 0 <= n) by (unfold n; lia).
  assert (Hlo : 0 <= lo <= n)
    by (unfold lo; destruct start; [apply adjust_range; assumption | lia]).
  assert (Hhi : 0 <= hi <= n)
    by (unfold hi; destruct stop; [apply adjust_range; assumption | lia]).
  rewrite length_firstn, length_skipn. unfold n in *. lia.
Qed.

Lemma slice_Forall (P : A -> Prop) (start stop : option Z) (l : list A) :
  Forall P l -> Forall P (Py.slice start stop l).
Proof.
  intros H. unfold Py.slice.
  set (a := Z.to_nat _). set (k := Z.to_nat _).
  rewrite <- (firstn_skipn k l) in H.
  apply Forall_app in H. destruct H as [_ H].
  rewrite <- (firstn_skipn a (skipn k l)) in H.
  apply Forall_app in H. apply H.
Qed.

End SliceFacts.

Lemma max_returns (l : list Q) :
  l <> [] -> exists m, Py.max l = Returned m.
Proof.
  destruct l as [|x l']; [congruence | intros _; eexists; reflexivity].
Qed.

Lemma nonempty_of_length {A : Type} (l : list A) :
  (0 < Z.of_nat (length l)) -> l <> [].
Proof. destruct l; simpl; [lia | congruence]. Qed.

(** ** The evaluator *)

Section Evaluator.

Import Swing Terms.

Variables (code name : string) (closes : list Q) (volumes : list Z).
Variables (recent_high_bars : Z).
Variables (pullback_min pullback_max min_vol_ratio : Q).

Lemma evaluate_signal_short :
  (length closes < 30)%nat ->
  evaluate_signal code name closes volumes recent_high_bars
                  pullback_min pullback_max min_vol_ratio = Returned None.
Proof.
  intros H. unfold evaluate_signal.
  apply Nat.ltb_lt in H. rewrite H. reflexivity.
Qed.

Lemma high_slice_empty :
  (recent_high_bars <= - Z.of_nat (length closes))%Z ->
  Py.slice (Some (- recent_high_bars)%Z) None closes = [].
Proof.
  intros H. apply length_zero_iff_nil.
  pose proof (slice_length (Some (- recent_high_bars)%Z) None closes) as L.
  cbv zeta in L. unfold Py.adjust in L.
  destruct (- recent_high_bars <? 0)%Z eqn:E;
    [apply Z.ltb_lt in E | apply Z.ltb_ge in E]; lia.
Qed.

Lemma high_slice_nonempty :
  (30 <= length closes)%nat ->
  (- Z.of_nat (length closes) < recent_high_bars)%Z ->
  (if (recent_high_bars <=? Z.of_nat (length closes))%Z
   then Py.slice (Some (- recent_high_bars)%Z) None closes
   else closes) <> [].
Proof.
  intros Hlen H. destruct (recent_high_bars <=? _)%Z eqn:E.
  - apply Z.leb_le in E. apply nonempty_of_length.
    pose proof (slice_length (Some (- recent_high_bars)%Z) None closes) as L.
    cbv zeta in L. unfold Py.adjust in L.
    destruct (- recent_high_bars <? 0)%Z eqn:E';
      [apply Z.ltb_lt in E' | apply Z.ltb_ge in E']; lia.
  - apply nonempty_of_length. lia.
Qed.

Lemma prev5_slice_nonempty :
  (30 <= length closes)%nat ->
  Py.slice (Some (-6)%Z) (Some (-1)%Z) closes <> [].
Proof.
  intros Hlen. apply nonempty_of_length.
  pose proof (slice_length (Some (-6)%Z) (Some (-1)%Z) closes) as L.
  cbv zeta in L. unfold Py.adjust in L.
  change (-6 <? 0)%Z with true in L. change (-1 <? 0)%Z with true in L.
  cbv iota in L. lia.
Qed.

(** What [evaluate_signal] does on a series of at least 30 samples. *)
Lemma evaluate_signal_cases :
  (30 <= length closes)%nat ->
  ((recent_high_bars <= - Z.of_nat (length closes))%Z
   /\ evaluate_signal code name closes volumes recent_high_bars
                  pullback_min pullback_max min_vol_ratio = Raised ValueError)
  \/ ((- Z.of_nat (length closes) < recent_high_bars)%Z
      /\ exists r,
           evaluate_signal code name closes volumes recent_high_bars
                  pullback_min pullback_max min_vol_ratio = Returned (Some r)
           /\ row_of volumes pullback_min pullback_max r).
Proof.
  intros Hlen.
  assert (Hguard : (length closes <? 30)%nat = false)
    by (apply Nat.ltb_ge; exact Hlen).
  assert (H6 : (6 <=? length closes)%nat = true)
    by (apply Nat.leb_le; lia).
  destruct (Z_le_gt_dec recent_high_bars (- Z.of_nat (length closes)))
    as [Hneg | Hpos].
  - left. split; [exact Hneg |].
    unfold evaluate_signal. rewrite Hguard.
    assert (E : (recent_high_bars <=? Z.of_nat (length closes))%Z = true)
      by (apply Z.leb_le; lia).
    rewrite E, (high_slice_empty Hneg). reflexivity.
  - right. split; [lia |].
    assert (Hlook : (- Z.of_nat (length closes) < recent_high_bars)%Z) by lia.
    destruct (max_returns _ (high_slice_nonempty Hlen Hlook)) as [rh Hrh].
    destruct (max_returns _ (prev5_slice_nonempty Hlen)) as [p5 Hp5].
    unfold evaluate_signal.
    rewrite Hguard, H6, Hrh, Hp5. cbn [bind].
    eexists. split; [reflexivity |].
    unfold row_of, recent_window, trailing_window.
    cbn [volume_ratio pullback_ok rebound_ok signal signal_score
         retrace_pct long_ma current_price].
    repeat split.
Qed.

End Evaluator.

(** ** Arithmetic of the evaluator *)

Section Arithmetic.

Import Swing Terms.
Local Open Scope Q_scope.

Lemma Qlt_bool_iff (a b : Q) : Qlt_bool a b = true <-> a < b.
Proof.
  unfold Qlt_bool. rewrite negb_true_iff. split.
  - intros H. apply Qnot_le_lt. intros Hle.
    apply Qle_bool_iff in Hle. congruence.
  - intros H. destruct (Qle_bool b a) eqn:E; [| reflexivity].
    apply Qle_bool_iff in E. exfalso. exact (Qlt_not_le _ _ H E).
Qed.

Lemma Qlt_bool_false_iff (a b : Q) : Qlt_bool a b = false <-> b <= a.
Proof.
  unfold Qlt_bool. rewrite negb_false_iff. apply Qle_bool_iff.
Qed.

Lemma bonus_is_clamp (x : Q) : Qmin 20 (Qmax 0 x) == clamp 0 20 x.
Proof.
  unfold clamp.
  destruct (Qlt_bool x 0) eqn:E0.
  - apply Qlt_bool_iff in E0.
    rewrite (Q.max_l 0 x) by lra. rewrite Q.min_r by lra. reflexivity.
  - apply Qlt_bool_false_iff in E0.
    rewrite (Q.max_r 0 x) by lra.
    destruct (Qlt_bool 20 x) eqn:E1.
    + apply Qlt_bool_iff in E1. rewrite Q.min_l by lra. reflexivity.
    + apply Qlt_bool_false_iff in E1. rewrite Q.min_r by lra. reflexivity.
Qed.

Lemma clamp_range (x : Q) : 0 <= clamp 0 20 x <= 20.
Proof.
  unfold clamp.
  destruct (Qlt_bool x 0) eqn:E0; [lra |].
  apply Qlt_bool_false_iff in E0.
  destruct (Qlt_bool 20 x) eqn:E1; [lra |].
  apply Qlt_bool_false_iff in E1. lra.
Qed.

Lemma sum_ints_from (l : list Z) (a : Q) (z : Z) :
  a == inject_Z z ->
  fold_left Qplus (ints l) a == inject_Z (fold_left Z.add l z).
Proof.
  revert a z. induction l as [| x l IH]; intros a z Ha; simpl.
  - exact Ha.
  - apply IH. rewrite inject_Z_plus, Ha. reflexivity.
Qed.

Lemma sum_ints (l : list Z) : Py.sum (ints l) == inject_Z (Py.sumZ l).
Proof. apply sum_ints_from. reflexivity. Qed.

Lemma sumZ_from_nonneg (l : list Z) (z : Z) :
  Forall (fun v => 0 <= v)%Z l -> (0 <= z)%Z ->
  (z <= fold_left Z.add l z)%Z.
Proof.
  intros H. revert z. induction H as [| x l Hx _ IH]; intros z Hz; simpl.
  - lia.
  - specialize (IH (z + x)%Z ltac:(lia)). lia.
Qed.

Lemma sumZ_nonneg (l : list Z) :
  Forall (fun v => 0 <= v)%Z l -> (0 <= Py.sumZ l)%Z.
Proof. intros H. apply (sumZ_from_nonneg l 0 H). lia. Qed.

(** The mean of a list of ints has the sign of their sum. *)
Lemma avg_ints (l : list Z) :
  exists d : Q, 0 < d /\ avg (ints l) == inject_Z (Py.sumZ l) * d.
Proof.
  destruct l as [| x l].
  - exists 1. split; [lra | reflexivity].
  - exists (/ inject_Z (Z.of_nat (length (ints (x :: l))))). split.
    + apply Qinv_lt_0_compat. change 0 with (inject_Z 0).
      rewrite <- Zlt_Qlt. unfold ints. rewrite length_map. simpl length. lia.
    + unfold avg. change (ints (x :: l)) with (inject_Z x :: ints l) at 1.
      cbv iota. change (inject_Z x :: ints l) with (ints (x :: l)).
      rewrite sum_ints. reflexivity.
Qed.

Lemma avg_ints_pos (l : list Z) :
  0 < avg (ints l) <-> (0 < Py.sumZ l)%Z.
Proof.
  destruct (avg_ints l) as [d [Hd E]]. rewrite E, Zlt_Qlt.
  split; intros H.
  - change (inject_Z 0) with 0. nra.
  - change (inject_Z 0) with 0 in H. nra.
Qed.

Lemma avg_ints_zero (l : list Z) :
  avg (ints l) == 0 <-> Py.sumZ l = 0%Z.
Proof.
  destruct (avg_ints l) as [d [Hd E]]. rewrite E.
  rewrite <- (inject_Z_injective (Py.sumZ l) 0).
  change (inject_Z 0) with 0. split; intros H.
  - nra.
  - rewrite H. lra.
Qed.

Lemma avg_ints_nonneg (l : list Z) :
  Forall (fun v => 0 <= v)%Z l -> 0 <= avg (ints l).
Proof.
  intros H. apply sumZ_nonneg in H.
  destruct (avg_ints l) as [d [Hd E]]. rewrite E.
  rewrite Zle_Qle in H. change (inject_Z 0) with 0 in H. nra.
Qed.

Lemma quotient_nonneg (a b : Q) : 0 <= a -> 0 < b -> 0 <= a / b.
Proof.
  intros Ha Hb. unfold Qdiv. apply Qmult_le_0_compat; [exact Ha |].
  apply Qlt_le_weak, Qinv_lt_0_compat, Hb.
Qed.

Lemma quotient_zero (a b : Q) : 0 < b -> (a / b == 0 <-> a == 0).
Proof.
  intros Hb. split; intros H.
  - assert (E : a == a / b * b) by (field; lra). rewrite E, H. lra.
  - rewrite H. field. lra.
Qed.

End Arithmetic.

(** ** Claims about the evaluator *)

Section EvaluatorClaims.

Import Swing Terms.
Local Open Scope Q_scope.

(** C7.  On every series of at least 30 samples and every parameter set,
    [evaluate_signal] returns a row whose [signal_score] is 40 points for
    [pullback_ok] plus 40 points for [rebound_ok] plus the bonus
    [(volume_ratio - 1.0) * 20] held between 0 and 20, and the score lies
    in [0, 100].  No row is returned only where [max()] is given an empty
    slice by a negative [recent_high_bars] that reaches past the series. *)
Theorem signal_score_formula (code name : string) (closes : list Q)
    (volumes : list Z) (recent_high_bars : Z)
    (pullback_min pullback_max min_vol_ratio : Q) :
  (30 <= length closes)%nat ->
  match evaluate_signal code name closes volumes recent_high_bars
                        pullback_min pullback_max min_vol_ratio with
  | Returned (Some r) =>
      signal_score r
        == points (pullback_ok r) + points (rebound_ok r)
           + clamp 0 20 ((volume_ratio r - 1) * 20)
      /\ 0 <= signal_score r <= 100
  | Returned None => False
  | Raised _ => (recent_high_bars <= - Z.of_nat (length closes))%Z
  end.
Proof.
  intros Hlen.
  destruct (evaluate_signal_cases code name closes volumes recent_high_bars
              pullback_min pullback_max min_vol_ratio Hlen)
    as [[Hneg E] | [_ [r [E [_ [_ [_ Hscore]]]]]]]; rewrite E.
  - exact Hneg.
  - rewrite Hscore.
    pose proof (bonus_is_clamp ((volume_ratio r - 1) * 20)) as Hb.
    pose proof (clamp_range ((volume_ratio r - 1) * 20)) as Hr.
    unfold points. rewrite Hb.
    destruct (pullback_ok r), (rebound_ok r); split; lra.
Qed.

Lemma signal_score_formula_witness :
  match evaluate_signal "005930" "sample" example_closes
                        (repeat 100 25 ++ repeat 200 5)%Z 120 3 15 1 with
  | Returned (Some r) =>
      signal_score r
        == points (pullback_ok r) + points (rebound_ok r)
           + clamp 0 20 ((volume_ratio r - 1) * 20)
      /\ 0 <= signal_score r <= 100
  | Returned None => False
  | Raised _ => (120 <= - Z.of_nat (length example_closes))%Z
  end.
Proof.
  apply (signal_score_formula "005930" "sample" example_closes
           (repeat 100 25 ++ repeat 200 5)%Z 120 3 15 1).
  simpl. lia.
Defined.

(** C5, as the code has it.  On every series of at least 30 samples and
    every band, [pullback_ok] holds exactly when [retrace_pct] lies within
    [pullback_min, pullback_max], [long_ma] is positive, and the current
    close is at least 98% of [long_ma]. *)
Theorem pullback_ok_iff (code name : string) (closes : list Q)
    (volumes : list Z) (recent_high_bars : Z)
    (pullback_min pullback_max min_vol_ratio : Q) :
  (30 <= length closes)%nat ->
  match evaluate_signal code name closes volumes recent_high_bars
                        pullback_min pullback_max min_vol_ratio with
  | Returned (Some r) =>
      pullback_ok r = true
      <-> (pullback_min <= retrace_pct r /\ retrace_pct r <= pullback_max)
          /\ 0 < long_ma r
          /\ long_ma r * (98 # 100) <= current_price r
  | Returned None => False
  | Raised _ => (recent_high_bars <= - Z.of_nat (length closes))%Z
  end.
Proof.
  intros Hlen.
  destruct (evaluate_signal_cases code name closes volumes recent_high_bars
              pullback_min pullback_max min_vol_ratio Hlen)
    as [[Hneg E] | [_ [r [E [_ [Hpb _]]]]]]; rewrite E.
  - exact Hneg.
  - rewrite Hpb, !andb_true_iff, !Qle_bool_iff, Qlt_bool_iff. tauto.
Qed.

Lemma pullback_ok_iff_witness :
  match evaluate_signal "005930" "sample" example_closes
                        (repeat 100 25 ++ repeat 200 5)%Z 120 3 15 1 with
  | Returned (Some r) =>
      pullback_ok r = true
      <-> (3 <= retrace_pct r /\ retrace_pct r <= 15)
          /\ 0 < long_ma r
          /\ long_ma r * (98 # 100) <= current_price r
  | Returned None => False
  | Raised _ => (120 <= - Z.of_nat (length example_closes))%Z
  end.
Proof.
  apply (pullback_ok_iff "005930" "sample" example_closes
           (repeat 100 25 ++ repeat 200 5)%Z 120 3 15 1).
  simpl. lia.
Defined.

(** C5 as stated fails: on 30 closes of 0.0 with the band [0, 15] the
    retracement is 0.0, inside the band, and the close is at least 98% of
    the long average (both are 0.0), yet [pullback_ok] is false. *)
Lemma pullback_ok_without_trend_guard :
  exists r,
    evaluate_signal "005930" "sample" (repeat 0 30) (repeat 0%Z 30)
                    120 0 15 1 = Returned (Some r)
    /\ ~ (pullback_ok r = true
          <-> (0 <= retrace_pct r /\ retrace_pct r <= 15)
              /\ long_ma r * (98 # 100) <= current_price r).
Proof.
  eexists. split; [vm_compute; reflexivity |].
  cbn [pullback_ok retrace_pct long_ma current_price].
  intros [_ H].
  assert (F : false = true).
  { apply H. repeat split; unfold Qle; simpl; lia. }
  discriminate F.
Qed.

(** C4, as the code has it.  On every series of at least 30 samples with
    non-negative volumes, [volume_ratio] is at least 0, and it is 0 exactly
    when the volumes of bars [-25:-5] sum to 0 or the volumes of the last 5
    bars sum to 0. *)
Theorem volume_ratio_zero_iff (code name : string) (closes : list Q)
    (volumes : list Z) (recent_high_bars : Z)
    (pullback_min pullback_max min_vol_ratio : Q) :
  (30 <= length closes)%nat ->
  Forall (fun v => 0 <= v)%Z volumes ->
  match evaluate_signal code name closes volumes recent_high_bars
                        pullback_min pullback_max min_vol_ratio with
  | Returned (Some r) =>
      0 <= volume_ratio r
      /\ (volume_ratio r == 0
          <-> Py.sumZ (trailing_window volumes) = 0%Z
              \/ Py.sumZ (recent_window volumes) = 0%Z)
  | Returned None => False
  | Raised _ => (recent_high_bars <= - Z.of_nat (length closes))%Z
  end.
Proof.
  intros Hlen Hvol.
  destruct (evaluate_signal_cases code name closes volumes recent_high_bars
              pullback_min pullback_max min_vol_ratio Hlen)
    as [[Hneg E] | [_ [r [E [Hvr _]]]]]; rewrite E.
  - exact Hneg.
  - rewrite Hvr.
    assert (Ht : Forall (fun v => 0 <= v)%Z (trailing_window volumes))
      by (apply slice_Forall; exact Hvol).
    assert (Hr : Forall (fun v => 0 <= v)%Z (recent_window volumes))
      by (apply slice_Forall; exact Hvol).
    pose proof (avg_ints_nonneg _ Hr) as Hr0.
    pose proof (sumZ_nonneg _ Ht) as Ht0.
    destruct (Qlt_bool 0 (avg (ints (trailing_window volumes)))) eqn:Epos.
    + apply Qlt_bool_iff in Epos. split.
      * apply quotient_nonneg; assumption.
      * rewrite (quotient_zero _ _ Epos), avg_ints_zero.
        apply avg_ints_pos in Epos. split; [tauto |].
        intros [H | H]; [lia | exact H].
    + apply Qlt_bool_false_iff in Epos. split; [lra |].
      split; [| reflexivity]. intros _. left.
      destruct (Z.eq_dec (Py.sumZ (trailing_window volumes)) 0)
        as [Hz | Hnz]; [exact Hz |].
      assert (Hp : 0 < avg (ints (trailing_window volumes)))
        by (apply avg_ints_pos; lia).
      lra.
Qed.

Lemma volume_ratio_zero_iff_witness :
  match evaluate_signal "005930" "sample" example_closes
                        (repeat 1 25 ++ repeat 0 5)%Z 120 3 15 1 with
  | Returned (Some r) =>
      0 <= volume_ratio r
      /\ (volume_ratio r == 0
          <-> Py.sumZ (trailing_window (repeat 1 25 ++ repeat 0 5)%Z) = 0%Z
              \/ Py.sumZ (recent_window (repeat 1 25 ++ repeat 0 5)%Z) = 0%Z)
  | Returned None => False
  | Raised _ => (120 <= - Z.of_nat (length example_closes))%Z
  end.
Proof.
  apply (volume_ratio_zero_iff "005930" "sample" example_closes
           (repeat 1 25 ++ repeat 0 5)%Z 120 3 15 1).
  - simpl. lia.
  - simpl. repeat constructor; lia.
Defined.

(** C4 as stated fails: with 25 bars of volume 1 followed by 5 bars of
    volume 0, [volume_ratio] is 0 although bars [-25:-5] sum to 20. *)
Lemma volume_ratio_zero_with_traded_window :
  exists r,
    evaluate_signal "005930" "sample" example_closes
                    (repeat 1 25 ++ repeat 0 5)%Z 120 3 15 1
      = Returned (Some r)
    /\ (30 <= length (repeat 1 25 ++ repeat 0 5)%Z)%nat
    /\ Forall (fun v => 0 <= v)%Z (repeat 1 25 ++ repeat 0 5)%Z
    /\ ~ (volume_ratio r == 0
          <-> Py.sumZ (trailing_window (repeat 1 25 ++ repeat 0 5)%Z) = 0%Z).
Proof.
  eexists. split; [vm_compute; reflexivity |].
  split; [simpl; lia |].
  split; [simpl; repeat constructor; lia |].
  cbn [volume_ratio]. intros [H _].
  assert (F : Py.sumZ (trailing_window (repeat 1 25 ++ repeat 0 5)%Z) = 0%Z)
    by (apply H; reflexivity).
  vm_compute in F. discriminate F.
Qed.

(** C2, as the code has it.  For the closes
    [100]*20 + [90,88,87,86,85] + [95,97,99,101,103] and the default
    thresholds, whatever the volumes, [evaluate_signal] returns a row with
    [retrace_pct] 0 (the last close, 103, is itself the recent high), so
    [pullback_ok] and [signal] are false; [rebound_ok] is true exactly
    when the volumes give a [volume_ratio] of at least 1.0. *)
Theorem example_series_evaluation (code name : string) (volumes : list Z) :
  exists r,
    evaluate_signal code name example_closes volumes
      default_recent_high_bars default_pullback_min default_pullback_max
      default_min_vol_ratio = Returned (Some r)
    /\ retrace_pct r == 0
    /\ pullback_ok r = false
    /\ signal r = false
    /\ (rebound_ok r = true <-> 1 <= volume_ratio r).
Proof.
  unfold evaluate_signal, default_recent_high_bars, default_pullback_min,
    default_pullback_max, default_min_vol_ratio.
  cbv zeta.
  set (vr := if Qlt_bool 0 (avg (ints (Py.slice (Some (-25)%Z)
                                          (Some (-5)%Z) volumes)))
             then _ else 0).
  clearbody vr.
  match goal with |- context [bind (Py.max ?t) _] =>
    assert (E1 : Py.max t = Returned 103) by (vm_compute; reflexivity);
    rewrite E1
  end.
  cbn [bind].
  match goal with |- context [bind ?t _] =>
    assert (E2 : t = Returned 101) by (vm_compute; reflexivity);
    rewrite E2
  end.
  cbn [bind].
  change (length example_closes <? 30)%nat with false. cbv iota.
  eexists. split; [reflexivity |].
  cbn [retrace_pct pullback_ok signal rebound_ok volume_ratio].
  split; [vm_compute; reflexivity |].
  split; [vm_compute; reflexivity |].
  split.
  - match goal with |- ?a && _ = false =>
      replace a with false by (vm_compute; reflexivity)
    end.
    reflexivity.
  - match goal with |- ?a && ?b && _ = true <-> _ =>
      replace a with true by (vm_compute; reflexivity);
      replace b with true by (vm_compute; reflexivity)
    end.
    cbn [andb]. apply Qle_bool_iff.
Qed.

(** C2 as stated fails: even with volumes that double over the last 5 bars
    (so that [rebound_ok] holds), the row for the example closes does not
    have [pullback_ok], [rebound_ok] and [signal] all true. *)
Lemma example_series_is_not_a_signal :
  ~ exists r,
      evaluate_signal "005930" "sample" example_closes
        (repeat 100 25 ++ repeat 200 5)%Z
        default_recent_high_bars default_pullback_min default_pullback_max
        default_min_vol_ratio = Returned (Some r)
      /\ pullback_ok r = true /\ rebound_ok r = true /\ signal r = true.
Proof.
  intros [r [E [Hp _]]]. vm_compute in E.
  injection E as E. subst r. discriminate Hp.
Qed.

End EvaluatorClaims.

(** ** The batch ordering *)

Section Ordering.

Import Swing Batch Terms.

Lemma key_lt_signal (x y : SignalRow) :
  row_lt x y = true -> signal_le x y.
Proof.
  unfold row_lt, key_lt, sort_key, signal_le.
  destruct (signal x), (signal y); simpl; intros H; congruence.
Qed.

Lemma key_ge_signal (x y : SignalRow) :
  row_lt x y = false -> signal_le y x.
Proof.
  unfold row_lt, key_lt, sort_key, signal_le.
  destruct (signal x), (signal y); simpl; intros H; congruence.
Qed.

Lemma insert_by_perm {A : Type} (lt : A -> A -> bool) (x : A) (l : list A) :
  Permutation (x :: l) (insert_by lt x l).
Proof.
  induction l as [| y l IH]; simpl.
  - apply Permutation_refl.
  - destruct (lt y x).
    + eapply perm_trans; [apply perm_swap |].
      apply perm_skip, IH.
    + apply Permutation_refl.
Qed.

Lemma stable_sort_perm {A : Type} (lt : A -> A -> bool) (l : list A) :
  Permutation l (stable_sort lt l).
Proof.
  induction l as [| x l IH]; simpl.
  - apply perm_nil.
  - eapply perm_trans; [apply perm_skip, IH | apply insert_by_perm].
Qed.

Lemma sort_rows_perm (rows : list SignalRow) :
  Permutation rows (sort_rows rows).
Proof.
  unfold sort_rows, sort_reverse.
  eapply perm_trans; [apply Permutation_rev |].
  eapply perm_trans; [apply stable_sort_perm |].
  apply Permutation_rev.
Qed.

Lemma insert_sorted (x : SignalRow) (l : list SignalRow) :
  StronglySorted signal_le l ->
  StronglySorted signal_le (insert_by row_lt x l).
Proof.
  induction 1 as [| y l Hs IH Hy]; simpl.
  - constructor; [constructor | constructor].
  - destruct (row_lt y x) eqn:E.
    + constructor; [exact IH |].
      apply (Permutation_Forall (insert_by_perm row_lt x l)).
      constructor; [apply key_lt_signal, E | exact Hy].
    + pose proof (key_ge_signal _ _ E) as Hxy.
      constructor; [constructor; assumption |].
      constructor; [exact Hxy |].
      eapply Forall_impl; [| exact Hy].
      intros z Hz. unfold signal_le in *. tauto.
Qed.

Lemma stable_sort_sorted (l : list SignalRow) :
  StronglySorted signal_le (stable_sort row_lt l).
Proof.
  induction l as [| x l IH]; simpl.
  - constructor.
  - apply insert_sorted, IH.
Qed.

(** In an ascending list, a later position holds the greater signal. *)
Lemma sorted_positions (l : list SignalRow) :
  StronglySorted signal_le l ->
  forall i j x y,
    nth_error l i = Some x -> nth_error l j = Some y ->
    (i < j)%nat -> signal_le x y.
Proof.
  induction 1 as [| z l Hs IH Hz]; intros i j x y Hi Hj Hij.
  - destruct i; discriminate Hi.
  - destruct j as [| j]; [lia |]. simpl in Hj.
    destruct i as [| i]; simpl in Hi.
    + injection Hi as <-.
      apply (proj1 (Forall_forall _ _) Hz).
      eapply nth_error_In; eassumption.
    + apply (IH i j); [assumption | assumption | lia].
Qed.

(** C8.  For every batch of rows, the sort by
    [(signal, signal_score, volume_ratio)] in descending order keeps the
    rows (it permutes the batch) and places every row with [signal] true
    before every row with [signal] false, whatever their scores and volume
    ratios. *)
Theorem signals_sort_first (rows : list SignalRow) :
  Permutation rows (sort_rows rows)
  /\ forall i j x y,
       nth_error (sort_rows rows) i = Some x ->
       nth_error (sort_rows rows) j = Some y ->
       signal x = true -> signal y = false ->
       (i < j)%nat.
Proof.
  split; [apply sort_rows_perm |].
  intros i j x y Hi Hj Hx Hy.
  destruct (Nat.lt_ge_cases i j) as [Hlt | Hge]; [exact Hlt | exfalso].
  destruct (Nat.eq_dec i j) as [-> | Hne]; [congruence |].
  unfold sort_rows, sort_reverse in Hi, Hj.
  set (s := stable_sort row_lt (rev rows)) in *.
  assert (Li : (i < length s)%nat).
  { rewrite <- length_rev. apply nth_error_Some. congruence. }
  assert (Lj : (j < length s)%nat).
  { rewrite <- length_rev. apply nth_error_Some. congruence. }
  rewrite nth_error_rev, (proj2 (Nat.ltb_lt _ _) Li) in Hi.
  rewrite nth_error_rev, (proj2 (Nat.ltb_lt _ _) Lj) in Hj.
  assert (Hs : StronglySorted signal_le s) by apply stable_sort_sorted.
  assert (Hpos : (length s - S i < length s - S j)%nat) by lia.
  pose proof (sorted_positions s Hs _ _ _ _ Hi Hj Hpos) as H.
  unfold signal_le in H. rewrite (H Hx) in Hy. discriminate Hy.
Qed.

End Ordering.

(** ** Price parsing *)

Section PriceFacts.

Import PyStr Price Terms.

Lemma digit_is_plain (c : ascii) :
  is_digit c = true ->
  str_isspace c = false /\ c_isspace c = false /\ is_sign c = false
  /\ is_comma c = false /\ Ascii.eqb c "-" = false
  /\ Ascii.eqb c "+" = false /\ (0 <= digit_value c)%Z.
Proof.
  destruct c as [[] [] [] [] [] [] [] []]; intros H;
    try discriminate H; repeat split; discriminate.
Qed.

Lemma comma_is_plain (c : ascii) :
  is_comma c = true ->
  str_isspace c = false /\ is_sign c = false /\ is_digit c = false.
Proof.
  destruct c as [[] [] [] [] [] [] [] []]; intros H;
    try discriminate H; repeat split.
Qed.

Lemma sign_is_plain (c : ascii) :
  is_sign c = true -> str_isspace c = false /\ is_comma c = false.
Proof.
  destruct c as [[] [] [] [] [] [] [] []]; intros H;
    try discriminate H; repeat split.
Qed.

Lemma rstrip_every (p : ascii -> bool) (s : string) :
  every (fun c => negb (p c)) s = true -> rstrip p s = s.
Proof.
  induction s as [| c s IH]; simpl; [reflexivity |].
  intros H. split_andb H as [Hc Hs].
  rewrite (IH Hs). apply negb_true_iff in Hc. rewrite Hc.
  destruct s; reflexivity.
Qed.

Lemma every_impl (p q : ascii -> bool) (s : string) :
  (forall c, p c = true -> q c = true) ->
  every p s = true -> every q s = true.
Proof.
  intros Hpq. induction s as [| c s IH]; simpl; [reflexivity |].
  intros H. split_andb H as [Hc Hs].
  rewrite (Hpq c Hc), (IH Hs). reflexivity.
Qed.

Lemma lstrip_every (p : ascii -> bool) (s : string) :
  every (fun c => negb (p c)) s = true -> lstrip p s = s.
Proof.
  destruct s as [| c s]; simpl; [reflexivity |].
  intros H. split_andb H as [Hc _].
  apply negb_true_iff in Hc. rewrite Hc. reflexivity.
Qed.

Lemma remove_commas_digits (b : string) :
  digits_and_commas b = true -> every is_digit (remove_commas b) = true.
Proof.
  induction b as [| c b IH]; simpl; [reflexivity |].
  intros H. split_andb H as [Hc Hb].
  destruct (is_comma c) eqn:E; [exact (IH Hb) |].
  rewrite orb_false_r in Hc. simpl. rewrite Hc. exact (IH Hb).
Qed.

Lemma remove_commas_nonempty (b : string) :
  has_digit b = true -> is_empty (remove_commas b) = false.
Proof.
  induction b as [| c b IH]; simpl; [discriminate |].
  intros H. destruct (is_comma c) eqn:E; [| reflexivity].
  destruct (comma_is_plain c E) as [_ [_ Hd]].
  rewrite Hd in H. exact (IH H).
Qed.

Lemma read_digits_all (ds : string) (acc : Z) (n : nat) :
  every is_digit ds = true -> (0 <= acc)%Z ->
  exists v, read_digits ds acc n = (v, (n + String.length ds)%nat, EmptyString)
            /\ (0 <= v)%Z.
Proof.
  revert acc n.
  induction ds as [| c ds IH]; cbn [read_digits every String.length];
    intros acc n H Hacc.
  - exists acc. rewrite Nat.add_0_r. split; [reflexivity | exact Hacc].
  - split_andb H as [Hc Hds]. rewrite Hc.
    destruct (digit_is_plain c Hc) as [_ [_ [_ [_ [_ [_ Hv]]]]]].
    destruct (IH (10 * acc + digit_value c)%Z (S n) Hds ltac:(lia))
      as [v [E Hv']].
    exists v. rewrite E. split; [| exact Hv'].
    f_equal. f_equal. lia.
Qed.

(** [float()] of a non-empty run of digits is its value, which is not
    negative. *)
Lemma float_of_digits (ds : string) :
  every is_digit ds = true -> is_empty ds = false ->
  exists q, PyStr.float ds = Returned q /\ (0 <= q)%Q.
Proof.
  intros Hd Hne.
  assert (Hsp : every (fun c => negb (c_isspace c)) ds = true).
  { revert Hd. apply every_impl. intros c Hc.
    destruct (digit_is_plain c Hc) as [_ [H _]]. rewrite H. reflexivity. }
  unfold PyStr.float. rewrite (lstrip_every _ _ Hsp), (rstrip_every _ _ Hsp).
  destruct ds as [| c ds]; [discriminate Hne |].
  pose proof Hd as Hd'. simpl in Hd'. apply andb_true_iff in Hd'.
  destruct Hd' as [Hc _].
  destruct (digit_is_plain c Hc) as [_ [_ [_ [_ [Hm [Hp _]]]]]].
  unfold take_sign. rewrite Hm, Hp.
  destruct (read_digits_all (String c ds) 0 0 Hd ltac:(lia)) as [v [E Hv]].
  rewrite E. cbn [is_empty andb Nat.add String.length Nat.ltb Nat.leb].
  eexists. split; [reflexivity |].
  change (10 ^ Z.of_nat 0)%Z with 1%Z.
  rewrite Zle_Qle in Hv. change (inject_Z 0) with 0%Q in *.
  unfold Qdiv. change (/ inject_Z 1)%Q with 1%Q. lra.
Qed.

Lemma parse_price_body (c : option ascii) (b : string) :
  match c with Some a => is_sign a = true | None => True end ->
  digits_and_commas b = true -> has_digit b = true ->
  exists q,
    parse_price (VStr (match c with Some a => String a b | None => b end))
      = Returned q
    /\ (0 <= q)%Q.
Proof.
  intros Hc Hb Hh.
  set (s := match c with Some a => String a b | None => b end).
  assert (Hplain : every (fun x => negb (str_isspace x)) b = true).
  { clear Hh. induction b as [| x b IH]; simpl; [reflexivity |].
    simpl in Hb. split_andb Hb as [Hx Hb].
    rewrite (IH Hb), andb_true_r. apply orb_true_iff in Hx.
    destruct Hx as [Hx | Hx].
    - destruct (digit_is_plain x Hx) as [H _]. rewrite H. reflexivity.
    - destruct (comma_is_plain x Hx) as [H _]. rewrite H. reflexivity. }
  assert (Hs : every (fun x => negb (str_isspace x)) s = true).
  { unfold s. destruct c as [a |]; [| exact Hplain].
    simpl. rewrite Hplain, andb_true_r.
    destruct (sign_is_plain a Hc) as [H _]. rewrite H. reflexivity. }
  assert (Hclean :
            lstrip is_sign (remove_commas (strip s)) = remove_commas b).
  { unfold strip. rewrite (lstrip_every _ _ Hs), (rstrip_every _ _ Hs).
    assert (Hl : lstrip is_sign (remove_commas b) = remove_commas b).
    { apply lstrip_every. generalize (remove_commas_digits b Hb).
      apply every_impl. intros x Hx.
      destruct (digit_is_plain x Hx) as [_ [_ [H _]]]. rewrite H.
      reflexivity. }
    unfold s. destruct c as [a |]; [| exact Hl].
    simpl. destruct (sign_is_plain a Hc) as [_ H]. rewrite H.
    simpl. rewrite Hc. exact Hl. }
  unfold parse_price. rewrite Hclean, (remove_commas_nonempty b Hh).
  apply float_of_digits;
    [apply remove_commas_digits, Hb | apply remove_commas_nonempty, Hh].
Qed.

Lemma parse_price_well_formed (s : string) :
  well_formed s = true ->
  exists q, parse_price (VStr s) = Returned q /\ (0 <= q)%Q.
Proof.
  unfold well_formed. intros H. apply andb_true_iff in H.
  destruct s as [| a b].
  - destruct H as [_ H]. discriminate H.
  - destruct (is_sign a) eqn:E; destruct H as [Hb Hh].
    + exact (parse_price_body (Some a) b E Hb Hh).
    + exact (parse_price_body None (String a b) I Hb Hh).
Qed.

(** C9, as the code has it.  [parse_price] maps "1,234" to 1234.0,
    "-1,234" to 1234.0 and [None] to 0.0.  It returns a value that is not
    negative for every int of magnitude below 2**1024 - 2**970 (the ints
    that [float()] converts), for every float that is a finite number and
    for every well-formed price string (an optional leading sign, then
    digits with thousands separators).  For an int of magnitude
    2**1024 - 2**970 or more there is no result: [float()] raises
    [OverflowError]. *)
Theorem parse_price_nonnegative :
  parse_price (VStr "1,234") = Returned 1234%Q
  /\ parse_price (VStr "-1,234") = Returned 1234%Q
  /\ parse_price VNone = Returned 0%Q
  /\ (forall z : Z,
        (Z.abs z < FLOAT_LIMIT)%Z ->
        exists q, parse_price (VInt z) = Returned q /\ (0 <= q)%Q)
  /\ (forall z : Z,
        (FLOAT_LIMIT <= Z.abs z)%Z ->
        parse_price (VInt z) = Raised OverflowError)
  /\ (forall x : Q, exists q, parse_price (VFloat x) = Returned q /\ (0 <= q)%Q)
  /\ (forall s : string,
        well_formed s = true ->
        exists q, parse_price (VStr s) = Returned q /\ (0 <= q)%Q).
Proof.
  split; [vm_compute; reflexivity |].
  split; [vm_compute; reflexivity |].
  split; [reflexivity |].
  split; [| split; [| split]].
  - intros z Hz. unfold parse_price, float_of_int.
    apply Z.ltb_lt in Hz. rewrite Hz. cbn [bind].
    eexists. split; [reflexivity | apply Qabs_nonneg].
  - intros z Hz. unfold parse_price, float_of_int.
    apply Z.ltb_ge in Hz. rewrite Hz. reflexivity.
  - intros x. eexists. split; [reflexivity | apply Qabs_nonneg].
  - exact parse_price_well_formed.
Qed.

Lemma parse_price_nonnegative_witness :
  (well_formed "+12,345,678" = true
   /\ exists q, parse_price (VStr "+12,345,678") = Returned q /\ (0 <= q)%Q)
  /\ (exists q, parse_price (VInt (-71500)) = Returned q /\ (0 <= q)%Q).
Proof.
  split.
  - split; [reflexivity |].
    apply (proj2 (proj2 (proj2 (proj2 (proj2 (proj2
                                                parse_price_nonnegative)))))).
    reflexivity.
  - apply (proj1 (proj2 (proj2 (proj2 parse_price_nonnegative)))).
    vm_compute. reflexivity.
Defined.

(** C9 as stated fails: for the int 10**400 there is no result, negative
    or not; the conversion to a float raises. *)
Lemma parse_price_of_huge_int :
  parse_price (VInt (10 ^ 400)) = Raised OverflowError
  /\ forall q, parse_price (VInt (10 ^ 400)) <> Returned q.
Proof.
  split; [vm_compute; reflexivity | intros q; vm_compute; discriminate].
Qed.

End PriceFacts.

(** ** The token manager *)

Section TokenFacts.

Import Net Terms.
Local Open Scope Z_scope.

(** [strptime] raises nothing but [ValueError]. *)
Lemma strptime_raises (s : string) (e : exn) :
  DateTime.strptime s = Raised e -> e = ValueError.
Proof.
  unfold DateTime.strptime.
  repeat match goal with
         | |- context [match ?x with _ => _ end] => destruct x
         end; congruence.
Qed.

Lemma unix_epoch_value : unix_epoch = 62135596800000000.
Proof. reflexivity. Qed.

Lemma is_expired_parsed (now : Z) (tok : Token) (t : DateTime.datetime) :
  DateTime.strptime (expires_dt tok) = Returned t ->
  DateTime.minutes 1 <= DateTime.timestamp t ->
  Auth.is_expired now tok
  = Returned (DateTime.timestamp t - DateTime.minutes 1 <=? now).
Proof.
  intros Hp Hmin. unfold Auth.is_expired.
  destruct (expires_dt tok) as [| c s] eqn:E.
  - vm_compute in Hp. discriminate Hp.
  - cbn [PyStr.is_empty]. rewrite Hp. unfold DateTime.sub.
    destruct (DateTime.timestamp t - DateTime.minutes 1 <? 0) eqn:L.
    + apply Z.ltb_lt in L. lia.
    + reflexivity.
Qed.

Lemma is_expired_unparsed (now : Z) (tok : Token) :
  (forall t, DateTime.strptime (expires_dt tok) <> Returned t) ->
  Auth.is_expired now tok = Returned false.
Proof.
  intros H. unfold Auth.is_expired.
  destruct (PyStr.is_empty (expires_dt tok)); [reflexivity |].
  destruct (DateTime.strptime (expires_dt tok)) as [t | e] eqn:E.
  - destruct (H t). reflexivity.
  - rewrite (strptime_raises _ _ E). reflexivity.
Qed.

(** A token that is not expired is handed out as it is. *)
Lemma token_cached (st : State) (tok : Token) :
  Auth.is_expired (clock st) tok = Returned false ->
  Auth.token (set_token (Some tok) st)
  = (Returned (access_token tok), set_token (Some tok) st).
Proof.
  intros H. unfold Auth.token, mbind, get, lift.
  cbn [_token set_token clock]. rewrite H. reflexivity.
Qed.

(** An expired token is refreshed first. *)
Lemma token_stale (st : State) (tok : Token) :
  Auth.is_expired (clock st) tok = Returned true ->
  Auth.token (set_token (Some tok) st)
  = (Auth._refresh_token ;;; Auth.read_access_token)
      (set_token (Some tok) st).
Proof.
  intros H. unfold Auth.token at 1. unfold mbind at 1 2 3. unfold get, lift.
  cbn [_token set_token clock]. rewrite H. reflexivity.
Qed.

(** C6.  With the wall clock in the Unix era: a cached token whose
    [expires_dt] lies 30 seconds in the future is expired, and the next
    read of [token] goes through [_refresh_token]; a cached token whose
    [expires_dt] lies 2 minutes in the future is not expired and is handed
    out without a refresh; a cached token with an empty [expires_dt] is
    not expired, whatever the time, and is handed out without a
    refresh. *)
Theorem token_freshness (st : State) :
  0 <= time_time st ->
  (forall tok t,
      DateTime.strptime (expires_dt tok) = Returned t ->
      DateTime.timestamp t = clock st + DateTime.seconds 30 ->
      Auth.is_expired (clock st) tok = Returned true
      /\ Auth.token (set_token (Some tok) st)
         = (Auth._refresh_token ;;; Auth.read_access_token)
             (set_token (Some tok) st))
  /\ (forall tok t,
         DateTime.strptime (expires_dt tok) = Returned t ->
         DateTime.timestamp t = clock st + DateTime.minutes 2 ->
         Auth.is_expired (clock st) tok = Returned false
         /\ Auth.token (set_token (Some tok) st)
            = (Returned (access_token tok), set_token (Some tok) st))
  /\ (forall tok,
         expires_dt tok = EmptyString ->
         Auth.is_expired (clock st) tok = Returned false
         /\ Auth.token (set_token (Some tok) st)
            = (Returned (access_token tok), set_token (Some tok) st)).
Proof.
  unfold time_time. rewrite unix_epoch_value. intros Hera.
  split; [| split].
  - intros tok t Hp Ht.
    assert (E : Auth.is_expired (clock st) tok = Returned true).
    { rewrite (is_expired_parsed _ _ _ Hp);
        unfold DateTime.minutes, DateTime.seconds in *; [| lia].
      f_equal. apply Z.leb_le. lia. }
    split; [exact E | apply token_stale, E].
  - intros tok t Hp Ht.
    assert (E : Auth.is_expired (clock st) tok = Returned false).
    { rewrite (is_expired_parsed _ _ _ Hp);
        unfold DateTime.minutes, DateTime.seconds in *; [| lia].
      f_equal. apply Z.leb_gt. lia. }
    split; [exact E | apply token_cached, E].
  - intros tok He.
    assert (E : Auth.is_expired (clock st) tok = Returned false)
      by (unfold Auth.is_expired; rewrite He; reflexivity).
    split; [exact E | apply token_cached, E].
Qed.

Lemma token_freshness_witness :
  Auth.is_expired (clock (session []))
                  (mkToken "abc" "Bearer" "20240301120030")
    = Returned true
  /\ Auth.is_expired (clock (session []))
                     (mkToken "abc" "Bearer" "20240301120200")
     = Returned false
  /\ Auth.is_expired (clock (session [])) (mkToken "abc" "Bearer" "")
     = Returned false.
Proof.
  assert (Hera : 0 <= time_time (session []))
    by (vm_compute; discriminate).
  destruct (token_freshness (session []) Hera) as [H30 [H120 Hempty]].
  split; [| split].
  - refine (proj1 (H30 (mkToken "abc" "Bearer" "20240301120030")
                       (DateTime.mkdatetime 2024 3 1 12 0 30 0) _ _));
      vm_compute; reflexivity.
  - refine (proj1 (H120 (mkToken "abc" "Bearer" "20240301120200")
                        (DateTime.mkdatetime 2024 3 1 12 2 0 0) _ _));
      vm_compute; reflexivity.
  - exact (proj1 (Hempty (mkToken "abc" "Bearer" "") eq_refl)).
Defined.

(** C10.  A token whose [expires_dt] is a non-empty string that
    [strptime] does not parse in the format [%Y%m%d%H%M%S] is not expired
    at any time; while it is cached, [token] hands it out without a
    refresh. *)
Theorem malformed_expiry_never_expires (st : State) (tok : Token) :
  expires_dt tok <> EmptyString ->
  (forall t, DateTime.strptime (expires_dt tok) <> Returned t) ->
  (forall now, Auth.is_expired now tok = Returned false)
  /\ Auth.token (set_token (Some tok) st)
     = (Returned (access_token tok), set_token (Some tok) st).
Proof.
  intros _ Hbad.
  split; [intros now; apply is_expired_unparsed, Hbad |].
  apply token_cached, is_expired_unparsed, Hbad.
Qed.

Lemma malformed_expiry_never_expires_witness :
  (forall now,
      Auth.is_expired now (mkToken "abc" "Bearer" "2024-03-01 12:00:00")
      = Returned false)
  /\ Auth.token
       (set_token (Some (mkToken "abc" "Bearer" "2024-03-01 12:00:00"))
                  (session []))
     = (Returned "abc"%string,
        set_token (Some (mkToken "abc" "Bearer" "2024-03-01 12:00:00"))
                  (session [])).
Proof.
  apply (malformed_expiry_never_expires
           (session []) (mkToken "abc" "Bearer" "2024-03-01 12:00:00")).
  - discriminate.
  - intros t. vm_compute. discriminate.
Defined.

End TokenFacts.

(** ** The request executor *)

Section RequestFacts.

Import Net Client Terms.
Local Open Scope Z_scope.

Lemma backoffs_app (t1 t2 : list Event) :
  backoffs (t1 ++ t2) = backoffs t1 ++ backoffs t2.
Proof.
  induction t1 as [| e t1 IH]; simpl; [reflexivity |].
  destruct e as [[] d | |]; simpl; rewrite IH; reflexivity.
Qed.

Lemma total_app (l1 l2 : list Z) : total (l1 ++ l2) = total l1 + total l2.
Proof.
  unfold total. induction l1 as [| x l1 IH]; cbn [fold_right app]; lia.
Qed.

(** A token that is not expired at some time was not expired before. *)
Lemma is_expired_earlier (horizon now : Z) (tok : Token) :
  Auth.is_expired horizon tok = Returned false ->
  now <= horizon ->
  Auth.is_expired now tok = Returned false.
Proof.
  unfold Auth.is_expired.
  destruct (PyStr.is_empty (expires_dt tok)); [reflexivity |].
  destruct (DateTime.strptime (expires_dt tok)) as [t | e].
  - destruct (DateTime.sub t (DateTime.minutes 1)) as [limit | e];
      cbn [bind]; [| discriminate].
    intros H Hle. injection H as H. apply Z.leb_gt in H.
    f_equal. apply Z.leb_gt. lia.
  - destruct e; intros H _; try discriminate H; reflexivity.
Qed.

Lemma fresh_until_same (h : Z) (st st' : State) :
  _token st' = _token st -> fresh_until h st -> fresh_until h st'.
Proof.
  intros E [tok [Ht Hf]]. exists tok. split; [congruence | exact Hf].
Qed.

(** Pacing sleeps for at most the minimum interval, never fails, and
    touches neither the token nor the replies. *)
Lemma wait_ok (st : State) :
  paced st ->
  exists st',
    _wait_for_rate_limit st = (Returned tt, st')
    /\ _token st' = _token st
    /\ api_replies st' = api_replies st
    /\ backoffs (trace st') = backoffs (trace st)
    /\ clock st' <= clock st + MIN_REQUEST_INTERVAL
    /\ paced st'
    /\ token_replies st' = token_replies st
    /\ clock st <= clock st'.
Proof.
  unfold paced. intros Hp.
  unfold _wait_for_rate_limit, mbind, get, modify, sleep, ret.
  destruct (time_time st - _last_request_time st <? MIN_REQUEST_INTERVAL)
    eqn:E.
  - apply Z.ltb_lt in E.
    assert (L : (MIN_REQUEST_INTERVAL
                 - (time_time st - _last_request_time st) <? 0) = false)
      by (apply Z.ltb_ge; lia).
    rewrite L. eexists. split; [reflexivity |].
    unfold time_time in *.
    cbn [_token api_replies token_replies trace set_last_request_time
         record_event set_clock clock _last_request_time].
    rewrite backoffs_app. cbn [backoffs]. rewrite app_nil_r.
    repeat split; lia.
  - eexists. split; [reflexivity |].
    unfold time_time.
    cbn [_token api_replies token_replies trace set_last_request_time clock
         _last_request_time].
    unfold MIN_REQUEST_INTERVAL. repeat split; lia.
Qed.

Lemma auth_ok (api_id : string) (h : Z) (st : State) :
  fresh_until h st -> clock st <= h ->
  exists headers, Auth.get_auth_header api_id st = (Returned headers, st).
Proof.
  intros [tok [Ht Hf]] Hh.
  pose proof (is_expired_earlier h (clock st) tok Hf Hh) as Hnow.
  unfold Auth.get_auth_header, Auth.token, Auth.read_access_token,
    mbind, get, lift, ret.
  rewrite Ht, Hnow. cbv beta iota. rewrite Ht. eexists. reflexivity.
Qed.

(** A token that is expired at some time is expired later on. *)
Lemma is_expired_later (now later : Z) (tok : Token) :
  Auth.is_expired now tok = Returned true ->
  now <= later ->
  Auth.is_expired later tok = Returned true.
Proof.
  unfold Auth.is_expired.
  destruct (PyStr.is_empty (expires_dt tok)); [discriminate |].
  destruct (DateTime.strptime (expires_dt tok)) as [t | e].
  - destruct (DateTime.sub t (DateTime.minutes 1)) as [limit | e];
      cbn [bind]; [| discriminate].
    intros H Hle. injection H as H. apply Z.leb_le in H.
    f_equal. apply Z.leb_le. lia.
  - destruct e; intros H _; discriminate H.
Qed.

Lemma token_ready_same (h : Z) (st st' : State) :
  _token st' = _token st -> token_replies st' = token_replies st ->
  clock st <= clock st' ->
  token_ready h st -> token_ready h st'.
Proof.
  intros Et Er Hc [Hf | [Hstale Hgrant]].
  - left. exact (fresh_until_same h st st' Et Hf).
  - right. rewrite Et, Er. split; [| exact Hgrant].
    destruct Hstale as [Hnone | [tok [Htok Hexp]]].
    + left. exact Hnone.
    + right. exists tok. split; [exact Htok |].
      exact (is_expired_later _ _ _ Hexp Hc).
Qed.

(** While the token is ready the headers are there, and a token that
    stays unexpired is cached afterwards. *)
Lemma auth_ready (api_id : string) (h : Z) (st : State) :
  token_ready h st -> clock st <= h ->
  exists headers st',
    Auth.get_auth_header api_id st = (Returned headers, st')
    /\ fresh_until h st'
    /\ clock st' = clock st
    /\ _last_request_time st' = _last_request_time st
    /\ api_replies st' = api_replies st
    /\ backoffs (trace st') = backoffs (trace st).
Proof.
  intros [Hf | [Hstale Hgrant]] Hh.
  - destruct (auth_ok api_id h st Hf Hh) as [headers E].
    exists headers, st. repeat split; try reflexivity; assumption.
  - destruct Hgrant as [status [result [later [Hr [Hok [Htok Hfresh]]]]]].
    assert (Hstale' :
              match _token st with
              | None => Returned true
              | Some t => Auth.is_expired (clock st) t
              end = Returned true).
    { destruct Hstale as [-> | [tok [-> Hexp]]]; [reflexivity | exact Hexp]. }
    unfold Auth.get_auth_header. unfold mbind at 1.
    unfold Auth.token. unfold mbind at 1 2 3. unfold get, lift.
    rewrite Hstale'.
    unfold Auth._refresh_token. unfold mbind at 1.
    unfold Auth.post_token. cbn [token_replies record_event].
    rewrite Hr, Hok, Htok.
    unfold modify, Auth.read_access_token, mbind, get, ret.
    cbn [_token set_token].
    do 2 eexists. split; [reflexivity |].
    cbn [clock _last_request_time api_replies trace set_token
         set_token_replies].
    split; [| split; [reflexivity | split; [reflexivity | split;
                                             [reflexivity |]]]].
    + exists (granted result). split; [reflexivity | exact Hfresh].
    + cbn [trace record_event]. rewrite backoffs_app. cbn [backoffs].
      apply app_nil_r.
Qed.

Lemma wait_seconds_ok (r : Response) (a : Z) :
  0 <= a -> retry_after_ok r = true ->
  exists w, wait_seconds (retry_after r) a = Returned w /\ 0 <= w.
Proof.
  intros Ha. unfold retry_after_ok, wait_seconds.
  destruct (retry_after r) as [s |].
  - destruct (PyStr.is_empty s); simpl.
    + intros _. eexists. split; [reflexivity | lia].
    + destruct (PyStr.int s) as [w | e]; [| discriminate].
      intros H. apply Z.leb_le in H.
      exists w. split; [reflexivity | exact H].
  - intros _. eexists. split; [reflexivity | lia].
Qed.


Lemma other_error_retriable (r : Response) :
  other_error r = true -> retriable r = true.
Proof.
  unfold other_error, retriable. intros H.
  split_andb H as [Hf Hn].
  rewrite Hf, Hn. reflexivity.
Qed.

Lemma delays_other_errors (rc a : Z) (errs : list Response) :
  Forall (fun r => other_error r = true) errs -> delays rc a errs = [].
Proof.
  intros H. revert a. induction H as [| r errs Hr _ IH]; intros a; simpl.
  - reflexivity.
  - unfold other_error in Hr. split_andb Hr as [_ Hn]. apply negb_true_iff in Hn.
    rewrite Hn, IH. reflexivity.
Qed.

Lemma delay_nonneg (r : Response) (a : Z) :
  0 <= a -> retry_after_ok r = true -> 0 <= delay r a.
Proof.
  intros Ha Hh. unfold delay.
  destruct (wait_seconds_ok r a Ha Hh) as [w [Hw Hw0]]. rewrite Hw.
  unfold DateTime.seconds. lia.
Qed.

Lemma delays_nonneg (rc : Z) (errs : list Response) :
  Forall (fun r => retriable r = true) errs ->
  forall a, 0 <= a -> 0 <= total (delays rc a errs).
Proof.
  induction 1 as [| r errs Hr _ IH]; intros a Ha; cbn [delays].
  - unfold total. simpl. lia.
  - rewrite total_app. specialize (IH (a + 1) ltac:(lia)).
    destruct ((status_code r =? 429) && (a <? rc - 1)) eqn:E.
    + split_andb E as [E429 _].
      unfold retriable in Hr. rewrite E429 in Hr.
      split_andb Hr as [_ Hh]. simpl in Hh.
      pose proof (delay_nonneg r a Ha Hh).
      unfold total at 1. cbn [fold_right]. lia.
    + unfold total at 1. cbn [fold_right]. lia.
Qed.

Lemma busy_nonneg (rc : Z) (a : Z) (errs : list Response) :
  Forall (fun r => retriable r = true) errs -> 0 <= a ->
  0 <= busy rc a errs.
Proof.
  intros H Ha. unfold busy, MIN_REQUEST_INTERVAL.
  pose proof (delays_nonneg rc errs H a Ha). lia.
Qed.

Variable config : KiwoomConfig.
Variables (api_id path : string) (body : Json).
Variables (cont_yn next_key : string) (retry_count : Z).

(** One attempt that gets a response [r]: what the loop does with it. *)
Lemma attempts_step (a : Z) (later : list Z) (h : Z) (st : State)
    (r : Response) (rest : list ApiReply) :
  paced st -> token_ready h st ->
  clock st + MIN_REQUEST_INTERVAL <= h ->
  api_replies st = Answered r :: rest ->
  exists st1,
    fresh_until h st1 /\ api_replies st1 = rest
    /\ backoffs (trace st1) = backoffs (trace st)
    /\ clock st1 <= clock st + MIN_REQUEST_INTERVAL
    /\ paced st1
    /\ attempts config api_id path body cont_yn next_key retry_count
                (a :: later) st
       = (if (status_code r =? 429) && (a <? retry_count - 1)
          then
            wait_s <- lift (wait_seconds (retry_after r) a) ;;
            sleep_seconds Backoff wait_s ;;;
            attempts config api_id path body cont_yn next_key retry_count
                     later
          else if is_success (status_code r)
          then lift (json r)
          else if a =? retry_count - 1
          then raise (HTTPStatusError (status_code r))
          else attempts config api_id path body cont_yn next_key
                        retry_count later) st1.
Proof.
  intros Hp Hs Hh Hr.
  destruct (wait_ok st Hp) as [st0 [W [T0 [A0 [B0 [C0 [P0 [R0 L0]]]]]]]].
  destruct (auth_ready api_id h st0 (token_ready_same h st st0 T0 R0 L0 Hs)
              ltac:(lia))
    as [headers [st0' [Hh0 [F0 [Ck [Lr [Ar Bk]]]]]]].
  cbn [attempts]. unfold mbind at 1. rewrite W.
  unfold mbind at 1. rewrite Hh0.
  unfold mbind at 1. unfold post at 1.
  cbn [api_replies record_event]. rewrite Ar, A0, Hr.
  eexists.
  split; [| split; [| split; [| split; [| split; [| reflexivity]]]]].
  - eapply fresh_until_same; [| exact F0]. reflexivity.
  - reflexivity.
  - cbn [trace set_api_replies record_event]. rewrite backoffs_app.
    cbn [backoffs]. rewrite app_nil_r, Bk. exact B0.
  - cbn [clock set_api_replies record_event]. rewrite Ck. exact C0.
  - unfold paced, time_time in *.
    cbn [clock _last_request_time set_api_replies record_event].
    rewrite Ck, Lr. exact P0.
Qed.

(** Error responses met before the last attempt are passed over: the loop
    goes on with the attempts that remain. *)
Lemma attempts_skip (h : Z) (errs : list Response) :
  forall (a m : nat) (st : State) (rest : list ApiReply),
    Z.of_nat (a + m) = retry_count ->
    (length errs < m)%nat ->
    Forall (fun r => retriable r = true) errs ->
    sleepable (delays retry_count (Z.of_nat a) errs) ->
    paced st -> token_ready h st ->
    clock st + busy retry_count (Z.of_nat a) errs <= h ->
    api_replies st = map Answered errs ++ rest ->
    exists st1,
      paced st1 /\ token_ready h st1
      /\ clock st1 <= clock st + busy retry_count (Z.of_nat a) errs
      /\ api_replies st1 = rest
      /\ backoffs (trace st1)
         = backoffs (trace st) ++ delays retry_count (Z.of_nat a) errs
      /\ attempts config api_id path body cont_yn next_key retry_count
                  (from a m) st
         = attempts config api_id path body cont_yn next_key retry_count
                    (from (a + length errs) (m - length errs)) st1.
Proof.
  induction errs as [| r errs IH];
    intros a m st rest Hrc Hlen Herr Hsl Hp Hs Hh Hr.
  - exists st. unfold busy. simpl.
    rewrite app_nil_r, Nat.add_0_r, Nat.sub_0_r.
    repeat split; try assumption. lia.
  - simpl in Hlen. destruct m as [| m]; [lia |].
    apply Forall_cons_iff in Herr. destruct Herr as [Hr1 Herr'].
    simpl in Hr.
    assert (Hnotlast : (Z.of_nat a <? retry_count - 1) = true)
      by (apply Z.ltb_lt; lia).
    assert (Hnotlast' : (Z.of_nat a =? retry_count - 1) = false)
      by (apply Z.eqb_neq; lia).
    unfold retriable in Hr1. split_andb Hr1 as [Hfail Hhdr]. apply negb_true_iff in Hfail.
    assert (Hbusy :
              busy retry_count (Z.of_nat a) (r :: errs)
              = MIN_REQUEST_INTERVAL
                + total (if status_code r =? 429
                         then [delay r (Z.of_nat a)] else [])
                + busy retry_count (Z.of_nat (S a)) errs).
    { unfold busy. cbn [delays length]. rewrite Hnotlast, andb_true_r.
      rewrite total_app.
      replace (Z.of_nat a + 1) with (Z.of_nat (S a)) by lia. lia. }
    pose proof (busy_nonneg retry_count (Z.of_nat (S a)) errs Herr'
                  ltac:(lia)) as Hrest.
    assert (Hd : 0 <= total (if status_code r =? 429
                             then [delay r (Z.of_nat a)] else [])).
    { destruct (status_code r =? 429); unfold total; cbn [fold_right];
        [| lia].
      simpl in Hhdr. pose proof (delay_nonneg r (Z.of_nat a) ltac:(lia) Hhdr).
      lia. }
    destruct (attempts_step (Z.of_nat a) (from (S a) m) h st r _ Hp Hs
                ltac:(lia) Hr)
      as [st1 [F1 [A1 [B1 [C1 [P1 E1]]]]]].
    assert (Hs1 : token_ready h st1) by (left; exact F1).
    assert (Hsl' : sleepable (delays retry_count (Z.of_nat (S a)) errs)).
    { unfold sleepable in *. cbn [delays] in Hsl.
      apply Forall_app in Hsl. destruct Hsl as [_ Hsl].
      replace (Z.of_nat (S a)) with (Z.of_nat a + 1) by lia. exact Hsl. }
    unfold from at 1. cbn [seq map]. fold (from (S a) m). rewrite E1.
    rewrite Hnotlast, Hnotlast', Hfail, andb_true_r.
    cbn [delays length Nat.sub]. rewrite Hnotlast, andb_true_r.
    replace (a + S (length errs))%nat with (S a + length errs)%nat by lia.
    replace (Z.of_nat a + 1) with (Z.of_nat (S a)) by lia.
    rewrite Hbusy in *.
    destruct (status_code r =? 429) eqn:E429.
    + simpl in Hhdr.
      destruct (wait_seconds_ok r (Z.of_nat a) ltac:(lia) Hhdr)
        as [w [Hw Hw0]].
      assert (Ed : delay r (Z.of_nat a) = DateTime.seconds w)
        by (unfold delay; rewrite Hw; reflexivity).
      assert (Hmax : w <= MAX_SLEEP).
      { unfold sleepable in Hsl. cbn [delays] in Hsl.
        rewrite E429, Hnotlast in Hsl. cbn [andb app] in Hsl.
        apply Forall_cons_iff in Hsl. destruct Hsl as [Hsl _].
        rewrite Ed in Hsl.
        unfold DateTime.seconds, LONGEST_BACKOFF, MAX_SLEEP in *. lia. }
      unfold mbind at 1. unfold lift at 1. rewrite Hw.
      unfold mbind at 1. unfold sleep_seconds at 1.
      assert (Lr : ((w <? - MAX_SLEEP) || (MAX_SLEEP <? w)) = false).
      { apply orb_false_iff. unfold MAX_SLEEP in *.
        split; [apply Z.ltb_ge | apply Z.ltb_ge]; lia. }
      rewrite Lr. unfold sleep at 1.
      assert (L : (DateTime.seconds w <? 0) = false)
        by (apply Z.ltb_ge; unfold DateTime.seconds; lia).
      rewrite L.
      set (st2 := record_event _ _).
      rewrite Ed in *. unfold total in Hh, Hd |- *.
      cbn [fold_right] in Hh, Hd |- *.
      assert (C2 : clock st2 = clock st1 + DateTime.seconds w)
        by reflexivity.
      assert (P2 : paced st2).
      { unfold paced, time_time in *. rewrite C2.
        change (_last_request_time st2) with (_last_request_time st1).
        lia. }
      assert (Hs2 : token_ready h st2)
        by (left; apply (fresh_until_same h st1); [reflexivity | exact F1]).
      destruct (IH (S a) m st2 rest ltac:(lia) ltac:(lia) Herr' Hsl' P2 Hs2
                  ltac:(lia) A1)
        as [st3 [P3 [Hs3 [C3 [A3 [B3 E3]]]]]].
      exists st3. split; [exact P3 |]. split; [exact Hs3 |].
      split; [lia |]. split; [exact A3 |].
      split; [| exact E3].
      rewrite B3. unfold st2. cbn [trace record_event set_clock].
      rewrite backoffs_app, B1. simpl.
      rewrite <- app_assoc. reflexivity.
    + unfold total in Hh, Hd |- *. cbn [fold_right] in Hh, Hd |- *.
      destruct (IH (S a) m st1 rest ltac:(lia) ltac:(lia) Herr' Hsl' P1 Hs1
                  ltac:(lia) A1)
        as [st3 [P3 [Hs3 [C3 [A3 [B3 E3]]]]]].
      exists st3. split; [exact P3 |]. split; [exact Hs3 |].
      split; [lia |]. split; [exact A3 |].
      split; [| exact E3].
      rewrite B3, B1. reflexivity.
Qed.
(** Error responses on every attempt: the last one is raised. *)
Lemma attempts_exhausted (h : Z) (front : list Response) (r : Response)
    (st : State) (rest : list ApiReply) :
  Z.of_nat (S (length front)) = retry_count ->
  Forall (fun x => retriable x = true) front ->
  sleepable (delays retry_count 0 front) ->
  is_success (status_code r) = false ->
  paced st -> token_ready h st ->
  clock st + time_needed retry_count front <= h ->
  api_replies st = map Answered (front ++ [r]) ++ rest ->
  exists st',
    _request config api_id path body cont_yn next_key retry_count st
      = (Raised (HTTPStatusError (status_code r)), st')
    /\ api_replies st' = rest
    /\ backoffs (trace st')
       = backoffs (trace st) ++ delays retry_count 0 front.
Proof.
  intros Hrc Hfront Hsl Hfail Hp Hs Hh Hr. unfold time_needed in Hh.
  rewrite map_app, <- app_assoc in Hr. simpl in Hr.
  unfold _request, range.
  replace (Z.to_nat retry_count) with (S (length front)) by lia.
  pose proof (busy_nonneg retry_count 0 front Hfront ltac:(lia)) as Hb.
  destruct (attempts_skip h front 0 (S (length front)) st _
              ltac:(simpl; lia) ltac:(lia) Hfront Hsl Hp Hs
              ltac:(unfold MIN_REQUEST_INTERVAL in *; simpl; lia) Hr)
    as [st1 [P1 [Hs1 [C1 [A1 [B1 E1]]]]]].
  fold (from 0 (S (length front))). rewrite E1.
  replace (S (length front) - length front)%nat with 1%nat by lia.
  unfold from. cbn [seq map].
  destruct (attempts_step (Z.of_nat (0 + length front)) [] h st1 r rest
              P1 Hs1 ltac:(simpl in C1; lia) A1)
    as [st2 [_ [A2 [B2 [_ [_ E2]]]]]].
  rewrite E2.
  assert (Hlast : (Z.of_nat (0 + length front) <? retry_count - 1) = false)
    by (apply Z.ltb_ge; lia).
  assert (Hlast' : (Z.of_nat (0 + length front) =? retry_count - 1) = true)
    by (apply Z.eqb_eq; lia).
  rewrite Hlast, Hlast', Hfail, andb_false_r.
  exists st2. split; [reflexivity |]. split; [exact A2 |].
  rewrite B2, B1. reflexivity.
Qed.

(** Error responses on the first attempts and then a success with
    attempts to spare: the success is returned. *)
Lemma attempts_recovered (h : Z) (errs : list Response) (ok : Response)
    (st : State) (rest : list ApiReply) :
  Z.of_nat (length errs) < retry_count ->
  Forall (fun x => retriable x = true) errs ->
  sleepable (delays retry_count 0 errs) ->
  is_success (status_code ok) = true ->
  paced st -> token_ready h st ->
  clock st + time_needed retry_count errs <= h ->
  api_replies st = map Answered errs ++ Answered ok :: rest ->
  exists st',
    _request config api_id path body cont_yn next_key retry_count st
      = (json ok, st')
    /\ api_replies st' = rest
    /\ backoffs (trace st')
       = backoffs (trace st) ++ delays retry_count 0 errs.
Proof.
  intros Hrc Herrs Hsl Hok Hp Hs Hh Hr. unfold time_needed in Hh.
  unfold _request, range.
  pose proof (busy_nonneg retry_count 0 errs Herrs ltac:(lia)) as Hb.
  destruct (attempts_skip h errs 0 (Z.to_nat retry_count) st _
              ltac:(simpl; lia) ltac:(lia) Herrs Hsl Hp Hs
              ltac:(unfold MIN_REQUEST_INTERVAL in *; simpl; lia) Hr)
    as [st1 [P1 [Hs1 [C1 [A1 [B1 E1]]]]]].
  fold (from 0 (Z.to_nat retry_count)). rewrite E1.
  destruct (Z.to_nat retry_count - length errs)%nat as [| k] eqn:Ek;
    [lia |].
  unfold from. cbn [seq map].
  destruct (attempts_step (Z.of_nat (0 + length errs))
              (map Z.of_nat (seq (S (0 + length errs)) k)) h st1 ok rest
              P1 Hs1 ltac:(simpl in C1; lia) A1)
    as [st2 [_ [A2 [B2 [_ [_ E2]]]]]].
  rewrite E2.
  assert (H429 : (status_code ok =? 429) = false).
  { unfold is_success in Hok. split_andb Hok as [_ Hle]. apply Z.leb_le in Hle.
    apply Z.eqb_neq. lia. }
  rewrite H429, Hok. cbn [andb].
  exists st2. split; [reflexivity |]. split; [exact A2 |].
  rewrite B2, B1. reflexivity.
Qed.

End RequestFacts.


(** ** Claims about the request executor *)

Section RequestClaims.

Import Net Client Terms.
Local Open Scope Z_scope.

Lemma session_paced (replies : list ApiReply) : paced (session replies).
Proof. unfold paced. vm_compute. discriminate. Qed.

(** The token of the example session is good for the next 50 minutes. *)
Lemma session_fresh (replies : list ApiReply) (h : Z) :
  h <= clock (session replies) + DateTime.minutes 50 ->
  fresh_until h (session replies).
Proof.
  intros Hh. eexists. split; [reflexivity |].
  rewrite (is_expired_parsed h _ (DateTime.mkdatetime 2024 3 1 13 0 0 0));
    [| vm_compute; reflexivity | vm_compute; discriminate].
  f_equal. apply Z.leb_gt.
  change (clock (session replies)) with 63844891200000000 in Hh.
  change (DateTime.timestamp (DateTime.mkdatetime 2024 3 1 13 0 0 0))
    with 63844894800000000.
  unfold DateTime.minutes in *. lia.
Qed.

Lemma first_session_paced (replies : list ApiReply) :
  paced (first_session replies).
Proof. unfold paced. vm_compute. discriminate. Qed.

(** Before the first request the token is ready for the next 50 minutes:
    the token endpoint will grant it. *)
Lemma first_session_ready (replies : list ApiReply) (h : Z) :
  h <= clock (first_session replies) + DateTime.minutes 50 ->
  token_ready h (first_session replies).
Proof.
  intros Hh. right. split; [left; reflexivity |].
  do 3 eexists. split; [reflexivity |]. split; [reflexivity |].
  split; [reflexivity |].
  rewrite (is_expired_parsed h _ (DateTime.mkdatetime 2024 3 1 13 0 0 0));
    [| vm_compute; reflexivity | vm_compute; discriminate].
  f_equal. apply Z.leb_gt.
  change (clock (first_session replies)) with 63844891200000000 in Hh.
  change (DateTime.timestamp (DateTime.mkdatetime 2024 3 1 13 0 0 0))
    with 63844894800000000.
  unfold DateTime.minutes in *. lia.
Qed.





(** An error other than 429 asks for no backoff. *)
Lemma delays_skip_other_error (rc a : Z) (r : Response)
    (errs : list Response) :
  other_error r = true ->
  delays rc a (r :: errs) = delays rc (a + 1) errs.
Proof.
  unfold other_error. intros H. split_andb H as [_ Hn].
  apply negb_true_iff in Hn. cbn [delays]. rewrite Hn. reflexivity.
Qed.

(** C3, as the code has it.  For every request made while the time of the
    last request is not in the future and the [token] property does not
    fail for the time the attempts take (a cached token stays unexpired;
    or none is cached, or the cached one has expired, and the token
    endpoint grants one that stays unexpired), and whose backoffs are
    not longer than 10**8 seconds:
    - an HTTP error status other than 429 is raised when it answers the
      last attempt of the budget, whatever error responses (statuses other
      than 429, or 429 with a usable [Retry-After]) answered the attempts
      before it;
    - error responses that answer earlier attempts are dropped and the
      request is sent again on the next attempt, so that errors followed
      by a success within the budget yield the success;
    - the backoffs slept are those of the 429 responses alone: a status
      other than 429 asks for none, so that a run of such errors ends, in
      the error of the last attempt or in the success that follows them,
      without any backoff. *)
Theorem status_error_handling (config : KiwoomConfig)
    (api_id path : string) (body : Json) (cont_yn next_key : string)
    (st : State) :
  paced st ->
  (forall front r rest,
      Forall (fun x => retriable x = true) front ->
      other_error r = true ->
      sleepable (delays (Z.of_nat (S (length front))) 0 front) ->
      token_ready
        (clock st + time_needed (Z.of_nat (S (length front))) front) st ->
      api_replies st = map Answered (front ++ [r]) ++ rest ->
      exists st',
        _request config api_id path body cont_yn next_key
                 (Z.of_nat (S (length front))) st
          = (Raised (HTTPStatusError (status_code r)), st')
        /\ api_replies st' = rest
        /\ backoffs (trace st')
           = backoffs (trace st)
             ++ delays (Z.of_nat (S (length front))) 0 front)
  /\ (forall errs ok rest n,
         Z.of_nat (length errs) < n ->
         Forall (fun x => retriable x = true) errs ->
         sleepable (delays n 0 errs) ->
         is_success (status_code ok) = true ->
         token_ready (clock st + time_needed n errs) st ->
         api_replies st = map Answered errs ++ Answered ok :: rest ->
         exists st',
           _request config api_id path body cont_yn next_key n st
             = (json ok, st')
           /\ api_replies st' = rest
           /\ backoffs (trace st')
              = backoffs (trace st) ++ delays n 0 errs)
  /\ (forall n a r errs,
         other_error r = true ->
         delays n a (r :: errs) = delays n (a + 1) errs)
  /\ (forall front r rest,
         Forall (fun x => other_error x = true) (front ++ [r]) ->
         token_ready
           (clock st + time_needed (Z.of_nat (S (length front))) front) st ->
         api_replies st = map Answered (front ++ [r]) ++ rest ->
         exists st',
           _request config api_id path body cont_yn next_key
                    (Z.of_nat (S (length front))) st
             = (Raised (HTTPStatusError (status_code r)), st')
           /\ api_replies st' = rest
           /\ backoffs (trace st') = backoffs (trace st))
  /\ (forall errs ok rest n,
         Z.of_nat (length errs) < n ->
         Forall (fun x => other_error x = true) errs ->
         is_success (status_code ok) = true ->
         token_ready (clock st + time_needed n errs) st ->
         api_replies st = map Answered errs ++ Answered ok :: rest ->
         exists st',
           _request config api_id path body cont_yn next_key n st
             = (json ok, st')
           /\ api_replies st' = rest
           /\ backoffs (trace st') = backoffs (trace st)).
Proof.
  intros Hp.
  assert (Hraise :
            forall front r rest,
              Forall (fun x => retriable x = true) front ->
              other_error r = true ->
              sleepable (delays (Z.of_nat (S (length front))) 0 front) ->
              token_ready
                (clock st + time_needed (Z.of_nat (S (length front))) front)
                st ->
              api_replies st = map Answered (front ++ [r]) ++ rest ->
              exists st',
                _request config api_id path body cont_yn next_key
                         (Z.of_nat (S (length front))) st
                = (Raised (HTTPStatusError (status_code r)), st')
                /\ api_replies st' = rest
                /\ backoffs (trace st')
                   = backoffs (trace st)
                     ++ delays (Z.of_nat (S (length front))) 0 front).
  { intros front r rest Hfront Hlast Hsl Hs Hr.
    apply (attempts_exhausted config api_id path body cont_yn next_key
             (Z.of_nat (S (length front)))
             (clock st + time_needed (Z.of_nat (S (length front))) front)
             front r st rest eq_refl Hfront Hsl).
    - unfold other_error in Hlast. apply andb_true_iff in Hlast.
      apply negb_true_iff. apply Hlast.
    - exact Hp.
    - exact Hs.
    - lia.
    - exact Hr. }
  assert (Hback :
            forall errs ok rest n,
              Z.of_nat (length errs) < n ->
              Forall (fun x => retriable x = true) errs ->
              sleepable (delays n 0 errs) ->
              is_success (status_code ok) = true ->
              token_ready (clock st + time_needed n errs) st ->
              api_replies st = map Answered errs ++ Answered ok :: rest ->
              exists st',
                _request config api_id path body cont_yn next_key n st
                = (json ok, st')
                /\ api_replies st' = rest
                /\ backoffs (trace st')
                   = backoffs (trace st) ++ delays n 0 errs).
  { intros errs ok rest n Hn Herrs Hsl Hok Hs Hr.
    apply (attempts_recovered config api_id path body cont_yn next_key
             n (clock st + time_needed n errs) errs ok st rest Hn Herrs Hsl
             Hok Hp Hs).
    - lia.
    - exact Hr. }
  split; [exact Hraise |]. split; [exact Hback |].
  split; [intros n a r errs; apply delays_skip_other_error |].
  split.
  - intros front r rest Hall Hs Hr.
    apply Forall_app in Hall. destruct Hall as [Hfront Hlast].
    apply Forall_cons_iff in Hlast. destruct Hlast as [Hlast _].
    destruct (Hraise front r rest) as [st' [E [A B]]].
    + eapply Forall_impl; [| exact Hfront].
      intros x. apply other_error_retriable.
    + exact Hlast.
    + unfold sleepable. rewrite (delays_other_errors _ _ _ Hfront).
      constructor.
    + exact Hs.
    + exact Hr.
    + exists st'. split; [exact E |]. split; [exact A |].
      rewrite B, (delays_other_errors _ _ _ Hfront), app_nil_r.
      reflexivity.
  - intros errs ok rest n Hn Herrs Hok Hs Hr.
    destruct (Hback errs ok rest n Hn) as [st' [E [A B]]].
    + eapply Forall_impl; [| exact Herrs].
      intros x. apply other_error_retriable.
    + unfold sleepable. rewrite (delays_other_errors _ _ _ Herrs).
      constructor.
    + exact Hok.
    + exact Hs.
    + exact Hr.
    + exists st'. split; [exact E |]. split; [exact A |].
      rewrite B, (delays_other_errors _ _ _ Herrs), app_nil_r.
      reflexivity.
Qed.

Lemma status_error_handling_witness :
  (exists st',
      _request sample_config "ka10080" "/api/dostk/chart" JNull "" "" 2
               (session [answer 500 JNull; answer 404 JNull])
        = (Raised (HTTPStatusError 404), st')
      /\ api_replies st' = []
      /\ backoffs (trace st') = [])
  /\ (exists st',
         _request sample_config "ka10080" "/api/dostk/chart" JNull "" "" 3
                  (session [answer 500 JNull; answer 200 (JInt 7)])
           = (Returned (JInt 7), st')
         /\ api_replies st' = []
         /\ backoffs (trace st') = [])
  /\ (exists st',
         _request sample_config "ka10080" "/api/dostk/chart" JNull "" "" 3
                  (first_session [answer 429 JNull; answer 500 JNull;
                                  answer 404 JNull])
           = (Raised (HTTPStatusError 404), st')
         /\ api_replies st' = []
         /\ backoffs (trace st') = [DateTime.seconds 2]).
Proof.
  split; [| split].
  - destruct (status_error_handling sample_config "ka10080"
                "/api/dostk/chart" JNull "" ""
                (session [answer 500 JNull; answer 404 JNull])
                (session_paced _)) as [_ [_ [_ [H _]]]].
    refine (H [mkResponse 500 None (Returned JNull)]
              (mkResponse 404 None (Returned JNull)) [] _
              (or_introl (session_fresh _ _ _)) eq_refl).
    + repeat constructor.
    + vm_compute. discriminate.
  - destruct (status_error_handling sample_config "ka10080"
                "/api/dostk/chart" JNull "" ""
                (session [answer 500 JNull; answer 200 (JInt 7)])
                (session_paced _)) as [_ [_ [_ [_ H]]]].
    apply (H [mkResponse 500 None (Returned JNull)]
             (mkResponse 200 None (Returned (JInt 7))) [] 3).
    + simpl. lia.
    + repeat constructor.
    + reflexivity.
    + left. apply session_fresh. vm_compute. discriminate.
    + reflexivity.
  - destruct (status_error_handling sample_config "ka10080"
                "/api/dostk/chart" JNull "" ""
                (first_session [answer 429 JNull; answer 500 JNull;
                                answer 404 JNull])
                (first_session_paced _)) as [H _].
    refine (H [mkResponse 429 None (Returned JNull);
               mkResponse 500 None (Returned JNull)]
              (mkResponse 404 None (Returned JNull)) [] _ eq_refl _
              (first_session_ready _ _ _) eq_refl).
    + repeat constructor.
    + repeat constructor. vm_compute. discriminate.
    + vm_compute. discriminate.
Defined.

(** C3 as stated fails: a 500 on the first of 3 attempts is not raised;
    the request is sent again and the 200 that answers it is returned. *)
Lemma server_error_is_retried :
  fst (_request sample_config "ka10080" "/api/dostk/chart" JNull "" "" 3
                (session [answer 500 JNull; answer 200 (JInt 7)]))
    = Returned (JInt 7)
  /\ api_replies
       (snd (_request sample_config "ka10080" "/api/dostk/chart" JNull
                      "" "" 3
                      (session [answer 500 JNull; answer 200 (JInt 7)])))
     = [].
Proof.
  split; vm_compute; reflexivity.
Qed.

End RequestClaims.

(** * Further properties *)

(** ** Lists *)

Section MoreListFacts.

Local Open Scope Q_scope.

Lemma max_from_upper (l : list Q) :
  forall m, m <= Py.max_from m l
            /\ Forall (fun x => x <= Py.max_from m l) l.
Proof.
  induction l as [| x l IH]; intros m; unfold Py.max_from; simpl.
  - split; [apply Qle_refl | constructor].
  - fold (Py.max_from (if Qle_bool x m then m else x) l).
    destruct (IH (if Qle_bool x m then m else x)) as [Hm Hl].
    destruct (Qle_bool x m) eqn:E.
    + apply Qle_bool_iff in E. split; [exact Hm |].
      constructor; [eapply Qle_trans; eassumption | exact Hl].
    + assert (Hlt : m < x).
      { apply Qnot_le_lt. intros H. apply Qle_bool_iff in H. congruence. }
      split; [| constructor; assumption].
      eapply Qle_trans; [apply Qlt_le_weak, Hlt | exact Hm].
Qed.

Lemma max_from_member (l : list Q) :
  forall m, In (Py.max_from m l) (m :: l).
Proof.
  induction l as [| x l IH]; intros m; unfold Py.max_from; simpl.
  - left. reflexivity.
  - fold (Py.max_from (if Qle_bool x m then m else x) l).
    destruct (IH (if Qle_bool x m then m else x)) as [H | H].
    + destruct (Qle_bool x m); [left | right; left]; exact H.
    + right. right. exact H.
Qed.

(** [max(l)] is an item of [l] that no item exceeds. *)
Lemma max_spec (l : list Q) (m : Q) :
  Py.max l = Returned m -> In m l /\ Forall (fun x => x <= m) l.
Proof.
  destruct l as [| x l]; simpl; [discriminate |].
  intros H. injection H as <-. split.
  - apply max_from_member.
  - destruct (max_from_upper l x) as [Hx Hl]. constructor; assumption.
Qed.

Lemma last_member {A : Type} (l : list A) (d : A) :
  l <> [] -> In (last l d) l.
Proof.
  induction l as [| x l IH]; [congruence |]. intros _.
  destruct l as [| y l]; [left; reflexivity |].
  right. apply IH. discriminate.
Qed.

Lemma last_skipn {A : Type} (l : list A) (d : A) :
  forall k, (k < length l)%nat -> last (skipn k l) d = last l d.
Proof.
  induction l as [| x l IH]; intros k Hk; simpl in Hk; [lia |].
  destruct k as [| k]; [reflexivity |].
  cbn [skipn]. rewrite IH by lia.
  destruct l; [simpl in Hk; lia | reflexivity].
Qed.

Lemma last_append {A : Type} (a l : list A) (d : A) :
  l <> [] -> last (a ++ l) d = last l d.
Proof.
  intros Hl. induction a as [| x a IH]; [reflexivity |].
  cbn [app]. destruct (a ++ l) eqn:E.
  - destruct a; destruct l; simpl in E; congruence.
  - rewrite <- IH. reflexivity.
Qed.

(** A slice without a stop is a suffix. *)
Lemma slice_suffix {A : Type} (i : Z) (l : list A) :
  Py.slice (Some i) None l
  = skipn (Z.to_nat (Py.adjust (Z.of_nat (length l)) i)) l.
Proof.
  unfold Py.slice. apply firstn_all2.
  pose proof (adjust_range (Z.of_nat (length l)) i ltac:(lia)) as H.
  rewrite length_skipn. lia.
Qed.

(** A non-empty suffix ends with the last item of the list. *)
Lemma slice_suffix_last (i : Z) (l : list Q) :
  Py.slice (Some i) None l <> [] ->
  In (Py.last_item l) (Py.slice (Some i) None l).
Proof.
  rewrite slice_suffix. intros Hne.
  set (k := Z.to_nat _) in *.
  assert (Hk : (k < length l)%nat).
  { destruct (Nat.lt_ge_cases k (length l)) as [H | H]; [exact H |].
    rewrite skipn_all2 in Hne by exact H. congruence. }
  unfold Py.last_item. rewrite <- (last_skipn l 0 k Hk).
  apply last_member, Hne.
Qed.

(** Older items in front of a list do not show in a slice that counts
    from the end and fits in the list. *)
Lemma slice_ignores_history {A : Type} (a l : list A) (k : Z)
    (stop : option Z) :
  (1 <= k <= Z.of_nat (length l))%Z ->
  match stop with
  | None => True
  | Some j => (- Z.of_nat (length l) <= j <= -1)%Z
  end ->
  Py.slice (Some (- k)%Z) stop (a ++ l) = Py.slice (Some (- k)%Z) stop l.
Proof.
  intros Hk Hstop. unfold Py.slice, Py.adjust.
  rewrite length_app, Nat2Z.inj_add.
  assert (E1 : (- k <? 0)%Z = true) by (apply Z.ltb_lt; lia).
  rewrite E1.
  replace (Z.to_nat (Z.max 0 (- k + (Z.of_nat (length a) + Z.of_nat (length l)))))
    with (length a + Z.to_nat (Z.max 0 (- k + Z.of_nat (length l))))%nat
    by lia.
  rewrite skipn_app, skipn_all2 by lia.
  replace (length a + Z.to_nat (Z.max 0 (- k + Z.of_nat (length l)))
           - length a)%nat
    with (Z.to_nat (Z.max 0 (- k + Z.of_nat (length l)))) by lia.
  cbn [app]. f_equal.
  destruct stop as [j |]; [| lia].
  assert (E2 : (j <? 0)%Z = true) by (apply Z.ltb_lt; lia).
  rewrite E2. lia.
Qed.

End MoreListFacts.

(** ** More about the evaluator *)

Section EvaluatorMore.

Import Swing Terms.
Local Open Scope Q_scope.

Variables (code name : string) (closes : list Q) (volumes : list Z).
Variables (recent_high_bars : Z).
Variables (pullback_min pullback_max min_vol_ratio : Q).

(** The row of a series of at least 30 samples, field by field. *)
Lemma evaluate_signal_fields :
  (30 <= length closes)%nat ->
  (- Z.of_nat (length closes) < recent_high_bars)%Z ->
  exists r rh p5,
    evaluate_signal code name closes volumes recent_high_bars
                    pullback_min pullback_max min_vol_ratio
      = Returned (Some r)
    /\ Py.max (if (recent_high_bars <=? Z.of_nat (length closes))%Z
               then Py.slice (Some (- recent_high_bars)%Z) None closes
               else closes) = Returned rh
    /\ Py.max (Py.slice (Some (-6)%Z) (Some (-1)%Z) closes) = Returned p5
    /\ Swing.code r = code /\ Swing.name r = name
    /\ current_price r = Py.last_item closes
    /\ retrace_pct r
       = (if Qlt_bool 0 rh
          then (rh - Py.last_item closes) / rh * 100 else 0)
    /\ short_ma r = avg (Py.slice (Some (-5)%Z) None closes)
    /\ long_ma r = avg (Py.slice (Some (-20)%Z) None closes)
    /\ rebound_ok r
       = (Qle_bool p5 (current_price r)
          && Qle_bool (long_ma r) (short_ma r)
          && Qle_bool min_vol_ratio (volume_ratio r))
    /\ row_of volumes pullback_min pullback_max r.
Proof.
  intros Hlen Hlook.
  assert (Hguard : (length closes <? 30)%nat = false)
    by (apply Nat.ltb_ge; exact Hlen).
  assert (H6 : (6 <=? length closes)%nat = true)
    by (apply Nat.leb_le; lia).
  destruct (max_returns _ (high_slice_nonempty closes recent_high_bars
                             Hlen Hlook)) as [rh Hrh].
  destruct (max_returns _ (prev5_slice_nonempty closes Hlen)) as [p5 Hp5].
  unfold evaluate_signal.
  rewrite Hguard, H6, Hrh, Hp5. cbn [bind].
  eexists. exists rh, p5. split; [reflexivity |].
  unfold row_of, recent_window, trailing_window.
  cbn [Swing.code Swing.name volume_ratio pullback_ok rebound_ok signal
       signal_score retrace_pct long_ma short_ma current_price].
  repeat split.
Qed.

End EvaluatorMore.

Section EvaluatorExtras.

Import Swing Terms.
Local Open Scope Q_scope.

(** X1.  [evaluate_signal] returns no result exactly when the series has
    fewer than 30 closes; it raises exactly when the series has at least 30
    closes and [recent_high_bars] is negative and reaches past its start;
    in every other case it returns a row that carries the code, the name and
    the last close. *)
Theorem evaluate_signal_outcome (code name : string) (closes : list Q)
    (volumes : list Z) (recent_high_bars : Z)
    (pullback_min pullback_max min_vol_ratio : Q) :
  match evaluate_signal code name closes volumes recent_high_bars
                        pullback_min pullback_max min_vol_ratio with
  | Returned None => (length closes < 30)%nat
  | Raised e =>
      e = ValueError /\ (30 <= length closes)%nat
      /\ (recent_high_bars <= - Z.of_nat (length closes))%Z
  | Returned (Some r) =>
      (30 <= length closes)%nat
      /\ (- Z.of_nat (length closes) < recent_high_bars)%Z
      /\ Swing.code r = code /\ Swing.name r = name
      /\ current_price r = Py.last_item closes
  end.
Proof.
  destruct (Nat.lt_ge_cases (length closes) 30) as [Hshort | Hlen].
  - rewrite (evaluate_signal_short code name closes volumes recent_high_bars
               pullback_min pullback_max min_vol_ratio Hshort).
    exact Hshort.
  - destruct (Z_le_gt_dec recent_high_bars (- Z.of_nat (length closes)))
      as [Hneg | Hpos].
    + destruct (evaluate_signal_cases code name closes volumes
                  recent_high_bars pullback_min pullback_max min_vol_ratio
                  Hlen) as [[_ E] | [Hcontra _]]; [| lia].
      rewrite E. repeat split; assumption.
    + assert (Hlook : (- Z.of_nat (length closes) < recent_high_bars)%Z)
        by lia.
      destruct (evaluate_signal_fields code name closes volumes
                  recent_high_bars pullback_min pullback_max min_vol_ratio
                  Hlen Hlook)
        as [r [rh [p5 [E [_ [_ [Hc [Hn [Hcur _]]]]]]]]].
      rewrite E. repeat split; assumption.
Qed.

(** X2.  The retracement of a returned row is never negative, and it is at
    most 100 percent when the last close is not negative. *)
Theorem retrace_pct_range (code name : string) (closes : list Q)
    (volumes : list Z) (recent_high_bars : Z)
    (pullback_min pullback_max min_vol_ratio : Q) :
  (30 <= length closes)%nat ->
  match evaluate_signal code name closes volumes recent_high_bars
                        pullback_min pullback_max min_vol_ratio with
  | Returned (Some r) =>
      0 <= retrace_pct r
      /\ (0 <= Py.last_item closes -> retrace_pct r <= 100)
  | Returned None => False
  | Raised _ => (recent_high_bars <= - Z.of_nat (length closes))%Z
  end.
Proof.
  intros Hlen.
  destruct (Z_le_gt_dec recent_high_bars (- Z.of_nat (length closes)))
    as [Hneg | Hpos].
  - destruct (evaluate_signal_cases code name closes volumes
                recent_high_bars pullback_min pullback_max min_vol_ratio
                Hlen) as [[_ E] | [Hcontra _]]; [| lia].
    rewrite E. exact Hneg.
  - assert (Hlook : (- Z.of_nat (length closes) < recent_high_bars)%Z)
      by lia.
    destruct (evaluate_signal_fields code name closes volumes
                recent_high_bars pullback_min pullback_max min_vol_ratio
                Hlen Hlook)
      as [r [rh [p5 [E [Hrh [_ [_ [_ [_ [Hret _]]]]]]]]]].
    rewrite E, Hret.
    assert (Hcur : Py.last_item closes <= rh).
    { destruct (max_spec _ _ Hrh) as [_ Hall].
      apply (proj1 (Forall_forall _ _) Hall).
      destruct (recent_high_bars <=? Z.of_nat (length closes))%Z.
      - apply slice_suffix_last.
        intros Hnil. rewrite Hnil in Hrh. discriminate Hrh.
      - apply last_member. destruct closes; simpl in Hlen; [lia | discriminate]. }
    destruct (Qlt_bool 0 rh) eqn:Epos.
    + apply Qlt_bool_iff in Epos. split.
      * apply Qmult_le_0_compat; [| lra].
        apply quotient_nonneg; lra.
      * intros Hlast.
        assert (Hq : (rh - Py.last_item closes) / rh <= 1)
          by (apply Qle_shift_div_r; [exact Epos | lra]).
        lra.
    + split; [lra | intros _; lra].
Qed.

Lemma retrace_pct_range_witness :
  match evaluate_signal "005930" "sample" example_closes
                        (repeat 100 25 ++ repeat 200 5)%Z 120 3 15 1 with
  | Returned (Some r) =>
      0 <= retrace_pct r
      /\ (0 <= Py.last_item example_closes -> retrace_pct r <= 100)
  | Returned None => False
  | Raised _ => (120 <= - Z.of_nat (length example_closes))%Z
  end.
Proof.
  apply (retrace_pct_range "005930" "sample" example_closes
           (repeat 100 25 ++ repeat 200 5)%Z 120 3 15 1).
  simpl. lia.
Defined.

(** X3.  The score tells signals from the rest: a row with [signal] true
    scores at least 80, a row with [signal] false at most 60. *)
Theorem score_separates_signal (code name : string) (closes : list Q)
    (volumes : list Z) (recent_high_bars : Z)
    (pullback_min pullback_max min_vol_ratio : Q) :
  (30 <= length closes)%nat ->
  match evaluate_signal code name closes volumes recent_high_bars
                        pullback_min pullback_max min_vol_ratio with
  | Returned (Some r) =>
      (signal r = true -> 80 <= signal_score r)
      /\ (signal r = false -> signal_score r <= 60)
  | Returned None => False
  | Raised _ => (recent_high_bars <= - Z.of_nat (length closes))%Z
  end.
Proof.
  intros Hlen.
  destruct (evaluate_signal_cases code name closes volumes recent_high_bars
              pullback_min pullback_max min_vol_ratio Hlen)
    as [[Hneg E] | [_ [r [E [_ [_ [Hsig Hscore]]]]]]]; rewrite E.
  - exact Hneg.
  - rewrite Hsig, Hscore.
    pose proof (bonus_is_clamp ((volume_ratio r - 1) * 20)) as Hb.
    pose proof (clamp_range ((volume_ratio r - 1) * 20)) as Hr.
    rewrite Hb.
    destruct (pullback_ok r), (rebound_ok r); cbn [andb];
      split; intros H; try discriminate H; lra.
Qed.

Lemma score_separates_signal_witness :
  match evaluate_signal "005930" "sample" example_closes
                        (repeat 100 25 ++ repeat 200 5)%Z 120 3 15 1 with
  | Returned (Some r) =>
      (signal r = true -> 80 <= signal_score r)
      /\ (signal r = false -> signal_score r <= 60)
  | Returned None => False
  | Raised _ => (120 <= - Z.of_nat (length example_closes))%Z
  end.
Proof.
  apply (score_separates_signal "005930" "sample" example_closes
           (repeat 100 25 ++ repeat 200 5)%Z 120 3 15 1).
  simpl. lia.
Defined.

(** X4.  [rebound_ok] holds exactly when the last close is at least each of
    the five closes before it (bars [-6:-1]), the short average is at least
    the long one, and the volume ratio is at least [min_vol_ratio]. *)
Theorem rebound_ok_iff (code name : string) (closes : list Q)
    (volumes : list Z) (recent_high_bars : Z)
    (pullback_min pullback_max min_vol_ratio : Q) :
  (30 <= length closes)%nat ->
  match evaluate_signal code name closes volumes recent_high_bars
                        pullback_min pullback_max min_vol_ratio with
  | Returned (Some r) =>
      rebound_ok r = true
      <-> Forall (fun c => c <= current_price r)
                 (Py.slice (Some (-6)%Z) (Some (-1)%Z) closes)
          /\ long_ma r <= short_ma r
          /\ min_vol_ratio <= volume_ratio r
  | Returned None => False
  | Raised _ => (recent_high_bars <= - Z.of_nat (length closes))%Z
  end.
Proof.
  intros Hlen.
  destruct (Z_le_gt_dec recent_high_bars (- Z.of_nat (length closes)))
    as [Hneg | Hpos].
  - destruct (evaluate_signal_cases code name closes volumes
                recent_high_bars pullback_min pullback_max min_vol_ratio
                Hlen) as [[_ E] | [Hcontra _]]; [| lia].
    rewrite E. exact Hneg.
  - assert (Hlook : (- Z.of_nat (length closes) < recent_high_bars)%Z)
      by lia.
    destruct (evaluate_signal_fields code name closes volumes
                recent_high_bars pullback_min pullback_max min_vol_ratio
                Hlen Hlook)
      as [r [rh [p5 [E [_ [Hp5 [_ [_ [_ [_ [_ [_ [Hreb _]]]]]]]]]]]]].
    rewrite E, Hreb, !andb_true_iff, !Qle_bool_iff.
    destruct (max_spec _ _ Hp5) as [Hin Hall].
    split.
    + intros [[H1 H2] H3]. split; [| split; assumption].
      eapply Forall_impl; [| exact Hall].
      intros c Hc. cbv beta in Hc. lra.
    + intros [H1 [H2 H3]]. split; [split |]; try assumption.
      apply (proj1 (Forall_forall _ _) H1). exact Hin.
Qed.

Lemma rebound_ok_iff_witness :
  match evaluate_signal "005930" "sample" example_closes
                        (repeat 100 25 ++ repeat 200 5)%Z 120 3 15 1 with
  | Returned (Some r) =>
      rebound_ok r = true
      <-> Forall (fun c => c <= current_price r)
                 (Py.slice (Some (-6)%Z) (Some (-1)%Z) example_closes)
          /\ long_ma r <= short_ma r
          /\ 1 <= volume_ratio r
  | Returned None => False
  | Raised _ => (120 <= - Z.of_nat (length example_closes))%Z
  end.
Proof.
  apply (rebound_ok_iff "005930" "sample" example_closes
           (repeat 100 25 ++ repeat 200 5)%Z 120 3 15 1).
  simpl. lia.
Defined.

(** X6.  History beyond the windows does not count: for a series with at
    least 30 closes, a look-back between 1 and the number of closes, and at
    least 25 volumes, putting older closes and volumes in front changes
    nothing in the result. *)
Theorem evaluate_signal_ignores_history (code name : string)
    (closes older_closes : list Q) (volumes older_volumes : list Z)
    (recent_high_bars : Z)
    (pullback_min pullback_max min_vol_ratio : Q) :
  (30 <= length closes)%nat ->
  (1 <= recent_high_bars <= Z.of_nat (length closes))%Z ->
  (25 <= length volumes)%nat ->
  evaluate_signal code name (older_closes ++ closes)
                  (older_volumes ++ volumes) recent_high_bars
                  pullback_min pullback_max min_vol_ratio
  = evaluate_signal code name closes volumes recent_high_bars
                    pullback_min pullback_max min_vol_ratio.
Proof.
  intros Hlen Hrhb Hvol.
  assert (Hne : closes <> [])
    by (destruct closes; simpl in Hlen; [lia | discriminate]).
  unfold evaluate_signal.
  assert (G1 : (length (older_closes ++ closes) <? 30)%nat = false)
    by (apply Nat.ltb_ge; rewrite length_app; lia).
  assert (G2 : (length closes <? 30)%nat = false)
    by (apply Nat.ltb_ge; lia).
  assert (G3 : (6 <=? length (older_closes ++ closes))%nat = true)
    by (apply Nat.leb_le; rewrite length_app; lia).
  assert (G4 : (6 <=? length closes)%nat = true)
    by (apply Nat.leb_le; lia).
  assert (G5 : (recent_high_bars
                <=? Z.of_nat (length (older_closes ++ closes)))%Z = true)
    by (apply Z.leb_le; rewrite length_app; lia).
  assert (G6 : (recent_high_bars <=? Z.of_nat (length closes))%Z = true)
    by (apply Z.leb_le; lia).
  rewrite G1, G2, G3, G4, G5, G6.
  unfold Py.last_item. rewrite (last_append older_closes closes 0 Hne).
  rewrite (slice_ignores_history older_closes closes recent_high_bars None)
    by (try exact I; lia).
  pose proof (slice_ignores_history older_closes closes 5 None
                ltac:(lia) I) as S5.
  pose proof (slice_ignores_history older_closes closes 20 None
                ltac:(lia) I) as S20.
  pose proof (slice_ignores_history older_closes closes 6 (Some (-1)%Z)
                ltac:(lia) ltac:(cbv iota; lia)) as S6.
  pose proof (slice_ignores_history older_volumes volumes 5 None
                ltac:(lia) I) as V5.
  pose proof (slice_ignores_history older_volumes volumes 25 (Some (-5)%Z)
                ltac:(lia) ltac:(cbv iota; lia)) as V25.
  change (- (5))%Z with (-5)%Z in S5, V5.
  change (- (20))%Z with (-20)%Z in S20.
  change (- (6))%Z with (-6)%Z in S6.
  change (- (25))%Z with (-25)%Z in V25.
  rewrite S5, S20, S6, V5, V25. reflexivity.
Qed.

Lemma evaluate_signal_ignores_history_witness :
  evaluate_signal "005930" "sample" (repeat 500 40 ++ example_closes)
                  (repeat 9 40 ++ (repeat 100 25 ++ repeat 200 5))%Z 30
                  3 15 1
  = evaluate_signal "005930" "sample" example_closes
                    (repeat 100 25 ++ repeat 200 5)%Z 30 3 15 1.
Proof.
  apply (evaluate_signal_ignores_history "005930" "sample" example_closes
           (repeat 500 40) (repeat 100 25 ++ repeat 200 5)%Z (repeat 9 40)%Z
           30 3 15 1).
  - simpl. lia.
  - simpl. lia.
  - simpl. lia.
Defined.

End EvaluatorExtras.

(** ** More about the batch ordering *)

Section OrderingMore.

Import Swing Batch Terms Notions.
Local Open Scope Q_scope.

Lemma key_reflect (a b : Q) :
  (Qeq_bool a b = true <-> a == b) /\ (Qeq_bool a b = false <-> ~ a == b).
Proof.
  split; [apply Qeq_bool_iff |].
  split.
  - intros H E. apply Qeq_bool_iff in E. congruence.
  - intros H. destruct (Qeq_bool a b) eqn:E; [| reflexivity].
    apply Qeq_bool_iff in E. contradiction.
Qed.

(** [b] is not smaller than [a] exactly when [a <= b]. *)
Lemma key_lt_false (a b : bool * Q * Q) :
  key_lt b a = false <-> key_le a b.
Proof.
  destruct a as [[s1 c1] v1], b as [[s2 c2] v2]. unfold key_lt, key_le.
  destruct (Qeq_bool c2 c1) eqn:Ec.
  - apply Qeq_bool_iff in Ec.
    destruct s1, s2; cbn [Bool.eqb negb andb];
      rewrite ?Qlt_bool_false_iff; split; intros H;
      try reflexivity;
      try discriminate H;
      try (destruct H as [[H1 H2] | [H1 H2]]; discriminate);
      try (right; split; [reflexivity | right; split; [lra | lra]]);
      try (left; split; reflexivity);
      try (destruct H as [[H1 H2] | [H1 H2]]; try discriminate;
           destruct H2 as [H2 | [H2 H3]]; lra).
  - apply (proj2 (key_reflect c2 c1)) in Ec.
    destruct s1, s2; cbn [Bool.eqb negb andb];
      rewrite ?Qlt_bool_false_iff; split; intros H;
      try reflexivity;
      try discriminate H;
      try (destruct H as [[H1 H2] | [H1 H2]]; discriminate);
      try (left; split; reflexivity);
      try (right; split; [reflexivity |];
           destruct (Qlt_le_dec c1 c2) as [L | L];
           [left; exact L | exfalso; apply Ec; lra]);
      try (destruct H as [[H1 H2] | [H1 H2]]; try discriminate;
           destruct H2 as [H2 | [H2 H3]]; [lra | exfalso; apply Ec; lra]).
Qed.

Lemma key_lt_true (a b : bool * Q * Q) :
  key_lt a b = true -> key_le a b.
Proof.
  destruct a as [[s1 c1] v1], b as [[s2 c2] v2]. unfold key_lt, key_le.
  destruct s1, s2; cbn [Bool.eqb negb andb]; intros H;
    try discriminate H;
    try (left; split; reflexivity);
    (right; split; [reflexivity |];
     destruct (Qeq_bool c1 c2) eqn:Ec; cbn [negb] in H;
     apply Qlt_bool_iff in H;
     [apply Qeq_bool_iff in Ec; right; split; [exact Ec | lra]
     | left; exact H]).
Qed.

Lemma key_le_trans (a b c : bool * Q * Q) :
  key_le a b -> key_le b c -> key_le a c.
Proof.
  destruct a as [[s1 c1] v1], b as [[s2 c2] v2], c as [[s3 c3] v3].
  unfold key_le.
  intros [[H1 H2] | [H1 H2]] [[H3 H4] | [H3 H4]]; subst;
    try discriminate;
    try (left; split; reflexivity).
  right. split; [reflexivity |].
  destruct H2 as [H2 | [H2 H2']], H4 as [H4 | [H4 H4']];
    try (left; lra).
  right. split; lra.
Qed.

Lemma insert_row_sorted (x : SignalRow) (l : list SignalRow) :
  StronglySorted row_le l ->
  StronglySorted row_le (insert_by row_lt x l).
Proof.
  induction 1 as [| y l Hs IH Hy]; simpl.
  - constructor; [constructor | constructor].
  - destruct (row_lt y x) eqn:E.
    + constructor; [exact IH |].
      apply (Permutation_Forall (insert_by_perm row_lt x l)).
      constructor; [apply key_lt_true, E | exact Hy].
    + assert (Hxy : row_le x y) by (apply key_lt_false, E).
      constructor; [constructor; assumption |].
      constructor; [exact Hxy |].
      eapply Forall_impl; [| exact Hy].
      intros z Hz. unfold row_le in *. eapply key_le_trans; eassumption.
Qed.

Lemma stable_sort_row_sorted (l : list SignalRow) :
  StronglySorted row_le (stable_sort row_lt l).
Proof.
  induction l as [| x l IH]; simpl.
  - constructor.
  - apply insert_row_sorted, IH.
Qed.

Lemma sorted_nth {A : Type} (R : A -> A -> Prop) (l : list A) :
  StronglySorted R l ->
  forall i j x y,
    nth_error l i = Some x -> nth_error l j = Some y ->
    (i < j)%nat -> R x y.
Proof.
  induction 1 as [| z l Hs IH Hz]; intros i j x y Hi Hj Hij.
  - destruct i; discriminate Hi.
  - destruct j as [| j]; [lia |]. simpl in Hj.
    destruct i as [| i]; simpl in Hi.
    + injection Hi as <-.
      apply (proj1 (Forall_forall _ _) Hz).
      eapply nth_error_In; eassumption.
    + apply (IH i j); [assumption | assumption | lia].
Qed.

(** X7.  In the sorted batch no row is followed by a row with a greater
    key: of two rows, the later one has [signal] false while the earlier
    has it true, or they agree on [signal] and the later one has the lower
    score or, with equal scores, a volume ratio that is not higher. *)
Theorem sort_rows_descending (rows : list SignalRow) :
  forall i j x y,
    nth_error (sort_rows rows) i = Some x ->
    nth_error (sort_rows rows) j = Some y ->
    (i < j)%nat ->
    (signal y = false /\ signal x = true)
    \/ (signal y = signal x
        /\ (signal_score y < signal_score x
            \/ (signal_score y == signal_score x
                /\ volume_ratio y <= volume_ratio x))).
Proof.
  intros i j x y Hi Hj Hij.
  unfold sort_rows, sort_reverse in Hi, Hj.
  set (s := stable_sort row_lt (rev rows)) in *.
  assert (Li : (i < length s)%nat).
  { rewrite <- length_rev. apply nth_error_Some. congruence. }
  assert (Lj : (j < length s)%nat).
  { rewrite <- length_rev. apply nth_error_Some. congruence. }
  rewrite nth_error_rev, (proj2 (Nat.ltb_lt _ _) Li) in Hi.
  rewrite nth_error_rev, (proj2 (Nat.ltb_lt _ _) Lj) in Hj.
  assert (Hs : StronglySorted row_le s) by apply stable_sort_row_sorted.
  assert (Hpos : (length s - S j < length s - S i)%nat) by lia.
  exact (sorted_nth row_le s Hs _ _ _ _ Hj Hi Hpos).
Qed.

Lemma sort_rows_descending_witness :
  nth_error (sort_rows [mkSignalRow "A" "a" 1 0 1 1 2 false true false 50;
                        mkSignalRow "B" "b" 1 5 1 1 1 true true true 80;
                        mkSignalRow "C" "c" 1 0 1 1 1 false true false 40])
            0
  = Some (mkSignalRow "B" "b" 1 5 1 1 1 true true true 80)
  /\ nth_error (sort_rows [mkSignalRow "A" "a" 1 0 1 1 2 false true false 50;
                           mkSignalRow "B" "b" 1 5 1 1 1 true true true 80;
                           mkSignalRow "C" "c" 1 0 1 1 1 false true false 40])
               2
     = Some (mkSignalRow "C" "c" 1 0 1 1 1 false true false 40)
  /\ ((false = false /\ true = true)
      \/ (false = true
          /\ (40 < 80 \/ (40 == 80 /\ 1 <= 1)))).
Proof.
  assert (H0 : nth_error
                 (sort_rows
                    [mkSignalRow "A" "a" 1 0 1 1 2 false true false 50;
                     mkSignalRow "B" "b" 1 5 1 1 1 true true true 80;
                     mkSignalRow "C" "c" 1 0 1 1 1 false true false 40])
                 0
               = Some (mkSignalRow "B" "b" 1 5 1 1 1 true true true 80))
    by (vm_compute; reflexivity).
  assert (H2 : nth_error
                 (sort_rows
                    [mkSignalRow "A" "a" 1 0 1 1 2 false true false 50;
                     mkSignalRow "B" "b" 1 5 1 1 1 true true true 80;
                     mkSignalRow "C" "c" 1 0 1 1 1 false true false 40])
                 2
               = Some (mkSignalRow "C" "c" 1 0 1 1 1 false true false 40))
    by (vm_compute; reflexivity).
  split; [exact H0 | split; [exact H2 |]].
  apply (sort_rows_descending _ 0%nat 2%nat _ _ H0 H2). lia.
Defined.

Lemma sorted_snoc {A : Type} (R : A -> A -> Prop) (l : list A) (x : A) :
  StronglySorted R l -> Forall (fun y => R y x) l ->
  StronglySorted R (l ++ [x]).
Proof.
  induction 1 as [| z l Hs IH Hz]; intros Hall; simpl.
  - constructor; constructor.
  - apply Forall_cons_iff in Hall. destruct Hall as [Hzx Hall].
    constructor; [apply IH, Hall |].
    apply Forall_app. split; [exact Hz | constructor; [exact Hzx | constructor]].
Qed.

Lemma sorted_rev {A : Type} (R : A -> A -> Prop) (l : list A) :
  StronglySorted R l -> StronglySorted (fun x y => R y x) (rev l).
Proof.
  induction 1 as [| z l Hs IH Hz]; simpl.
  - constructor.
  - apply sorted_snoc; [exact IH |].
    apply Forall_rev. exact Hz.
Qed.

(** With the signals in front, keeping the signals is cutting the list
    after them. *)
Lemma filter_signal_prefix (l : list SignalRow) :
  StronglySorted (fun x y => signal_le y x) l ->
  filter signal l = firstn (length (filter signal l)) l.
Proof.
  induction 1 as [| x l Hs IH Hx]; simpl; [reflexivity |].
  destruct (signal x) eqn:E.
  - simpl. f_equal. exact IH.
  - assert (Hnone : filter signal l = []).
    { clear IH Hs. induction l as [| y l IHl]; simpl; [reflexivity |].
      apply Forall_cons_iff in Hx. destruct Hx as [Hy Hl].
      destruct (signal y) eqn:Ey.
      - unfold signal_le in Hy. rewrite (Hy Ey) in E. discriminate E.
      - apply IHl, Hl. }
    rewrite Hnone. reflexivity.
Qed.

Lemma filter_length_perm {A : Type} (f : A -> bool) (l l' : list A) :
  Permutation l l' -> length (filter f l) = length (filter f l').
Proof.
  induction 1 as [| x l l' _ IH | x y l | l l' l'' _ IH1 _ IH2]; simpl.
  - reflexivity.
  - destruct (f x); simpl; congruence.
  - destruct (f x), (f y); reflexivity.
  - congruence.
Qed.

(** X8.  With [--only-signal] the sorted batch is cut after its signals:
    the output is the first k rows of the sorted batch, k being the number
    of rows of the batch with [signal] true, and every row of it is a
    signal. *)
Theorem only_signal_is_prefix (rows : list SignalRow) :
  Series.output_rows true (sort_rows rows)
  = firstn (length (filter signal rows)) (sort_rows rows)
  /\ Forall (fun r => signal r = true)
            (Series.output_rows true (sort_rows rows)).
Proof.
  split.
  - unfold Series.output_rows.
    rewrite (filter_length_perm signal rows (sort_rows rows)
               (sort_rows_perm rows)).
    apply filter_signal_prefix.
    unfold sort_rows, sort_reverse.
    apply sorted_rev, stable_sort_sorted.
  - unfold Series.output_rows. apply Forall_forall.
    intros r Hr. apply filter_In in Hr. apply Hr.
Qed.

End OrderingMore.

(** ** Counts, series and the row of a response *)

Section SeriesFacts.

Import Net PyStr Price PyVal Series Swing Terms.

Lemma digits_are_not_space (ds : string) :
  every is_digit ds = true ->
  every (fun c => negb (c_isspace c)) ds = true.
Proof.
  apply every_impl. intros c Hc.
  destruct (digit_is_plain c Hc) as [_ [H _]]. rewrite H. reflexivity.
Qed.

Lemma digit_value_max (c : ascii) :
  is_digit c = true -> (digit_value c <= 9)%Z.
Proof.
  destruct c as [[] [] [] [] [] [] [] []]; intros H;
    try discriminate H; vm_compute; discriminate.
Qed.

(** The value of a run of k digits is below 10**k. *)
Lemma read_digits_below (ds : string) :
  forall (acc : Z) (n : nat),
    every is_digit ds = true -> (0 <= acc)%Z ->
    (fst (fst (read_digits ds acc n))
     < (acc + 1) * 10 ^ Z.of_nat (String.length ds))%Z.
Proof.
  induction ds as [| c ds IH]; intros acc n H Hacc;
    cbn [read_digits every String.length] in *.
  - cbn [fst]. change (10 ^ Z.of_nat 0)%Z with 1%Z. lia.
  - split_andb H as [Hc Hds]. rewrite Hc.
    destruct (digit_is_plain c Hc) as [_ [_ [_ [_ [_ [_ Hv]]]]]].
    pose proof (digit_value_max c Hc) as Hmax.
    specialize (IH (10 * acc + digit_value c)%Z (S n) Hds ltac:(lia)).
    rewrite Nat2Z.inj_succ, Z.pow_succ_r by lia.
    assert (Hp : (0 < 10 ^ Z.of_nat (String.length ds))%Z)
      by (apply Z.pow_pos_nonneg; lia).
    nia.
Qed.

Lemma remove_commas_length (b : string) :
  (String.length (remove_commas b) <= String.length b)%nat.
Proof.
  induction b as [| c b IH]; cbn [remove_commas String.length]; [lia |].
  destruct (is_comma c); cbn [String.length]; lia.
Qed.

(** A number with at most 15 digits is far inside the floats. *)
Lemma short_number_in_range (v : Z) (k : nat) :
  (0 <= v < 10 ^ Z.of_nat k)%Z -> (k <= 15)%nat ->
  (Z.abs v < FLOAT_LIMIT)%Z.
Proof.
  intros Hv Hk.
  assert (H15 : (10 ^ Z.of_nat k <= 10 ^ 15)%Z)
    by (apply Z.pow_le_mono_r; lia).
  assert (Hlim : (10 ^ 15 < FLOAT_LIMIT)%Z) by (vm_compute; reflexivity).
  lia.
Qed.

(** [int()] of the float of a text whose value is an integer inside the
    floats. *)
Lemma int_of_read_integer (q : Q) (v : Z) :
  (q == inject_Z v)%Q -> (Z.abs v < FLOAT_LIMIT)%Z ->
  int_of_read q = Returned (trunc q).
Proof.
  intros Hq Hv. unfold int_of_read.
  destruct (Qle_bool (inject_Z FLOAT_LIMIT) (Qabs q)) eqn:E;
    [| reflexivity].
  apply Qle_bool_iff in E. rewrite Hq in E.
  change (Qabs (inject_Z v)) with (inject_Z (Z.abs v)) in E.
  rewrite <- Zle_Qle in E. lia.
Qed.

(** [float()] of a run of digits, bare and behind a sign, and [int()] of
    what it gives. *)
Lemma float_of_signed_digits (ds : string) :
  every is_digit ds = true -> is_empty ds = false ->
  exists (v : Z) (q : Q),
    (0 <= v < 10 ^ Z.of_nat (String.length ds))%Z
    /\ (q == inject_Z v)%Q
    /\ PyStr.float ds = Returned q
    /\ PyStr.float (String "+" ds) = Returned q
    /\ PyStr.float (String "-" ds) = Returned (- q)%Q
    /\ trunc q = v
    /\ trunc (- q)%Q = (- v)%Z.
Proof.
  intros Hd Hne.
  pose proof (digits_are_not_space ds Hd) as Hsp.
  assert (Hsp' : forall a, c_isspace a = false ->
                   every (fun c => negb (c_isspace c)) (String a ds) = true).
  { intros a Ha. simpl. rewrite Ha, Hsp. reflexivity. }
  destruct (read_digits_all ds 0 0 Hd ltac:(lia)) as [v [E Hv]].
  pose proof (read_digits_below ds 0 0 Hd ltac:(lia)) as Hbelow.
  rewrite E in Hbelow. cbn [fst] in Hbelow.
  exists v.
  exists (inject_Z v + inject_Z 0 / inject_Z (10 ^ Z.of_nat 0))%Q.
  assert (Hlen : (0 <? 0 + String.length ds + 0)%nat = true).
  { destruct ds; [discriminate Hne | reflexivity]. }
  split; [lia |].
  split.
  { change (10 ^ Z.of_nat 0)%Z with 1%Z. unfold Qdiv.
    change (/ inject_Z 1)%Q with 1%Q. change (inject_Z 0) with 0%Q. lra. }
  split.
  { unfold PyStr.float.
    rewrite (lstrip_every _ _ Hsp), (rstrip_every _ _ Hsp).
    destruct ds as [| c ds]; [discriminate Hne |].
    pose proof Hd as Hd'. simpl in Hd'. apply andb_true_iff in Hd'.
    destruct Hd' as [Hc _].
    destruct (digit_is_plain c Hc) as [_ [_ [_ [_ [Hm [Hp _]]]]]].
    unfold take_sign. rewrite Hm, Hp, E.
    cbn [is_empty andb]. rewrite Hlen. reflexivity. }
  split.
  { unfold PyStr.float.
    rewrite (lstrip_every _ _ (Hsp' "+"%char eq_refl)),
            (rstrip_every _ _ (Hsp' "+"%char eq_refl)).
    cbn [take_sign Ascii.eqb Bool.eqb]. cbv iota. rewrite E.
    cbn [is_empty andb]. rewrite Hlen. reflexivity. }
  split.
  { unfold PyStr.float.
    rewrite (lstrip_every _ _ (Hsp' "-"%char eq_refl)),
            (rstrip_every _ _ (Hsp' "-"%char eq_refl)).
    cbn [take_sign Ascii.eqb Bool.eqb]. cbv iota. rewrite E.
    cbn [is_empty andb]. rewrite Hlen. reflexivity. }
  change (10 ^ Z.of_nat 0)%Z with 1%Z.
  unfold trunc, Qdiv, Qplus, Qmult, Qinv, Qopp, inject_Z.
  cbn [Qnum Qden Z.mul Pos.mul].
  split.
  - rewrite Z.mul_1_r, Z.add_0_r. apply Z.quot_1_r.
  - rewrite Z.mul_1_r, Z.add_0_r. apply Z.quot_1_r.
Qed.

(** What [parse_price] hands to [float()] on a well-formed text. *)
Lemma parse_price_clean (c : option ascii) (b : string) :
  match c with Some a => is_sign a = true | None => True end ->
  digits_and_commas b = true -> has_digit b = true ->
  parse_price (VStr (match c with Some a => String a b | None => b end))
  = PyStr.float (remove_commas b).
Proof.
  intros Hc Hb Hh.
  set (s := match c with Some a => String a b | None => b end).
  assert (Hplain : every (fun x => negb (str_isspace x)) b = true).
  { clear Hh. induction b as [| x b IH]; simpl; [reflexivity |].
    simpl in Hb. split_andb Hb as [Hx Hb].
    rewrite (IH Hb), andb_true_r. apply orb_true_iff in Hx.
    destruct Hx as [Hx | Hx].
    - destruct (digit_is_plain x Hx) as [H _]. rewrite H. reflexivity.
    - destruct (comma_is_plain x Hx) as [H _]. rewrite H. reflexivity. }
  assert (Hs : every (fun x => negb (str_isspace x)) s = true).
  { unfold s. destruct c as [a |]; [| exact Hplain].
    simpl. rewrite Hplain, andb_true_r.
    destruct (sign_is_plain a Hc) as [H _]. rewrite H. reflexivity. }
  assert (Hl : lstrip is_sign (remove_commas b) = remove_commas b).
  { apply lstrip_every. generalize (remove_commas_digits b Hb).
    apply every_impl. intros x Hx.
    destruct (digit_is_plain x Hx) as [_ [_ [H _]]]. rewrite H.
    reflexivity. }
  unfold parse_price. fold s. unfold strip.
  rewrite (lstrip_every _ _ Hs), (rstrip_every _ _ Hs).
  assert (Hclean : lstrip is_sign (remove_commas s) = remove_commas b).
  { unfold s. destruct c as [a |]; [| exact Hl].
    simpl. destruct (sign_is_plain a Hc) as [_ H]. rewrite H.
    simpl. rewrite Hc. exact Hl. }
  rewrite Hclean, (remove_commas_nonempty b Hh). reflexivity.
Qed.

Lemma sign_cases (a : ascii) :
  is_sign a = true -> a = "+"%char \/ a = "-"%char.
Proof.
  unfold is_sign. intros H. apply orb_true_iff in H.
  destruct H as [H | H]; apply Ascii.eqb_eq in H; [left | right]; exact H.
Qed.

(** X9.  On a well-formed number text (an optional leading sign, then
    digits with thousands separators) of at most 15 characters, so that
    the number is one that floats hold exactly, [to_int] and
    [parse_price] read the same magnitude n: the price is n, the count is
    n, or -n when the text starts with a minus sign. *)
Theorem count_and_price_agree (s : string) :
  well_formed s = true ->
  (String.length s <= 15)%nat ->
  exists (n : Z) (q : Q),
    (0 <= n)%Z
    /\ parse_price (VStr s) = Returned q
    /\ (q == inject_Z n)%Q
    /\ to_int (JStr s)
       = Returned match s with
                  | String c _ => if Ascii.eqb c "-" then (- n)%Z else n
                  | EmptyString => n
                  end.
Proof.
  unfold well_formed. intros H Hlen. apply andb_true_iff in H.
  destruct s as [| a b]; [destruct H as [_ H]; discriminate H |].
  cbn [String.length] in Hlen.
  destruct (is_sign a) eqn:Ea; destruct H as [Hb Hh].
  - destruct (float_of_signed_digits (remove_commas b)
                (remove_commas_digits b Hb) (remove_commas_nonempty b Hh))
      as [v [q [Hv [Hq [F0 [Fp [Fm [T0 Tm]]]]]]]].
    pose proof (remove_commas_length b) as Hrl.
    pose proof (short_number_in_range v _ Hv ltac:(lia)) as Hin.
    exists v, q.
    split; [lia |].
    split; [rewrite (parse_price_clean (Some a) b Ea Hb Hh); exact F0 |].
    split; [exact Hq |].
    unfold to_int. cbn [is_empty remove_commas].
    destruct (sign_is_plain a Ea) as [_ Hcomma]. rewrite Hcomma.
    destruct (sign_cases a Ea) as [-> | ->].
    + rewrite Fp, (int_of_read_integer q v Hq Hin), T0. reflexivity.
    + rewrite Fm.
      assert (Hq' : (- q == inject_Z (- v))%Q)
        by (rewrite Hq; reflexivity).
      rewrite (int_of_read_integer (- q) (- v) Hq' ltac:(lia)), Tm.
      reflexivity.
  - assert (Hm : Ascii.eqb a "-" = false).
    { unfold is_sign in Ea. apply orb_false_iff in Ea. apply Ea. }
    destruct (float_of_signed_digits (remove_commas (String a b))
                (remove_commas_digits _ Hb) (remove_commas_nonempty _ Hh))
      as [v [q [Hv [Hq [F0 [_ [_ [T0 _]]]]]]]].
    pose proof (remove_commas_length (String a b)) as Hrl.
    cbn [String.length] in Hrl.
    pose proof (short_number_in_range v _ Hv ltac:(lia)) as Hin.
    exists v, q.
    split; [lia |].
    split; [rewrite (parse_price_clean None (String a b) I Hb Hh); exact F0 |].
    split; [exact Hq |].
    rewrite Hm. unfold to_int. cbn [is_empty].
    rewrite F0, (int_of_read_integer q v Hq Hin), T0. reflexivity.
Qed.

Lemma count_and_price_agree_witness :
  well_formed "-1,234" = true
  /\ exists (n : Z) (q : Q),
       (0 <= n)%Z
       /\ parse_price (VStr "-1,234") = Returned q
       /\ (q == inject_Z n)%Q
       /\ to_int (JStr "-1,234") = Returned (- n)%Z.
Proof.
  split; [reflexivity |].
  apply (count_and_price_agree "-1,234" eq_refl).
  cbn [String.length]. lia.
Defined.

Lemma to_series_lengths (items : list dict) (closes : list Q)
    (volumes : list Z) :
  to_series items = Returned (closes, volumes) ->
  length closes = length items /\ length volumes = length items.
Proof.
  revert closes volumes.
  induction items as [| item rest IH]; intros closes volumes H.
  - injection H as <- <-. split; reflexivity.
  - cbn [to_series] in H.
    destruct (parse_price_of (close_of item)) as [c | e];
      cbn [bind] in H; [| discriminate H].
    destruct (to_int (volume_of item)) as [v | e];
      cbn [bind] in H; [| discriminate H].
    destruct (to_series rest) as [[cs vs] | e];
      cbn [bind fst snd] in H; [| discriminate H].
    injection H as <- <-.
    destruct (IH cs vs eq_refl) as [Hc Hv].
    cbn [length]. split; congruence.
Qed.

(** X10.  When [to_series] returns, it returns one close and one volume
    for every item, so that the two lists stay aligned bar by bar. *)
Theorem to_series_aligned (items : list dict) (closes : list Q)
    (volumes : list Z) :
  to_series items = Returned (closes, volumes) ->
  length closes = length items /\ length volumes = length items.
Proof. apply to_series_lengths. Qed.

Lemma to_series_aligned_witness :
  to_series [[("cur_prc", JStr "-71,500"); ("trde_qty", JStr "1,200")];
             [("close", JInt 71000)];
             [("stk_clsprc", JStr "70900"); ("volume", JInt 5)]]%string
  = Returned ([71500; 71000; 70900]%Q, [1200; 0; 5]%Z)
  /\ length [71500; 71000; 70900]%Q = 3%nat
  /\ length [1200; 0; 5]%Z = 3%nat.
Proof.
  assert (E : to_series
                [[("cur_prc", JStr "-71,500"); ("trde_qty", JStr "1,200")];
                 [("close", JInt 71000)];
                 [("stk_clsprc", JStr "70900"); ("volume", JInt 5)]]%string
              = Returned ([71500; 71000; 70900]%Q, [1200; 0; 5]%Z))
    by (vm_compute; reflexivity).
  split; [exact E |].
  exact (to_series_aligned _ _ _ E).
Defined.

(** X11.  A response whose chart holds fewer than 30 bars gives no row,
    whatever the bars are: the candidate is passed over, unless reading a
    bar has raised. *)
Theorem short_chart_gives_no_row (code name : string) (response : dict)
    (recent_high_bars : Z) (pullback_min pullback_max min_vol_ratio : Q) :
  (length (extract_chart_items (JDict response)) < 30)%nat ->
  match evaluate_response code name response recent_high_bars
                          pullback_min pullback_max min_vol_ratio with
  | Returned (Some _) => False
  | Returned None => True
  | Raised _ => True
  end.
Proof.
  intros Hlen. unfold evaluate_response.
  destruct (negb (return_code_ok response)); [exact I |].
  destruct (to_series (extract_chart_items (JDict response)))
    as [[closes volumes] | e] eqn:E; cbn [bind fst snd]; [| exact I].
  destruct (to_series_lengths _ _ _ E) as [Hc _].
  rewrite evaluate_signal_short; [exact I | lia].
Qed.

Lemma short_chart_gives_no_row_witness :
  match evaluate_response "005930" "Samsung"
          [("return_code", JInt 0);
           ("stk_min_pole_chart_qry",
            JList [JDict [("cur_prc", JStr "71,500")]; JStr "x"])]%string
          120 3 15 1 with
  | Returned (Some _) => False
  | Returned None => True
  | Raised _ => True
  end.
Proof.
  apply short_chart_gives_no_row. vm_compute. lia.
Defined.

End SeriesFacts.
(** ** Expiry of a token *)

Section ExpiryFacts.

Import Net Terms.
Local Open Scope Z_scope.

(** X12.  Expiry is monotone in time: a token that is expired at some time
    is expired at every later time. *)
Theorem expiry_is_monotone (now later : Z) (tok : Token) :
  now <= later ->
  Auth.is_expired now tok = Returned true ->
  Auth.is_expired later tok = Returned true.
Proof.
  unfold Auth.is_expired. intros Hle.
  destruct (PyStr.is_empty (expires_dt tok)); [discriminate |].
  destruct (DateTime.strptime (expires_dt tok)) as [t | e].
  - destruct (DateTime.sub t (DateTime.minutes 1)) as [limit | e];
      cbn [bind]; [| discriminate].
    intros H. injection H as H. apply Z.leb_le in H.
    f_equal. apply Z.leb_le. lia.
  - destruct e; discriminate.
Qed.

Lemma expiry_is_monotone_witness :
  Auth.is_expired (clock (session []))
                  (mkToken "abc" "Bearer" "20240301120030")
  = Returned true
  /\ Auth.is_expired (clock (session []) + DateTime.minutes 90)
                     (mkToken "abc" "Bearer" "20240301120030")
     = Returned true.
Proof.
  assert (H : Auth.is_expired (clock (session []))
                              (mkToken "abc" "Bearer" "20240301120030")
              = Returned true) by (vm_compute; reflexivity).
  split; [exact H |].
  apply (expiry_is_monotone (clock (session [])) _ _); [| exact H].
  vm_compute. discriminate.
Defined.

(** X13.  [is_expired] raises in one case only, and then whatever the time
    is: when [expires_dt] parses to a time in the first minute of the year
    1, the subtraction of the minute of margin leaves the range of dates
    and its [OverflowError] is not caught. *)
Theorem is_expired_raises_overflow (now : Z) (tok : Token) (e : exn) :
  Auth.is_expired now tok = Raised e
  <-> e = OverflowError
      /\ exists t, DateTime.strptime (expires_dt tok) = Returned t
                   /\ DateTime.timestamp t < DateTime.minutes 1.
Proof.
  unfold Auth.is_expired. split.
  - destruct (PyStr.is_empty (expires_dt tok)); [discriminate |].
    destruct (DateTime.strptime (expires_dt tok)) as [t | e'] eqn:Ep.
    + unfold DateTime.sub.
      destruct (DateTime.timestamp t - DateTime.minutes 1 <? 0) eqn:L;
        cbn [bind]; [| discriminate].
      intros H. injection H as <-. apply Z.ltb_lt in L.
      split; [reflexivity |]. exists t. split; [reflexivity | lia].
    + rewrite (strptime_raises _ _ Ep). discriminate.
  - intros [-> [t [Ep Ht]]].
    destruct (expires_dt tok) as [| c s] eqn:E.
    + vm_compute in Ep. discriminate Ep.
    + cbn [PyStr.is_empty]. rewrite Ep. unfold DateTime.sub.
      assert (L : (DateTime.timestamp t - DateTime.minutes 1 <? 0) = true)
        by (apply Z.ltb_lt; lia).
      rewrite L. reflexivity.
Qed.

Lemma is_expired_raises_overflow_witness :
  Auth.is_expired (clock (session []))
                  (mkToken "abc" "Bearer" "00010101000030")
  = Raised OverflowError
  /\ exists t,
       DateTime.strptime "00010101000030" = Returned t
       /\ DateTime.timestamp t < DateTime.minutes 1.
Proof.
  assert (H : Auth.is_expired (clock (session []))
                              (mkToken "abc" "Bearer" "00010101000030")
              = Raised OverflowError) by (vm_compute; reflexivity).
  split; [exact H |].
  exact (proj2 (proj1 (is_expired_raises_overflow _ _ _) H)).
Defined.

End ExpiryFacts.

(** ** The token manager: refreshing and giving back *)

Section TokenMore.

Import Net Terms Notions.
Local Open Scope Z_scope.

Lemma token_posts_app (t1 t2 : list Event) :
  token_posts (t1 ++ t2) = (token_posts t1 + token_posts t2)%nat.
Proof.
  induction t1 as [| e t1 IH]; simpl; [reflexivity |].
  destruct e; simpl; rewrite IH; reflexivity.
Qed.

Lemma posts_app (t1 t2 : list Event) :
  posts (t1 ++ t2) = (posts t1 + posts t2)%nat.
Proof.
  induction t1 as [| e t1 IH]; simpl; [reflexivity |].
  destruct e; simpl; rewrite IH; reflexivity.
Qed.

(** A non-empty string or nothing: what [a or b] found. *)
Lemma truthy_nonempty (a : option string) :
  Auth.truthy a = true ->
  exists s, a = Some s /\ s <> EmptyString.
Proof.
  destruct a as [s |]; simpl; [| discriminate].
  destruct s; simpl; [discriminate |].
  intros _. eexists. split; [reflexivity | discriminate].
Qed.

(** What a refresh leaves behind: one request to the token endpoint on the
    trace; a non-empty token in the slot when it returns, the slot as it
    was when it raises. *)
Lemma refresh_effect (st : State) :
  trace (snd (Auth._refresh_token st)) = trace st ++ [TokenPosted]
  /\ clock (snd (Auth._refresh_token st)) = clock st
  /\ api_replies (snd (Auth._refresh_token st)) = api_replies st
  /\ _last_request_time (snd (Auth._refresh_token st))
     = _last_request_time st
  /\ match fst (Auth._refresh_token st) with
     | Returned _ =>
         exists t, _token (snd (Auth._refresh_token st)) = Some t
                   /\ access_token t <> EmptyString
     | Raised _ => _token (snd (Auth._refresh_token st)) = _token st
     end.
Proof.
  unfold Auth._refresh_token, mbind, Auth.post_token, modify, raise.
  cbn [token_replies record_event].
  destruct (token_replies st) as [| [status result |] later];
    cbn [fst snd trace clock api_replies _last_request_time _token
         set_token_replies];
    try (repeat split; reflexivity).
  destruct (is_success status);
    [| cbn [fst snd trace clock api_replies _last_request_time _token
            set_token_replies]; repeat split; reflexivity].
  destruct (Auth.truthy
              (Auth.py_or (r_token result) (r_access_token result))) eqn:T;
    cbn [fst snd trace clock api_replies _last_request_time _token
         set_token_replies set_token];
    [| repeat split; reflexivity].
  repeat split.
  destruct (truthy_nonempty _ T) as [s [Es Hs]].
  eexists. split; [reflexivity |].
  rewrite Es. exact Hs.
Qed.

(** The token property, taken apart: whether it refreshes first. *)
Lemma token_cases (st : State) :
  Auth.token st = (Auth._refresh_token ;;; Auth.read_access_token) st
  \/ (exists t, _token st = Some t
                /\ Auth.token st = (Returned (access_token t), st))
  \/ (exists e, Auth.token st = (Raised e, st)).
Proof.
  destruct (_token st) as [t |] eqn:Et.
  - destruct (Auth.is_expired (clock st) t) as [[|] | e] eqn:Ex.
    + left. unfold Auth.token. unfold mbind at 1 2 3. unfold get, lift.
      rewrite Et, Ex. reflexivity.
    + right. left. exists t. split; [reflexivity |].
      unfold Auth.token, Auth.read_access_token, mbind, get, lift, ret.
      rewrite Et, Ex. cbv beta iota. rewrite Et. reflexivity.
    + right. right. exists e.
      unfold Auth.token, mbind, get, lift. rewrite Et, Ex. reflexivity.
  - left. unfold Auth.token. unfold mbind at 1 2 3. unfold get, lift.
    rewrite Et. reflexivity.
Qed.

(** X14.  When the [token] property returns a token, the slot of the
    manager holds that token; reading it has cost at most one request to
    the token endpoint, no request to an API endpoint and no time. *)
Theorem token_hands_out_slot (st st' : State) (tok : string) :
  Auth.token st = (Returned tok, st') ->
  (exists t, _token st' = Some t /\ access_token t = tok)
  /\ (token_posts (trace st') <= token_posts (trace st) + 1)%nat
  /\ posts (trace st') = posts (trace st)
  /\ clock st' = clock st.
Proof.
  intros H.
  destruct (token_cases st) as [E | [[t [Et E]] | [e E]]];
    rewrite E in H.
  - unfold mbind in H.
    destruct (refresh_effect st) as [Htr [Hck [_ [_ Hslot]]]].
    destruct (Auth._refresh_token st) as [[[] | e] st1];
      cbn [fst snd] in *; [| discriminate H].
    destruct Hslot as [t [Et _]].
    unfold Auth.read_access_token, mbind, get, ret in H. rewrite Et in H.
    injection H as <- <-.
    split; [exists t; split; [exact Et | reflexivity] |].
    rewrite Htr, token_posts_app, posts_app. cbn [token_posts posts].
    repeat split; [lia | lia | exact Hck].
  - injection H as <- <-.
    split; [exists t; split; [exact Et | reflexivity] |].
    repeat split. lia.
  - discriminate H.
Qed.

Lemma token_hands_out_slot_witness :
  exists st',
    Auth.token
      (mkState None 0 (clock (session []))
               [TokenAnswered 200 (mkTokenResult (Some "t1"%string)
                                                 (Some "t2"%string)
                                                 None None)]
               [] [])
    = (Returned "t1"%string, st')
    /\ (exists t, _token st' = Some t /\ access_token t = "t1"%string)
    /\ (token_posts (trace st') <= 0 + 1)%nat.
Proof.
  eexists. split; [vm_compute; reflexivity |].
  refine (let H := token_hands_out_slot
                     (mkState None 0 (clock (session []))
                        [TokenAnswered 200
                           (mkTokenResult (Some "t1"%string)
                                          (Some "t2"%string) None None)]
                        [] []) _ "t1"%string _ in
          conj (proj1 H) (proj1 (proj2 H))).
  vm_compute. reflexivity.
Defined.

(** X15.  When the [token] property raises, the slot of the manager is as
    it was: a refresh that fails keeps the token that was cached, and an
    empty slot stays empty. *)
Theorem failed_refresh_keeps_slot (st st' : State) (e : exn) :
  Auth.token st = (Raised e, st') ->
  _token st' = _token st
  /\ clock st' = clock st
  /\ posts (trace st') = posts (trace st).
Proof.
  intros H.
  destruct (token_cases st) as [E | [[t [Et E]] | [e' E]]];
    rewrite E in H.
  - unfold mbind in H.
    destruct (refresh_effect st) as [Htr [Hck [_ [_ Hslot]]]].
    destruct (Auth._refresh_token st) as [[[] | e1] st1];
      cbn [fst snd] in *.
    + destruct Hslot as [t [Et _]].
      unfold Auth.read_access_token, mbind, get, ret in H.
      rewrite Et in H. discriminate H.
    + injection H as _ <-.
      rewrite Htr, posts_app. cbn [posts].
      repeat split; [exact Hslot | exact Hck | lia].
  - discriminate H.
  - injection H as _ <-. repeat split.
Qed.

Lemma failed_refresh_keeps_slot_witness :
  exists st',
    Auth.token
      (mkState (Some (mkToken "old" "Bearer" "20240301115900")) 0
               (clock (session []))
               [TokenAnswered 503 (mkTokenResult None None None None)]
               [] [])
    = (Raised (HTTPStatusError 503), st')
    /\ _token st' = Some (mkToken "old" "Bearer" "20240301115900").
Proof.
  eexists. split; [vm_compute; reflexivity |].
  refine (proj1 (failed_refresh_keeps_slot
                   (mkState (Some (mkToken "old" "Bearer" "20240301115900"))
                            0 (clock (session []))
                            [TokenAnswered 503
                               (mkTokenResult None None None None)]
                            [] [])
                   _ (HTTPStatusError 503) _)).
  vm_compute. reflexivity.
Defined.

(** X16.  A refresh that returns has stored a token that is not empty: a
    reply without a token is answered with an error, never cached. *)
Theorem refresh_stores_nonempty_token (st st' : State) :
  Auth._refresh_token st = (Returned tt, st') ->
  (exists t, _token st' = Some t /\ access_token t <> EmptyString)
  /\ token_posts (trace st') = S (token_posts (trace st)).
Proof.
  intros H.
  destruct (refresh_effect st) as [Htr [_ [_ [_ Hslot]]]].
  rewrite H in *. cbn [fst snd] in *.
  split; [exact Hslot |].
  rewrite Htr, token_posts_app. cbn [token_posts]. lia.
Qed.

Lemma refresh_stores_nonempty_token_witness :
  exists st',
    Auth._refresh_token
      (mkState None 0 (clock (session []))
               [TokenAnswered 200 (mkTokenResult (Some ""%string)
                                                 (Some "t2"%string)
                                                 None None)]
               [] [])
    = (Returned tt, st')
    /\ exists t, _token st' = Some t /\ access_token t <> EmptyString.
Proof.
  eexists. split; [vm_compute; reflexivity |].
  refine (proj1 (refresh_stores_nonempty_token
                   (mkState None 0 (clock (session []))
                            [TokenAnswered 200
                               (mkTokenResult (Some ""%string)
                                              (Some "t2"%string)
                                              None None)]
                            [] [])
                   _ _)).
  vm_compute. reflexivity.
Defined.

(** The POST of [revoke]. *)
Lemma revoke_cases (config : KiwoomConfig) (st : State) (t : Token) :
  _token st = Some t ->
  exists st',
    Shutdown.revoke config st
    = (match api_replies st with
       | Answered _ :: _ => Returned tt
       | _ => Raised TransportError
       end, st')
    /\ _token st' = None
    /\ posts (trace st') = S (posts (trace st)).
Proof.
  intros Et. unfold Shutdown.revoke, Client.post. rewrite Et.
  cbn [api_replies record_event].
  destruct (api_replies st) as [| [r |] later];
    (eexists; split; [reflexivity |]);
    cbn [_token trace set_token set_api_replies record_event];
    (split; [reflexivity |]);
    rewrite posts_app; cbn [posts]; lia.
Qed.

Lemma revoke_slot (config : KiwoomConfig) (st : State) :
  _token (snd (Shutdown.revoke config st)) = None.
Proof.
  destruct (_token st) as [t |] eqn:Et.
  - destruct (revoke_cases config st t Et) as [st' [E [Hnone _]]].
    rewrite E. exact Hnone.
  - unfold Shutdown.revoke. rewrite Et. exact Et.
Qed.

(** X17.  [revoke] leaves the slot empty in every case.  Without a cached
    token it does nothing else.  With one it sends exactly one request; it
    returns normally when that request is answered, whatever the status
    of the answer, and lets the transport error through when it is not. *)
Theorem revoke_empties_slot (config : KiwoomConfig) (st : State) :
  _token (snd (Shutdown.revoke config st)) = None
  /\ (_token st = None -> Shutdown.revoke config st = (Returned tt, st))
  /\ (forall t, _token st = Some t ->
        posts (trace (snd (Shutdown.revoke config st)))
        = S (posts (trace st))
        /\ (forall r later,
              api_replies st = Answered r :: later ->
              fst (Shutdown.revoke config st) = Returned tt)
        /\ (forall later,
              api_replies st = Failed :: later ->
              fst (Shutdown.revoke config st) = Raised TransportError)).
Proof.
  split; [| split].
  - apply revoke_slot.
  - intros Et. unfold Shutdown.revoke. rewrite Et. reflexivity.
  - intros t Et.
    destruct (revoke_cases config st t Et) as [st' [E [_ Hposts]]].
    rewrite E. cbn [fst snd].
    split; [| split].
    + exact Hposts.
    + intros r later Hr. rewrite Hr. reflexivity.
    + intros later Hr. rewrite Hr. reflexivity.
Qed.

Lemma revoke_empties_slot_witness :
  _token (session [Failed]) = Some (mkToken "abc" "Bearer" "20240301130000")
  /\ fst (Shutdown.revoke sample_config (session [Failed]))
     = Raised TransportError
  /\ _token (snd (Shutdown.revoke sample_config (session [Failed]))) = None
  /\ posts (trace (snd (Shutdown.revoke sample_config (session [Failed]))))
     = 1%nat.
Proof.
  split; [reflexivity |].
  destruct (revoke_empties_slot sample_config (session [Failed]))
    as [Hnone [_ H]].
  destruct (H (mkToken "abc" "Bearer" "20240301130000") eq_refl)
    as [Hposts [_ Hfail]].
  split; [exact (Hfail [] eq_refl) |].
  split; [exact Hnone | exact Hposts].
Defined.

(** X18.  After [close] the next read of the [token] property goes to the
    token endpoint: exactly one request is made there, whatever token was
    cached before. *)
Theorem token_after_close_is_fetched (config : KiwoomConfig) (st : State) :
  token_posts
    (trace (snd (Auth.token (snd (Shutdown.close config st)))))
  = S (token_posts (trace (snd (Shutdown.close config st)))).
Proof.
  unfold Shutdown.close.
  pose proof (revoke_slot config st) as Hnone.
  set (st1 := snd (Shutdown.revoke config st)) in *.
  unfold Auth.token. unfold mbind at 1 2 3. unfold get, lift.
  rewrite Hnone.
  unfold mbind.
  destruct (refresh_effect st1) as [Htr [_ [_ [_ Hslot]]]].
  destruct (Auth._refresh_token st1) as [[[] | e] st2];
    cbn [fst snd] in *.
  - destruct Hslot as [t [Et _]].
    unfold Auth.read_access_token, mbind, get, ret. rewrite Et.
    cbn [snd]. rewrite Htr, token_posts_app. cbn [token_posts]. lia.
  - rewrite Htr, token_posts_app. cbn [token_posts]. lia.
Qed.

End TokenMore.
(** ** The request executor: pacing and the errors that end a request *)

Section RequestMore.

Import Net Client Terms Notions.
Local Open Scope Z_scope.

(** What the pacing step does, whatever the state. *)
Lemma wait_effect (st : State) :
  exists st',
    _wait_for_rate_limit st = (Returned tt, st')
    /\ time_time st'
       = Z.max (time_time st) (_last_request_time st + MIN_REQUEST_INTERVAL)
    /\ _last_request_time st' = time_time st'
    /\ _token st' = _token st
    /\ token_replies st' = token_replies st
    /\ api_replies st' = api_replies st
    /\ posts (trace st') = posts (trace st)
    /\ token_posts (trace st') = token_posts (trace st)
    /\ backoffs (trace st') = backoffs (trace st).
Proof.
  unfold _wait_for_rate_limit, mbind, get, modify, sleep, ret.
  destruct (time_time st - _last_request_time st <? MIN_REQUEST_INTERVAL)
    eqn:E.
  - apply Z.ltb_lt in E.
    assert (L : (MIN_REQUEST_INTERVAL
                 - (time_time st - _last_request_time st) <? 0) = false)
      by (apply Z.ltb_ge; lia).
    rewrite L. eexists. split; [reflexivity |].
    unfold time_time in *.
    cbn [_token api_replies token_replies trace set_last_request_time
         record_event set_clock clock _last_request_time].
    rewrite posts_app, token_posts_app, backoffs_app.
    cbn [posts token_posts backoffs]. rewrite app_nil_r.
    repeat split; lia.
  - apply Z.ltb_ge in E.
    eexists. split; [reflexivity |].
    unfold time_time in *.
    cbn [_token api_replies token_replies trace set_last_request_time
         clock _last_request_time].
    repeat split; lia.
Qed.

(** X19.  The pacing step never fails and sleeps just long enough: after
    it the time is the later of the time before and the time of the last
    request plus the minimum interval of 0.35 s, and that time is recorded
    as the time of the last request.  It sends nothing. *)
Theorem wait_reaches_interval (st : State) :
  exists st',
    _wait_for_rate_limit st = (Returned tt, st')
    /\ time_time st'
       = Z.max (time_time st) (_last_request_time st + MIN_REQUEST_INTERVAL)
    /\ _last_request_time st' = time_time st'
    /\ posts (trace st') = posts (trace st)
    /\ token_posts (trace st') = token_posts (trace st).
Proof.
  destruct (wait_effect st) as [st' [W [Ht [Hl [_ [_ [_ [Hp [Hq _]]]]]]]]].
  exists st'. repeat split; assumption.
Qed.

Lemma range_first (n : Z) :
  0 < n -> exists later, range n = 0 :: later.
Proof.
  intros Hn. unfold range.
  destruct (Z.to_nat n) as [| k] eqn:E; [lia |].
  eexists. reflexivity.
Qed.

(** The first of the attempts that remain, up to the answer to its
    request. *)
Lemma attempt_posts (config : KiwoomConfig) (api_id path : string)
    (body : Json) (cont_yn next_key : string) (retry_count : Z)
    (a : Z) (later : list Z) (h : Z) (st : State)
    (reply : ApiReply) (rest : list ApiReply) :
  paced st -> fresh_until h st ->
  clock st + MIN_REQUEST_INTERVAL <= h ->
  api_replies st = reply :: rest ->
  exists st1,
    _token st1 = _token st /\ api_replies st1 = rest
    /\ backoffs (trace st1) = backoffs (trace st)
    /\ posts (trace st1) = S (posts (trace st))
    /\ attempts config api_id path body cont_yn next_key retry_count
                (a :: later) st
       = match reply with
         | Failed => (Raised TransportError, st1)
         | Answered r =>
             (if (status_code r =? 429) && (a <? retry_count - 1)
              then
                wait_s <- lift (wait_seconds (retry_after r) a) ;;
                sleep_seconds Backoff wait_s ;;;
                attempts config api_id path body cont_yn next_key
                         retry_count later
              else if is_success (status_code r)
              then lift (json r)
              else if a =? retry_count - 1
              then raise (HTTPStatusError (status_code r))
              else attempts config api_id path body cont_yn next_key
                            retry_count later) st1
         end.
Proof.
  intros Hp Hs Hh Hr.
  destruct (wait_effect st)
    as [st0 [W [Ht [Hl [T0 [_ [A0 [P0 [_ B0]]]]]]]]].
  assert (C0 : clock st0 <= clock st + MIN_REQUEST_INTERVAL).
  { unfold paced, time_time, MIN_REQUEST_INTERVAL in *. lia. }
  destruct (auth_ok api_id h st0 (fresh_until_same h st st0 T0 Hs)
              ltac:(lia)) as [headers Hh0].
  cbn [attempts]. unfold mbind at 1. rewrite W.
  unfold mbind at 1. rewrite Hh0.
  unfold mbind at 1. unfold post at 1.
  cbn [api_replies record_event]. rewrite A0, Hr.
  destruct reply as [r |]; eexists;
    (split; [| split; [| split; [| split; [| reflexivity]]]]);
    cbn [_token api_replies trace set_api_replies record_event];
    try reflexivity; try exact T0;
    try (rewrite backoffs_app; cbn [backoffs]; rewrite app_nil_r; exact B0);
    try (rewrite posts_app; cbn [posts]; lia).
Qed.

(** X20.  A request that cannot be delivered is not tried again: the
    transport error of the first attempt ends [_request], whatever the
    budget of attempts, after that one request and without a backoff. *)
Theorem transport_failure_not_retried (config : KiwoomConfig)
    (api_id path : string) (body : Json) (cont_yn next_key : string)
    (retry_count : Z) (h : Z) (st : State) (rest : list ApiReply) :
  0 < retry_count ->
  paced st -> fresh_until h st ->
  clock st + MIN_REQUEST_INTERVAL <= h ->
  api_replies st = Failed :: rest ->
  exists st',
    _request config api_id path body cont_yn next_key retry_count st
    = (Raised TransportError, st')
    /\ api_replies st' = rest
    /\ posts (trace st') = S (posts (trace st))
    /\ backoffs (trace st') = backoffs (trace st).
Proof.
  intros Hn Hp Hs Hh Hr. unfold _request.
  destruct (range_first retry_count Hn) as [later ->].
  destruct (attempt_posts config api_id path body cont_yn next_key
              retry_count 0 later h st Failed rest Hp Hs Hh Hr)
    as [st1 [_ [A1 [B1 [P1 E]]]]].
  exists st1. repeat split; assumption.
Qed.

Lemma transport_failure_not_retried_witness :
  exists st',
    _request sample_config "ka10080" "/api/dostk/chart" JNull "" "" 3
             (session [Failed; answer 200 JNull])
    = (Raised TransportError, st')
    /\ api_replies st' = [answer 200 JNull]
    /\ posts (trace st') = 1%nat
    /\ backoffs (trace st') = [].
Proof.
  apply (transport_failure_not_retried sample_config "ka10080"
           "/api/dostk/chart" JNull "" "" 3
           (clock (session [Failed; answer 200 JNull])
            + MIN_REQUEST_INTERVAL)
           (session [Failed; answer 200 JNull]) [answer 200 JNull]).
  - lia.
  - apply session_paced.
  - apply session_fresh. vm_compute. discriminate.
  - lia.
  - reflexivity.
Defined.

(** X21.  An error status of the token endpoint ends the request at once:
    with no token cached, [_request] raises the status error of the token
    endpoint after one request there, sends nothing to the API endpoint
    and does not use the attempts that remain. *)
Theorem token_error_stops_request (config : KiwoomConfig)
    (api_id path : string) (body : Json) (cont_yn next_key : string)
    (retry_count : Z) (st : State) (status : Z) (result : TokenResult)
    (later : list TokenReply) :
  0 < retry_count ->
  _token st = None ->
  token_replies st = TokenAnswered status result :: later ->
  is_success status = false ->
  exists st',
    _request config api_id path body cont_yn next_key retry_count st
    = (Raised (HTTPStatusError status), st')
    /\ posts (trace st') = posts (trace st)
    /\ token_posts (trace st') = S (token_posts (trace st))
    /\ api_replies st' = api_replies st
    /\ _token st' = None.
Proof.
  intros Hn Hnone Hr Hbad. unfold _request.
  destruct (range_first retry_count Hn) as [attempts_left ->].
  destruct (wait_effect st)
    as [st0 [W [_ [_ [T0 [R0 [A0 [P0 [Q0 _]]]]]]]]].
  cbn [attempts]. unfold mbind at 1. rewrite W.
  unfold mbind at 1.
  unfold Auth.get_auth_header. unfold mbind at 1.
  unfold Auth.token. unfold mbind at 1 2 3. unfold get, lift.
  rewrite T0, Hnone.
  unfold Auth._refresh_token. unfold mbind at 1.
  unfold Auth.post_token. cbn [token_replies record_event].
  rewrite R0, Hr, Hbad. unfold raise.
  eexists. split; [reflexivity |].
  cbn [trace api_replies _token set_token_replies record_event].
  rewrite posts_app, token_posts_app. cbn [posts token_posts].
  repeat split; [lia | lia | exact A0 | congruence].
Qed.

Lemma token_error_stops_request_witness :
  exists st',
    _request sample_config "ka10080" "/api/dostk/chart" JNull "" "" 3
             (mkState None 0 (clock (session []))
                      [TokenAnswered 503 (mkTokenResult None None None None);
                       TokenAnswered 200 (mkTokenResult (Some "t"%string)
                                                        None None None)]
                      [answer 200 JNull] [])
    = (Raised (HTTPStatusError 503), st')
    /\ posts (trace st') = 0%nat
    /\ token_posts (trace st') = 1%nat
    /\ api_replies st' = [answer 200 JNull]
    /\ _token st' = None.
Proof.
  apply (token_error_stops_request sample_config "ka10080"
           "/api/dostk/chart" JNull "" "" 3
           (mkState None 0 (clock (session []))
                    [TokenAnswered 503 (mkTokenResult None None None None);
                     TokenAnswered 200 (mkTokenResult (Some "t"%string)
                                                      None None None)]
                    [answer 200 JNull] [])
           503 (mkTokenResult None None None None)
           [TokenAnswered 200 (mkTokenResult (Some "t"%string)
                                             None None None)]).
  - lia.
  - reflexivity.
  - reflexivity.
  - reflexivity.
Defined.




End RequestMore.
(** ** Loading the configuration *)

Section ConfigFacts.

Import PyStr Notions.

Lemma rstrip_idempotent (p : ascii -> bool) (s : string) :
  rstrip p (rstrip p s) = rstrip p s.
Proof.
  induction s as [| c s IH]; [reflexivity |].
  cbn [rstrip].
  destruct (rstrip p s) as [| d r] eqn:E.
  - destruct (p c) eqn:Ec; [reflexivity |].
    cbn [rstrip]. rewrite Ec. reflexivity.
  - cbn [rstrip]. cbn [rstrip] in IH. rewrite IH. reflexivity.
Qed.

(** What [lstrip] leaves starts with a character it does not strip. *)
Lemma lstrip_head (p : ascii -> bool) (s : string) :
  lstrip p s = EmptyString
  \/ exists c t, lstrip p s = String c t /\ p c = false.
Proof.
  induction s as [| c s IH]; [left; reflexivity |].
  cbn [lstrip]. destruct (p c) eqn:Ec; [exact IH |].
  right. exists c, s. split; [reflexivity | exact Ec].
Qed.

Lemma strip_idempotent (s : string) : strip (strip s) = strip s.
Proof.
  unfold strip.
  destruct (lstrip_head str_isspace s) as [E | [c [t [E Hc]]]]; rewrite E.
  - reflexivity.
  - assert (Hr : exists x, rstrip str_isspace (String c t) = String c x).
    { cbn [rstrip]. rewrite Hc.
      destruct (rstrip str_isspace t); eexists; reflexivity. }
    destruct Hr as [x Hx].
    rewrite Hx. cbn [lstrip]. rewrite Hc. rewrite <- Hx.
    apply rstrip_idempotent.
Qed.

Lemma nonempty_string (s : string) :
  is_empty s = false -> s <> EmptyString.
Proof. destruct s; [discriminate | discriminate]. Qed.

(** X23.  [from_env] raises nothing but [ValueError]; a configuration that
    it returns has a key, a secret and a base URL that are not empty, and
    none of its four texts has white space at either end. *)
Theorem from_env_credentials (env : string -> option string) :
  match Config.from_env env with
  | Returned c =>
      app_key c <> EmptyString /\ app_secret c <> EmptyString
      /\ base_url c <> EmptyString
      /\ trimmed (app_key c) /\ trimmed (app_secret c)
      /\ trimmed (account_no c) /\ trimmed (base_url c)
  | Raised e => e = ValueError
  end.
Proof.
  unfold Config.from_env, trimmed.
  destruct (String.eqb
              (PyText.lower
                 (strip (Config.getenv env "KIWOOM_ENV" "paper")))
              "paper");
    cbv beta iota zeta.
  - destruct (is_empty (strip (Config.getenv env "KIWOOM_PAPER_APP_KEY" "")))
      eqn:Ek; [reflexivity |].
    destruct (is_empty
                (strip (Config.getenv env "KIWOOM_PAPER_APP_SECRET" "")))
      eqn:Es; [reflexivity |].
    cbn [orb app_key app_secret account_no base_url].
    split; [apply nonempty_string, Ek |].
    split; [apply nonempty_string, Es |].
    destruct (is_empty
                (strip (Config.getenv env "KIWOOM_BASE_URL"
                                      "https://mockapi.kiwoom.com")))
      eqn:Eu.
    + repeat split; try apply strip_idempotent; discriminate.
    + repeat split; try apply strip_idempotent.
      apply nonempty_string, Eu.
  - destruct (is_empty (strip (Config.getenv env "KIWOOM_APP_KEY" "")))
      eqn:Ek; [reflexivity |].
    destruct (is_empty (strip (Config.getenv env "KIWOOM_APP_SECRET" "")))
      eqn:Es; [reflexivity |].
    cbn [orb app_key app_secret account_no base_url].
    split; [apply nonempty_string, Ek |].
    split; [apply nonempty_string, Es |].
    destruct (is_empty
                (strip (Config.getenv env "KIWOOM_BASE_URL"
                                      "https://api.kiwoom.com")))
      eqn:Eu.
    + repeat split; try apply strip_idempotent; discriminate.
    + repeat split; try apply strip_idempotent.
      apply nonempty_string, Eu.
Qed.

(** X24.  The credentials of the other mode are never read.  When
    [KIWOOM_ENV] reads as paper (it does when it is not set), changing
    [KIWOOM_APP_KEY], [KIWOOM_APP_SECRET] and [KIWOOM_ACCOUNT_NO] changes
    nothing, and the configuration is one of paper trading; when it reads
    as anything else, changing the three [KIWOOM_PAPER_...] variables
    changes nothing. *)
Theorem other_mode_is_not_read (env env' : string -> option string) :
  (PyText.lower (strip (Config.getenv env "KIWOOM_ENV" "paper"))
   = "paper"%string ->
   (forall k : string,
       k <> "KIWOOM_APP_KEY"%string -> k <> "KIWOOM_APP_SECRET"%string ->
       k <> "KIWOOM_ACCOUNT_NO"%string -> env' k = env k) ->
   Config.from_env env' = Config.from_env env
   /\ forall c, Config.from_env env = Returned c -> is_paper c = true)
  /\ (PyText.lower (strip (Config.getenv env "KIWOOM_ENV" "paper"))
      <> "paper"%string ->
      (forall k : string,
          k <> "KIWOOM_PAPER_APP_KEY"%string ->
          k <> "KIWOOM_PAPER_APP_SECRET"%string ->
          k <> "KIWOOM_PAPER_ACCOUNT_NO"%string -> env' k = env k) ->
      Config.from_env env' = Config.from_env env
      /\ forall c, Config.from_env env = Returned c -> is_paper c = false).
Proof.
  split.
  - intros Hpaper Hsame.
    assert (H0 : env' "KIWOOM_ENV"%string = env "KIWOOM_ENV"%string)
      by (apply Hsame; discriminate).
    assert (H1 : env' "KIWOOM_PAPER_APP_KEY"%string
                 = env "KIWOOM_PAPER_APP_KEY"%string)
      by (apply Hsame; discriminate).
    assert (H2 : env' "KIWOOM_PAPER_APP_SECRET"%string
                 = env "KIWOOM_PAPER_APP_SECRET"%string)
      by (apply Hsame; discriminate).
    assert (H3 : env' "KIWOOM_PAPER_ACCOUNT_NO"%string
                 = env "KIWOOM_PAPER_ACCOUNT_NO"%string)
      by (apply Hsame; discriminate).
    assert (H4 : env' "KIWOOM_BASE_URL"%string
                 = env "KIWOOM_BASE_URL"%string)
      by (apply Hsame; discriminate).
    unfold Config.from_env, Config.getenv in *.
    rewrite H0, Hpaper. cbn [String.eqb Ascii.eqb Bool.eqb].
    cbv beta iota zeta. rewrite H1, H2, H3, H4.
    split; [reflexivity |].
    intros c Hc.
    destruct (is_empty _ || is_empty _) in Hc; [discriminate Hc |].
    injection Hc as <-. reflexivity.
  - intros Hlive Hsame.
    assert (H0 : env' "KIWOOM_ENV"%string = env "KIWOOM_ENV"%string)
      by (apply Hsame; discriminate).
    assert (H1 : env' "KIWOOM_APP_KEY"%string
                 = env "KIWOOM_APP_KEY"%string)
      by (apply Hsame; discriminate).
    assert (H2 : env' "KIWOOM_APP_SECRET"%string
                 = env "KIWOOM_APP_SECRET"%string)
      by (apply Hsame; discriminate).
    assert (H3 : env' "KIWOOM_ACCOUNT_NO"%string
                 = env "KIWOOM_ACCOUNT_NO"%string)
      by (apply Hsame; discriminate).
    assert (H4 : env' "KIWOOM_BASE_URL"%string
                 = env "KIWOOM_BASE_URL"%string)
      by (apply Hsame; discriminate).
    apply String.eqb_neq in Hlive.
    unfold Config.from_env, Config.getenv in *.
    rewrite H0, Hlive.
    cbv beta iota zeta. rewrite H1, H2, H3, H4.
    split; [reflexivity |].
    intros c Hc.
    destruct (is_empty _ || is_empty _) in Hc; [discriminate Hc |].
    injection Hc as <-. reflexivity.
Qed.

Lemma other_mode_is_not_read_witness :
  Config.from_env
    (fun k => if String.eqb k "KIWOOM_PAPER_APP_KEY" then Some " pk "%string
              else if String.eqb k "KIWOOM_PAPER_APP_SECRET"
                   then Some "ps"%string
              else if String.eqb k "KIWOOM_APP_KEY" then Some "live"%string
              else None)
  = Config.from_env
      (fun k => if String.eqb k "KIWOOM_PAPER_APP_KEY" then Some " pk "%string
                else if String.eqb k "KIWOOM_PAPER_APP_SECRET"
                     then Some "ps"%string
                else None)
  /\ Config.from_env
       (fun k => if String.eqb k "KIWOOM_PAPER_APP_KEY"
                 then Some " pk "%string
                 else if String.eqb k "KIWOOM_PAPER_APP_SECRET"
                      then Some "ps"%string
                 else None)
     = Returned (mkKiwoomConfig "pk" "ps" "" true
                                "https://mockapi.kiwoom.com").
Proof.
  split; [| vm_compute; reflexivity].
  refine (proj1 (proj1 (other_mode_is_not_read
                          (fun k => if String.eqb k "KIWOOM_PAPER_APP_KEY"
                                    then Some " pk "%string
                                    else if String.eqb k
                                              "KIWOOM_PAPER_APP_SECRET"
                                         then Some "ps"%string
                                    else None)
                          (fun k => if String.eqb k "KIWOOM_PAPER_APP_KEY"
                                    then Some " pk "%string
                                    else if String.eqb k
                                              "KIWOOM_PAPER_APP_SECRET"
                                         then Some "ps"%string
                                    else if String.eqb k "KIWOOM_APP_KEY"
                                         then Some "live"%string
                                    else None))
                       _ _)).
  - vm_compute. reflexivity.
  - intros k Hk _ _. cbv beta.
    destruct (String.eqb k "KIWOOM_PAPER_APP_KEY"); [reflexivity |].
    destruct (String.eqb k "KIWOOM_PAPER_APP_SECRET"); [reflexivity |].
    apply String.eqb_neq in Hk. rewrite Hk. reflexivity.
Defined.

End ConfigFacts.
(** ** The row filter *)

Section ListingFacts.

Import Listing.
Local Open Scope Q_scope.

Lemma lower_is_empty (s : string) :
  PyStr.is_empty (PyText.lower s) = PyStr.is_empty s.
Proof. destruct s; reflexivity. Qed.

(** X25.  A row that [filter_rows] returns is one of the rows given, and
    it has passed every bound that was set.  With a minimum or a maximum
    price that is a number, its price is known and, when it is a number,
    on the right side of the bound; an infinite price passes only the
    bound it lies beyond; a NaN price passes both, since neither [<] nor
    [>] holds of it.  With a minimum volume its volume is known and not
    below it.  A row without a price or a volume does not pass a bound on
    it. *)
Theorem filter_rows_within_bounds (rows : list StockRow)
    (keyword : option string) (min_price max_price : option float_value)
    (min_volume : option Z) (r : StockRow) :
  In r (filter_rows rows keyword min_price max_price min_volume) ->
  In r rows
  /\ (forall lo, min_price = Some (Num lo) ->
        exists p, price r = Some p
                  /\ match p with
                     | Num q => lo <= q
                     | Inf negative => negative = false
                     | NaN => True
                     end)
  /\ (forall hi, max_price = Some (Num hi) ->
        exists p, price r = Some p
                  /\ match p with
                     | Num q => q <= hi
                     | Inf negative => negative = true
                     | NaN => True
                     end)
  /\ (forall v, min_volume = Some v ->
        exists n, volume r = Some n /\ (v <= n)%Z).
Proof.
  unfold filter_rows. intros H. apply filter_In in H.
  destruct H as [Hin Hk]. split; [exact Hin |].
  unfold kept in Hk.
  destruct (misses _ r); [discriminate Hk |].
  destruct (below (price r) min_price) eqn:E1; [discriminate Hk |].
  destruct (above (price r) max_price) eqn:E2; [discriminate Hk |].
  destruct (below_int (volume r) min_volume) eqn:E3; [discriminate Hk |].
  split; [| split].
  - intros lo ->. unfold below in E1.
    destruct (price r) as [p |]; [| discriminate E1].
    exists p. split; [reflexivity |].
    destruct p as [q | negative |]; cbn [lt] in E1.
    + apply Qlt_bool_false_iff in E1. exact E1.
    + exact E1.
    + exact I.
  - intros hi ->. unfold above in E2.
    destruct (price r) as [p |]; [| discriminate E2].
    exists p. split; [reflexivity |].
    destruct p as [q | negative |]; cbn [lt] in E2.
    + apply Qlt_bool_false_iff in E2. exact E2.
    + apply negb_false_iff in E2. exact E2.
    + exact I.
  - intros v ->. unfold below_int in E3.
    destruct (volume r) as [n |]; [| discriminate E3].
    exists n. split; [reflexivity |].
    apply Z.ltb_ge in E3. exact E3.
Qed.

Lemma filter_rows_within_bounds_witness :
  (In (mkStockRow "005930" "Samsung" (Some (Num 71500)) (Some 900%Z)
                  None None)
      (filter_rows
         [mkStockRow "000660" "Hynix" None (Some 100%Z) None None;
          mkStockRow "005930" "Samsung" (Some (Num 71500)) (Some 900%Z)
                     None None;
          mkStockRow "035420" "Naver" (Some (Num 990)) (Some 5%Z) None None]
         (Some "SAM"%string) (Some (Num 1000)) None (Some 10%Z))
   /\ exists p, Some (Num 71500) = Some p
                /\ match p with
                   | Num q => 1000 <= q
                   | Inf negative => negative = false
                   | NaN => True
                   end)
  /\ filter_rows
       [mkStockRow "000660" "Hynix" (Some NaN) None None None;
        mkStockRow "035420" "Naver" (Some (Num 990)) None None None]
       None (Some (Num 1000)) (Some (Num 2000)) None
     = [mkStockRow "000660" "Hynix" (Some NaN) None None None].
Proof.
  split; [| vm_compute; reflexivity].
  assert (H : In (mkStockRow "005930" "Samsung" (Some (Num 71500))
                             (Some 900%Z) None None)
                 (filter_rows
                    [mkStockRow "000660" "Hynix" None (Some 100%Z) None None;
                     mkStockRow "005930" "Samsung" (Some (Num 71500))
                                (Some 900%Z) None None;
                     mkStockRow "035420" "Naver" (Some (Num 990))
                                (Some 5%Z) None None]
                    (Some "SAM"%string) (Some (Num 1000)) None
                    (Some 10%Z)))
    by (vm_compute; left; reflexivity).
  split; [exact H |].
  exact (proj1 (proj2 (filter_rows_within_bounds _ _ _ _ _ _ H))
               1000 eq_refl).
Defined.

(** X26.  The keyword is matched without regard to its case: two keywords
    that differ only in case select the same rows. *)
Theorem keyword_case_is_ignored (rows : list StockRow) (k k' : string)
    (min_price max_price : option float_value) (min_volume : option Z) :
  PyText.lower k = PyText.lower k' ->
  filter_rows rows (Some k) min_price max_price min_volume
  = filter_rows rows (Some k') min_price max_price min_volume.
Proof.
  intros H. unfold filter_rows.
  rewrite <- (lower_is_empty k), <- (lower_is_empty k'), H.
  reflexivity.
Qed.

Lemma keyword_case_is_ignored_witness :
  filter_rows [mkStockRow "005930" "Samsung" None None None None;
               mkStockRow "000660" "Hynix" None None None None]
              (Some "SAMsung"%string) None None None
  = filter_rows [mkStockRow "005930" "Samsung" None None None None;
                 mkStockRow "000660" "Hynix" None None None None]
                (Some "samSUNG"%string) None None None.
Proof.
  apply keyword_case_is_ignored. reflexivity.
Defined.

End ListingFacts.
